(** * PyEmergia: the data manager and the emergy calculator

    A shallow embedding of the classes [DataManager] and [EmergyCalculator]
    of [src/PyEmergia.py], and the properties of the calculation engine.
    Of the user interface it embeds what decides a run and its display: the
    enumeration [CalculationType], the parsing of the additional parameters,
    the run and the status line of [SimulationFrame], and the selector and
    the pie chart of [ResultsFrame], with the widgets read as the texts they
    hold.

    Conventions of the embedding.
    - A Python [str] is a Rocq [string] holding its UTF-8 bytes.
    - A Python [float] is a binary64 value of [PrimFloat]; a cell of the LCI
      data frame that was never set holds NaN, as pandas stores it.
    - A [dict] is a [gmap]; the data frame is a record of its row labels, its
      column labels and its cells in row-major order.
    - [messagebox] calls are collected as a list of dialogs; [print] calls
      (console traces) are left out. An [except Exception] handler is
      modelled where a library call can raise on the modelled inputs (the
      frame constructor and the column loop of a session load).
    - The builtins [float(str)], [str(float)], [str.lower] and the format
      [{:.2e}] are parameters of the development. *)

From Stdlib Require Import Floats ZArith NArith Ascii String List.
From stdpp Require Import gmap strings list pretty.
Import ListNotations.

Local Open Scope string_scope.
Local Open Scope list_scope.

(** ** Strings *)

Module PyStr.

(** Whitespace as [str.strip] sees it, on the UTF-8 encoding: the one-byte
    code points U+0009..U+000D, U+001C..U+0020, the two-byte U+0085 and
    U+00A0, and the three-byte U+1680, U+2000..U+200A, U+2028, U+2029,
    U+202F, U+205F and U+3000. *)
Definition is_space1 (a : N) : bool :=
  (N.leb 9 a && N.leb a 13) || (N.leb 28 a && N.leb a 32).

Definition is_space2 (a b : N) : bool :=
  N.eqb a 194 && (N.eqb b 133 || N.eqb b 160).

Definition is_space3 (a b c : N) : bool :=
  (N.eqb a 225 && N.eqb b 154 && N.eqb c 128)
  || (N.eqb a 226 && N.eqb b 128
      && ((N.leb 128 c && N.leb c 138) || N.eqb c 168 || N.eqb c 169 || N.eqb c 175))
  || (N.eqb a 226 && N.eqb b 129 && N.eqb c 159)
  || (N.eqb a 227 && N.eqb b 128 && N.eqb c 128).

(** [lstrip_codes fwd l] drops the leading whitespace of [l]; with
    [fwd = false] the list is a reversed string, and the bytes of a
    code point are met last byte first. *)
Fixpoint lstrip_codes (fwd : bool) (l : list N) : list N :=
  match l with
  | [] => []
  | a :: t1 =>
      if is_space1 a then lstrip_codes fwd t1
      else match t1 with
           | [] => l
           | b :: t2 =>
               if (if fwd then is_space2 a b else is_space2 b a)
               then lstrip_codes fwd t2
               else match t2 with
                    | [] => l
                    | c :: t3 =>
                        if (if fwd then is_space3 a b c else is_space3 c b a)
                        then lstrip_codes fwd t3
                        else l
                    end
           end
  end.

Definition codes (s : string) : list N :=
  List.map N_of_ascii (list_ascii_of_string s).

Definition of_codes (l : list N) : string :=
  string_of_list_ascii (List.map ascii_of_N l).

(** [str.strip()] *)
Definition strip (s : string) : string :=
  of_codes (List.rev (lstrip_codes false (List.rev (lstrip_codes true (codes s))))).

(** [str.replace(old, new)] for one-character [old] and [new]. *)
Fixpoint replace (old new : ascii) (s : string) : string :=
  match s with
  | EmptyString => EmptyString
  | String c s' =>
      String (if Ascii.eqb c old then new else c) (replace old new s')
  end.

(** [sep.join(l)] *)
Definition join (sep : string) (l : list string) : string :=
  String.concat sep l.

End PyStr.

(** ** Splitting strings *)

Module PyStrOps.

(** [c in s] for a one-character [c]. *)
Fixpoint contains (c : ascii) (s : string) : bool :=
  match s with
  | EmptyString => false
  | String a s' => Ascii.eqb a c || contains c s'
  end.

(** [s.split(sep)] for a one-character [sep]: the pieces between the
    occurrences of [sep], empty pieces included. *)
Fixpoint split (sep : ascii) (s : string) : list string :=
  match s with
  | EmptyString => [EmptyString]
  | String a s' =>
      if Ascii.eqb a sep then EmptyString :: split sep s'
      else match split sep s' with
           | [] => [String a EmptyString]
           | piece :: pieces => String a piece :: pieces
           end
  end.

(** [s.split(sep, 1)] for a one-character [sep] that occurs in [s]: what
    stands before and after its first occurrence. *)
Fixpoint split_first (sep : ascii) (s : string) : string * string :=
  match s with
  | EmptyString => (EmptyString, EmptyString)
  | String a s' =>
      if Ascii.eqb a sep then (EmptyString, s')
      else let '(before, after) := split_first sep s' in (String a before, after)
  end.

End PyStrOps.

(** ** Floats *)

Module PyFloat.

Local Open Scope float_scope.

(** [pd.isna] on a float. *)
Definition isna (x : float) : bool := PrimFloat.is_nan x.

(** [x != y] on floats. *)
Definition neb (x y : float) : bool := negb (x =? y).

(** [x > y] on floats. *)
Definition gtb (x y : float) : bool := (y <? x).

(** The cell-wise effect of [DataFrame.fillna(0)]. *)
Definition fillna0 (x : float) : float := if isna x then 0 else x.

End PyFloat.

(** ** Data frames and series *)

Record DataFrame := mkDataFrame {
  index : list string;
  columns : list string;
  data : list (list float)
}.

Record Series := mkSeries {
  s_index : list string;
  s_values : list float
}.

Module Pandas.

(** [pd.DataFrame(dtype=float)] *)
Definition empty_frame : DataFrame := mkDataFrame [] [] [].

(** The frame is rectangular: one row of cells per row label, one cell
    per column label in every row. pandas keeps this by construction. *)
Definition wf (df : DataFrame) : Prop :=
  List.length (data df) = List.length (index df)
  /\ Forall (fun row => List.length row = List.length (columns df)) (data df).

Definition mem (x : string) (l : list string) : bool :=
  List.existsb (String.eqb x) l.

(** [df.loc[name] = row] for a label that is not in the index: the row is
    appended. *)
Definition append_row (df : DataFrame) (name : string) (row : list float) : DataFrame :=
  mkDataFrame (index df ++ [name]) (columns df) (data df ++ [row]).

(** [df[name] = np.nan] for a label that is not a column: the column is
    appended, NaN in every row. *)
Definition append_column (df : DataFrame) (name : string) : DataFrame :=
  mkDataFrame (index df) (columns df ++ [name])
              (List.map (fun row => row ++ [PrimFloat.nan]) (data df)).

(** [df.loc[r, c] = v] for existing labels. *)
Definition set_at (df : DataFrame) (r c : string) (v : float) : DataFrame :=
  mkDataFrame (index df) (columns df)
    (zip_with (fun name row =>
                 if String.eqb name r
                 then zip_with (fun col x => if String.eqb col c then v else x)
                               (columns df) row
                 else row)
              (index df) (data df)).

(** Keep the entries of [l] whose label in [names] is not [name]. *)
Fixpoint drop_label {A} (name : string) (names : list string) (l : list A) : list A :=
  match names, l with
  | n :: names', x :: l' =>
      if String.eqb n name then drop_label name names' l'
      else x :: drop_label name names' l'
  | _, _ => []
  end.

(** [df.drop(name, axis=0, inplace=True)] *)
Definition drop_row (df : DataFrame) (name : string) : DataFrame :=
  mkDataFrame (drop_label name (index df) (index df)) (columns df)
              (drop_label name (index df) (data df)).

(** [df.drop(name, axis=1, inplace=True)] *)
Definition drop_column (df : DataFrame) (name : string) : DataFrame :=
  mkDataFrame (index df) (drop_label name (columns df) (columns df))
              (List.map (drop_label name (columns df)) (data df)).

(** [df.empty]: some axis has length 0. *)
Definition empty (df : DataFrame) : bool :=
  match index df, columns df with
  | [], _ | _, [] => true
  | _, _ => false
  end.

(** [pd.Series(index=names, dtype=float).fillna(0)] *)
Definition zero_series (names : list string) : Series :=
  mkSeries names (List.map (fun _ => 0%float) names).

End Pandas.

(** ** numpy arrays: a two-dimensional array is the list of its rows *)

Module Numpy.

Local Open Scope float_scope.

(** [a.shape[0]] *)
Definition shape0 (a : list (list float)) : nat := List.length a.

(** [a.size] *)
Definition size (a : list (list float)) : nat :=
  match a with
  | [] => 0
  | row :: _ => (List.length a * List.length row)%nat
  end.

(** [a * v[:, np.newaxis]]: row [i] of [a] is scaled by [v[i]]. *)
Definition scale_rows (a : list (list float)) (v : list float) : list (list float) :=
  zip_with (fun row t => List.map (fun x => x * t) row) a v.

(** [np.sum(a, axis=0)], as [np.add.reduce] is documented: the
    accumulator starts at the identity [0.0] and the rows are added to it
    in order. [ncols] is [a.shape[1]]. *)
Definition sum_axis0 (ncols : nat) (a : list (list float)) : list float :=
  List.fold_left (zip_with PrimFloat.add) a (List.repeat 0 ncols).


(** [a[:, j]], the cells of column [j] from the first row to the last. *)
Definition column (j : nat) (a : list (list float)) : list float :=
  List.map (fun row => List.nth j row 0) a.

End Numpy.

(** ** Dialogs shown through [messagebox] *)

Inductive DialogKind := ShowError | ShowWarning | ShowInfo.

Record Dialog := mkDialog {
  d_kind : DialogKind;
  d_title : string;
  d_message : string
}.

(** ** The stored data *)

(** An entry of the transformity table: [{'value': ..., 'unit': ...}]. *)
Record Transformity := mkTransformity {
  tf_value : float;
  tf_unit : string
}.

Record DataManager := mkDataManager {
  lci_df : DataFrame;
  transformities : gmap string Transformity;
  lci_units : gmap string string
}.

(** A cell of a session file, as [json.load] returns it. *)
Inductive JCell := JNull | JNum (x : float) | JStr (s : string).

(** The value under ["lci_data"]: the [orient="split"] form of the frame;
    a key may be missing in a file that was edited by hand. *)
Record LciSplit := mkLciSplit {
  sp_index : option (list string);
  sp_columns : option (list string);
  sp_data : option (list (list JCell))
}.

(** The content of a session file. *)
Record Session := mkSession {
  ses_lci_data : option LciSplit;
  ses_lci_units : option (gmap string string);
  ses_transformities : option (gmap string Transformity)
}.

(** A value of the parameter bag of a calculation: the interface stores a
    [float] when the text parses and the text itself otherwise. *)
Inductive ParamValue := PNum (x : float) | PStr (s : string).

Inductive CalculationType := TOTAL_EMERGY | DIRECT_INPUTS_SUM | EMERGY_INDICES.

(** [self.results]: the keys a calculation may set. *)
Record Results := mkResults {
  emergy_per_input_flow_for_each_process : option DataFrame;
  total_emergy_per_process : option Series;
  sum_of_direct_inputs_per_process : option Series;
  EYR : option string;
  ELR : option string;
  ESI : option string;
  calculation_summary : option string
}.

Definition no_results : Results :=
  mkResults None None None None None None None.

(** ** Stores used as examples *)

Module Examples.

Local Open Scope float_scope.

(** Flows [R1], [R2] over processes [P1], [P2]: column [P1] holds 10 and
    an unset cell, column [P2] holds 20 and 5. *)
Definition two_flows : DataManager :=
  mkDataManager
    (mkDataFrame ["R1"; "R2"] ["P1"; "P2"] [[10; 20]; [PrimFloat.nan; 5]])
    ∅ ∅.

(** One cell, Sun over Widget, of value 100; the transformity of Sun is
    1.5e3 in the table. *)
Definition sun_widget : DataManager :=
  mkDataManager
    (mkDataFrame ["Sun"] ["Widget"] [[100]])
    (<["Sun" := mkTransformity 1.5e3 "sej/J"]> ∅)
    ∅.

End Examples.

(** ** Stand-ins for the builtins, to run the model on examples *)

Module Sample.

Fixpoint digits_value (s : string) (acc : N) : option N :=
  match s with
  | EmptyString => Some acc
  | String c s' =>
      let n := N_of_ascii c in
      if N.leb 48 n && N.leb n 57
      then digits_value s' (acc * 10 + (n - 48))%N
      else None
  end.

(** [float(s)] restricted to the strings of decimal digits, the integers
    below 2^63: every other string is refused. *)
Definition float_of_digits (s : string) : option float :=
  match s with
  | EmptyString => None
  | _ =>
      match digits_value s 0 with
      | Some n =>
          if N.ltb n (2 ^ 63)
          then Some (PrimFloat.of_uint63 (Uint63.of_Z (Z.of_N n)))
          else None
      | None => None
      end
  end.

(** A text that stands for any formatted float. *)
Definition float_text (x : float) : string := "<float>".

(** A text that stands for any printed dict. *)
Definition dict_text (items : list (string * string)) : string := "<dict>".

End Sample.

Section Model.

(** [float(s)] on a string: [None] when it raises [ValueError]. *)
Variable py_float : string -> option float.
(** [str(x)] on a float. *)
Variable float_str : float -> string.
(** [f"{x:.2e}"] *)
Variable fmt_2e : float -> string.
(** How [pd.to_numeric] reads a string cell: [None] when it cannot. *)
Variable to_numeric_str : string -> option float.
(** [str(d)] on a dict of strings, given as its items in order. *)
Variable dict_str : list (string * string) -> string.

(** *** DataManager *)

Definition new_data_manager : DataManager :=
  mkDataManager Pandas.empty_frame ∅ ∅.

(** [_validate_name]: the stripped name, or the dialog that rejects it.
    The arguments are typed as strings, so the [None] check never fires. *)
Definition _validate_name (name context : string) : string + Dialog :=
  let name_str := PyStr.strip name in
  if String.eqb name_str EmptyString
  then inr (mkDialog ShowError "Nome Inválido"
              ("O nome para '" +:+ context
               +:+ "' não pode ser vazio ou consistir apenas de espaços."))
  else inl name_str.

(** [add_lci_input_flow(flow_name, unit="")]; [unit = None] is the call
    without the argument. The new row holds NaN under every column; with no
    column yet the row is created without any cell, as the comments of the
    source describe the assignment [lci_df.loc[flow_name] = pd.Series(dtype=float)]. *)
Definition add_lci_input_flow (dm : DataManager) (flow_name : string)
    (unit : option string) : bool * DataManager * list Dialog :=
  let unit := default EmptyString unit in
  match _validate_name flow_name "Fluxo de Entrada" with
  | inr d => (false, dm, [d])
  | inl flow_name =>
      let df := lci_df dm in
      if Pandas.mem flow_name (index df)
      then (false, dm,
            [mkDialog ShowWarning "Fluxo Existente"
               ("O fluxo de entrada '" +:+ flow_name +:+ "' já está presente na LCI.")])
      else
        let new_row_data :=
          match columns df with
          | [] => []
          | _ => List.repeat PrimFloat.nan (List.length (columns df))
          end in
        (true,
         mkDataManager (Pandas.append_row df flow_name new_row_data)
                       (transformities dm)
                       (<[flow_name := PyStr.strip unit]> (lci_units dm)),
         [])
  end.

(** [add_lci_process_column(process_name, unit="")]. The new column holds
    NaN in every row; with no row yet it is created without any cell, which
    is the same append. *)
Definition add_lci_process_column (dm : DataManager) (process_name : string)
    (unit : option string) : bool * DataManager * list Dialog :=
  let unit := default EmptyString unit in
  match _validate_name process_name "Processo/Produto" with
  | inr d => (false, dm, [d])
  | inl process_name =>
      let df := lci_df dm in
      if Pandas.mem process_name (columns df)
      then (false, dm,
            [mkDialog ShowWarning "Processo Existente"
               ("O processo/produto '" +:+ process_name +:+ "' já está presente na LCI.")])
      else
        (true,
         mkDataManager (Pandas.append_column df process_name)
                       (transformities dm)
                       (<[process_name := PyStr.strip unit]> (lci_units dm)),
         [])
  end.

(** [set_lci_value(flow_name, process_name, value_str)] *)
Definition set_lci_value (dm : DataManager) (flow_name process_name value_str : string)
    : bool * DataManager * list Dialog :=
  match _validate_name flow_name "Fluxo de Entrada",
        _validate_name process_name "Processo/Produto" with
  | inr d, inr d' => (false, dm, [d; d'])
  | inr d, inl _ | inl _, inr d => (false, dm, [d])
  | inl flow_name, inl process_name =>
      let df := lci_df dm in
      if negb (Pandas.mem flow_name (index df))
      then (false, dm,
            [mkDialog ShowError "Erro de LCI"
               ("Fluxo de Entrada '" +:+ flow_name
                +:+ "' não encontrado na LCI. Verifique o nome.")])
      else if negb (Pandas.mem process_name (columns df))
      then (false, dm,
            [mkDialog ShowError "Erro de LCI"
               ("Processo/Produto '" +:+ process_name
                +:+ "' não encontrado na LCI. Verifique o nome.")])
      else match py_float value_str with
           | Some val =>
               (true,
                mkDataManager (Pandas.set_at df flow_name process_name val)
                              (transformities dm) (lci_units dm),
                [])
           | None =>
               (false, dm,
                [mkDialog ShowError "Valor Inválido"
                   ("O valor '" +:+ value_str
                    +:+ "' fornecido para LCI não é um número válido.")])
           end
  end.

(** [remove_lci_input_flow(flow_name)] *)
Definition remove_lci_input_flow (dm : DataManager) (flow_name : string)
    : bool * DataManager * list Dialog :=
  match _validate_name flow_name "Fluxo de Entrada" with
  | inr d => (false, dm, [d])
  | inl flow_name =>
      if Pandas.mem flow_name (index (lci_df dm))
      then (true,
            mkDataManager (Pandas.drop_row (lci_df dm) flow_name)
                          (transformities dm)
                          (delete flow_name (lci_units dm)),
            [])
      else (false, dm,
            [mkDialog ShowWarning "Fluxo Não Encontrado"
               ("O fluxo de entrada '" +:+ flow_name
                +:+ "' não foi encontrado para remoção.")])
  end.

(** [remove_lci_process_column(process_name)] *)
Definition remove_lci_process_column (dm : DataManager) (process_name : string)
    : bool * DataManager * list Dialog :=
  match _validate_name process_name "Processo/Produto" with
  | inr d => (false, dm, [d])
  | inl process_name =>
      if Pandas.mem process_name (columns (lci_df dm))
      then (true,
            mkDataManager (Pandas.drop_column (lci_df dm) process_name)
                          (transformities dm)
                          (delete process_name (lci_units dm)),
            [])
      else (false, dm,
            [mkDialog ShowWarning "Processo Não Encontrado"
               ("O processo/produto '" +:+ process_name
                +:+ "' não foi encontrado para remoção.")])
  end.

(** [get_lci_dataframe()] *)
Definition get_lci_dataframe (dm : DataManager) : DataFrame := lci_df dm.

(** [get_lci_matrix_for_calc()]: [lci_df.fillna(0).values] *)
Definition get_lci_matrix_for_calc (dm : DataManager) : list (list float) :=
  List.map (List.map PyFloat.fillna0) (data (lci_df dm)).

(** [get_lci_names_for_calc()]: the pair (["columns"], ["rows"]). *)
Definition get_lci_names_for_calc (dm : DataManager) : list string * list string :=
  (columns (lci_df dm), index (lci_df dm)).

(** [get_lci_unit(name)] *)
Definition get_lci_unit (dm : DataManager) (name : string) : string :=
  default EmptyString (lci_units dm !! PyStr.strip name).

(** [add_transformity(flow_name, value_str, unit_str="sej/unidade_original")];
    [unit_str = None] is the call without the argument. *)
Definition add_transformity (dm : DataManager) (flow_name value_str : string)
    (unit_str : option string) : bool * DataManager * list Dialog :=
  let unit_str := default "sej/unidade_original" unit_str in
  match _validate_name flow_name "Fluxo para Transformidade" with
  | inr d => (false, dm, [d])
  | inl flow_name =>
      match py_float value_str with
      | Some value =>
          (true,
           mkDataManager (lci_df dm)
             (<[flow_name :=
                  mkTransformity value
                    (if String.eqb unit_str EmptyString
                     then "sej/unidade_original"
                     else PyStr.strip unit_str)]> (transformities dm))
             (lci_units dm),
           [])
      | None =>
          (false, dm,
           [mkDialog ShowError "Valor Inválido"
              ("O valor da transformidade '" +:+ value_str
               +:+ "' deve ser um número.")])
      end
  end.

(** [remove_transformity(flow_name)] *)
Definition remove_transformity (dm : DataManager) (flow_name : string)
    : bool * DataManager * list Dialog :=
  match _validate_name flow_name "Fluxo para Transformidade" with
  | inr d => (false, dm, [d])
  | inl flow_name =>
      match transformities dm !! flow_name with
      | Some _ =>
          (true,
           mkDataManager (lci_df dm) (delete flow_name (transformities dm))
                         (lci_units dm),
           [])
      | None =>
          (false, dm,
           [mkDialog ShowWarning "Transformidade Não Encontrada"
              ("A transformidade para o fluxo '" +:+ flow_name
               +:+ "' não foi encontrada.")])
      end
  end.

(** [get_transformity_value(flow_name)] *)
Definition get_transformity_value (dm : DataManager) (flow_name : string) : option float :=
  match transformities dm !! PyStr.strip flow_name with
  | Some data => Some (tf_value data)
  | None => None
  end.

(** [get_transformity_with_unit(flow_name)] *)
Definition get_transformity_with_unit (dm : DataManager) (flow_name : string)
    : option Transformity :=
  transformities dm !! PyStr.strip flow_name.

(** [clear_all_data()] *)
Definition clear_all_data (dm : DataManager) : DataManager :=
  mkDataManager Pandas.empty_frame ∅ ∅.


(** *** Session files *)


Definition pad_row (w : nat) (row : list JCell) : list JCell :=
  row ++ List.repeat JNull (w - List.length row).

(** [pd.DataFrame(data, index=idx, columns=cols)] on a list of rows: no
    row at all gives a frame of missing cells; otherwise shorter rows are
    padded with missing cells, and the constructor raises unless the widest
    row has one cell per column and there is one row per label. *)
Definition frame_cells (d : list (list JCell)) (idx cols : list string)
    : option (list (list JCell)) :=
  match d with
  | [] => Some (List.map (fun _ => List.map (fun _ => JNull) cols) idx)
  | _ =>
      let w := List.fold_right Nat.max 0 (List.map (@List.length JCell) d) in
      if Nat.eqb w (List.length cols) && Nat.eqb (List.length d) (List.length idx)
      then Some (List.map (pad_row w) d)
      else None
  end.

(** [pd.to_numeric(..., errors='coerce')] on one cell. *)
Definition to_numeric (c : JCell) : float :=
  match c with
  | JNull => PrimFloat.nan
  | JNum x => x
  | JStr s => default PrimFloat.nan (to_numeric_str s)
  end.

Fixpoint distinct (l : list string) : bool :=
  match l with
  | [] => true
  | x :: l' => negb (Pandas.mem x l') && distinct l'
  end.

(** [load_data_from_json], from the parsed file [loaded_data] on (opening
    and parsing the file, and the dialogs, are left out): [Some] is the store
    after a load that returned [True], [None] a load that raised and
    returned [False] (the store is not followed further in that case).
    The loop over the columns raises on a label that occurs twice, since
    [self.lci_df[col]] is then a frame and not a series. *)
Definition load_data_from_json (dm : DataManager) (loaded_data : Session)
    : option DataManager :=
  let lci_units' := default ∅ (ses_lci_units loaded_data) in
  let transformities' := default ∅ (ses_transformities loaded_data) in
  match ses_lci_data loaded_data with
  | Some (mkLciSplit (Some idx) (Some cols) (Some d)) =>
      match frame_cells d idx cols with
      | Some cells =>
          if distinct cols
          then Some (mkDataManager
                       (mkDataFrame idx cols (List.map (List.map to_numeric) cells))
                       transformities' lci_units')
          else None
      | None => None
      end
  | _ => Some (mkDataManager Pandas.empty_frame transformities' lci_units')
  end.

(** *** EmergyCalculator *)

(** [float(v)] on a value of the parameter bag. *)
Definition param_float (v : ParamValue) : option float :=
  match v with
  | PNum x => Some x
  | PStr s => py_float s
  end.

(** [str(v)] *)
Definition param_str (v : ParamValue) : string :=
  match v with
  | PNum x => float_str x
  | PStr s => s
  end.

(** [str(v).strip() == ""]; the text of a float is never blank. *)
Definition param_blank (v : ParamValue) : bool :=
  match v with
  | PNum _ => false
  | PStr s => String.eqb (PyStr.strip s) EmptyString
  end.

(** The key of a manual transformity:
    [f"transformity_{fn.replace(' ', '_').replace('.', '_')}"] *)
Definition param_key (fn : string) : string :=
  "transformity_" +:+ PyStr.replace "." "_" (PyStr.replace " " "_" fn).

(** The four accumulators of [_get_required_transformities]. *)
Record TfAcc := mkTfAcc {
  final_tf : gmap string float;
  missing_tf_info : list string;
  errors : list string;
  log_messages : list string
}.

(** The body of the loop over [input_flow_names]. *)
Definition tf_step (dm : DataManager) (parameters : gmap string ParamValue)
    (acc : TfAcc) (fn : string) : TfAcc :=
  match parameters !! param_key fn with
  | Some v =>
      match param_float v with
      | Some x =>
          mkTfAcc (<[fn := x]> (final_tf acc)) (missing_tf_info acc) (errors acc)
            (log_messages acc
             ++ ["Utilizando transformidade manual para '" +:+ fn +:+ "': " +:+ fmt_2e x])
      | None =>
          mkTfAcc (final_tf acc) (missing_tf_info acc)
            (errors acc
             ++ ["Valor de transformidade manual para '" +:+ fn +:+ "' ('"
                 +:+ param_str v +:+ "') é inválido. Requer valor numérico."])
            (log_messages acc)
      end
  | None =>
      match get_transformity_value dm fn with
      | Some x =>
          mkTfAcc (<[fn := x]> (final_tf acc)) (missing_tf_info acc) (errors acc)
            (log_messages acc
             ++ ["Utilizando transformidade da tabela para '" +:+ fn +:+ "': " +:+ fmt_2e x])
      | None =>
          mkTfAcc (final_tf acc) (missing_tf_info acc ++ [fn]) (errors acc)
            (log_messages acc)
      end
  end.

Definition tf_loop (dm : DataManager) (parameters : gmap string ParamValue)
    (input_flow_names : list string) : TfAcc :=
  List.fold_left (tf_step dm parameters) input_flow_names (mkTfAcc ∅ [] [] []).

(** The line feed. *)
Definition nl : string := String "010" EmptyString.

Definition missing_tf_msg (missing : list string) : string :=
  "Transformidades não encontradas para os seguintes fluxos: "
  +:+ PyStr.join ", " missing +:+ "." +:+ nl
  +:+ "Forneça-as na aba 'Gerenciamento de Dados' ou manualmente na seção 'Parâmetros Adicionais' da simulação.".

(** [_get_required_transformities(input_flow_names, parameters)]: the
    dict of final transformities ([None] on a critical error), the log
    text, and the dialogs shown. *)
Definition _get_required_transformities (dm : DataManager)
    (input_flow_names : list string) (parameters : gmap string ParamValue)
    : option (gmap string float) * string * list Dialog :=
  let acc := tf_loop dm parameters input_flow_names in
  match errors acc with
  | _ :: _ =>
      (None, PyStr.join nl (errors acc),
       [mkDialog ShowError "Erro nos Parâmetros de Transformidade"
                 (PyStr.join nl (errors acc))])
  | [] =>
      match missing_tf_info acc with
      | _ :: _ =>
          let msg := missing_tf_msg (missing_tf_info acc) in
          (None, msg, [mkDialog ShowError "Transformidades Faltando" msg])
      | [] =>
          let log_messages :=
            match map_to_list (final_tf acc), input_flow_names with
            | [], _ :: _ =>
                log_messages acc
                ++ ["AVISO: Nenhuma transformidade foi aplicada (nem da tabela, nem manual). Resultados de emergia podem ser zero."]
            | _, _ => log_messages acc
            end in
          (Some (final_tf acc), PyStr.join nl log_messages, [])
      end
  end.


(** The keys of a dict filled in the order of [l]: each name once, at its
    first place. *)
Definition first_occurrences (l : list string) : list string :=
  List.fold_left (fun seen x => if Pandas.mem x seen then seen else seen ++ [x]) l [].

(** [_calculate_total_emergy_logic(parameters, calc_summary_msg)]: the
    returned flag, [self.results], the summary lines and the dialogs. *)
Definition _calculate_total_emergy_logic (dm : DataManager)
    (parameters : gmap string ParamValue) (results : Results)
    (calc_summary_msg : list string)
    : bool * Results * list string * list Dialog :=
  let lci_matrix := get_lci_matrix_for_calc dm in
  let '(process_names, input_flow_names) := get_lci_names_for_calc dm in
  match input_flow_names, process_names with
  | [], [] =>
      (false, results, calc_summary_msg,
       [mkDialog ShowError "Dados Insuficientes para Cálculo"
          "A Matriz LCI está completamente vazia. Adicione processos e fluxos antes de calcular a emergia total."])
  | [], _ :: _ =>
      (true,
       mkResults (Some (mkDataFrame [] process_names []))
                 (Some (Pandas.zero_series process_names))
                 (sum_of_direct_inputs_per_process results)
                 (EYR results) (ELR results) (ESI results)
                 (calculation_summary results),
       calc_summary_msg
       ++ ["LCI não possui fluxos de entrada. Emergias resultantes são zero."],
       [mkDialog ShowWarning "Cálculo com Fluxos Ausentes"
          "Existem processos definidos, mas não há fluxos de entrada na LCI. Os resultados de emergia serão zero."])
  | _ :: _, _ =>
      let '(required_tfs, tf_log_msg, dialogs) :=
        _get_required_transformities dm input_flow_names parameters in
      match required_tfs with
      | None => (false, results, calc_summary_msg, dialogs)
      | Some required_tfs =>
          let calc_summary_msg :=
            calc_summary_msg
            ++ [if String.eqb tf_log_msg EmptyString
                then "Nenhuma transformidade específica foi processada."
                else "Detalhes das Transformidades Utilizadas:" +:+ nl +:+ tf_log_msg] in
          let tf_vector :=
            List.map (fun name => default 0%float (required_tfs !! name))
                     input_flow_names in
          if negb (Nat.eqb (Numpy.shape0 lci_matrix) (List.length tf_vector))
          then
            let err_msg :=
              "Incompatibilidade dimensional: Matriz LCI ("
              +:+ pretty (Numpy.shape0 lci_matrix)
              +:+ " fluxos) vs. Vetor de Transformidades ("
              +:+ pretty (List.length tf_vector) +:+ " valores)." in
            (false, results, calc_summary_msg ++ ["ERRO: " +:+ err_msg],
             dialogs ++ [mkDialog ShowError "Erro de Dimensão no Cálculo" err_msg])
          else if Nat.ltb 0 (Numpy.size lci_matrix)
                  && Nat.ltb 0 (List.length tf_vector)
                  && Nat.ltb 0 (Numpy.shape0 lci_matrix)
          then
            let emergy_values_per_input := Numpy.scale_rows lci_matrix tf_vector in
            let total_emergy_per_process :=
              Numpy.sum_axis0 (List.length process_names) emergy_values_per_input in
            (true,
             mkResults
               (Some (mkDataFrame input_flow_names process_names emergy_values_per_input))
               (Some (mkSeries process_names total_emergy_per_process))
               (sum_of_direct_inputs_per_process results)
               (EYR results) (ELR results) (ESI results)
               (calculation_summary results),
             calc_summary_msg
             ++ ["Emergia total por processo calculada com sucesso."]
             ++ match map_to_list required_tfs with
                | [] => []
                | _ =>
                    ["Transformidades Finais (considerando manuais e da tabela): "
                     +:+ dict_str
                           (List.map
                              (fun k => (k, fmt_2e (default 0%float (required_tfs !! k))))
                              (first_occurrences input_flow_names))]
                end,
             dialogs)
          else
            (true,
             mkResults
               (Some (mkDataFrame input_flow_names process_names
                        (List.map (fun _ => List.map (fun _ => 0%float) process_names)
                                  input_flow_names)))
               (Some (Pandas.zero_series process_names))
               (sum_of_direct_inputs_per_process results)
               (EYR results) (ELR results) (ESI results)
               (calculation_summary results),
             calc_summary_msg
             ++ ["Cálculo de emergia total não produziu valores (LCI pode não ter fluxos, ou transformidades/valores são zero)."],
             dialogs)
      end
  end.

(** [_calculate_direct_inputs_sum_logic(parameters, calc_summary_msg)] *)
Definition _calculate_direct_inputs_sum_logic (dm : DataManager)
    (parameters : gmap string ParamValue) (results : Results)
    (calc_summary_msg : list string)
    : bool * Results * list string * list Dialog :=
  let lci_df_full := get_lci_dataframe dm in
  let process_names := columns lci_df_full in
  let input_flow_names := index lci_df_full in
  let with_sum (s : Series) :=
    mkResults (emergy_per_input_flow_for_each_process results)
              (total_emergy_per_process results) (Some s)
              (EYR results) (ELR results) (ESI results)
              (calculation_summary results) in
  if Pandas.empty lci_df_full || Nat.eqb (List.length input_flow_names) 0
  then
    (true, with_sum (Pandas.zero_series process_names),
     calc_summary_msg
     ++ [if Nat.eqb (List.length input_flow_names) 0
            && negb (Nat.eqb (List.length process_names) 0)
         then "Matriz LCI não possui fluxos de entrada. A soma dos inputs diretos é zero."
         else if Pandas.empty lci_df_full
         then "Matriz LCI está completamente vazia. A soma dos inputs diretos é zero."
         else "Matriz LCI não contém fluxos de entrada. A soma dos inputs diretos é zero."],
     [])
  else
    let lci_matrix_values := get_lci_matrix_for_calc dm in
    let sum_of_inputs_per_process :=
      Numpy.sum_axis0 (List.length process_names) lci_matrix_values in
    (true, with_sum (mkSeries process_names sum_of_inputs_per_process),
     calc_summary_msg ++ ["Soma dos inputs diretos por processo calculada."],
     []).


(** Early returns of the indices mode: a value, or the dialog shown
    before [return False]. *)
Definition bind {A B} (x : A + Dialog) (k : A -> B + Dialog) : B + Dialog :=
  match x with
  | inl a => k a
  | inr d => inr d
  end.

Notation "'get' x <-- e ;; k" := (bind e (fun x => k))
  (at level 10, x name, e at level 99, k at level 200).

(** The body of the loop over [param_names_map], for one key. *)
Definition indices_component (parameters : gmap string ParamValue)
    (key display_name : string) : float + Dialog :=
  let absent :=
    mkDialog ShowError "Parâmetro Ausente para Índices"
      ("O valor para '" +:+ display_name
       +:+ "' é obrigatório para o cálculo de índices emergéticos.") in
  match parameters !! key with
  | None => inr absent
  | Some value_str =>
      if param_blank value_str then inr absent
      else match param_float value_str with
           | Some x =>
               if (x <? 0)%float
               then inr (mkDialog ShowError "Valor Inválido para Índices"
                           ("O valor para '" +:+ display_name +:+ "' ("
                            +:+ param_str value_str
                            +:+ ") deve ser um número não negativo."))
               else inl x
           | None =>
               inr (mkDialog ShowError "Valor Inválido para Índices"
                      ("O valor para '" +:+ display_name +:+ "' ('"
                       +:+ param_str value_str +:+ "') deve ser numérico."))
           end
  end.

(** The yield [Y_] and the summary line that tells where it comes from. *)
Definition indices_yield (parameters : gmap string ParamValue) (R N F_ : float)
    : (float * string) + Dialog :=
  let computed :=
    let Y_ := (R + N + F_)%float in
    inl (Y_, "Yield (Y) calculado (R+N+F): " +:+ fmt_2e Y_) in
  match parameters !! "Y" with
  | None => computed
  | Some Y_str =>
      if param_blank Y_str then computed
      else match param_float Y_str with
           | Some Y_ =>
               if (Y_ <? 0)%float
               then inr (mkDialog ShowError "Valor Inválido para Yield (Y)"
                           ("O valor para 'Yield (Y)' (" +:+ param_str Y_str
                            +:+ ") deve ser um número não negativo."))
               else inl (Y_, "Yield (Y) fornecido pelo usuário: " +:+ fmt_2e Y_)
           | None =>
               inr (mkDialog ShowError "Valor Inválido para Yield (Y)"
                      ("O valor para 'Yield (Y)' ('" +:+ param_str Y_str
                       +:+ "') deve ser numérico."))
           end
  end.

(** The validated inputs [(R, N, F_, Y_)] and the line on [Y_]; the loop
    over the keys [R], [N], [F] is unrolled. *)
Definition indices_inputs (parameters : gmap string ParamValue)
    : (float * float * float * float * string) + Dialog :=
  get R <-- indices_component parameters "R" "Renovável (R)" ;;
  get N <-- indices_component parameters "N" "Não Renovável (N)" ;;
  get F_ <-- indices_component parameters "F" "Comprada (F)" ;;
  get y <-- indices_yield parameters R N F_ ;;
  inl (R, N, F_, fst y, snd y).

Definition eyr_value (Y_ F_ : float) : float :=
  if PyFloat.neb F_ 0
  then (Y_ / F_)%float
  else if PyFloat.gtb Y_ 0 then PrimFloat.infinity else PrimFloat.nan.

Definition elr_value (R N F_ : float) : float :=
  if PyFloat.neb R 0
  then ((N + F_) / R)%float
  else if PyFloat.gtb (N + F_)%float 0 then PrimFloat.infinity else 0%float.

Definition esi_value (eyr elr : float) : float :=
  if PyFloat.neb elr 0
     && negb (PyFloat.isna eyr || PyFloat.isna elr || (elr =? PrimFloat.infinity)%float)
  then (eyr / elr)%float
  else if (elr =? 0)%float && PyFloat.gtb eyr 0 && negb (PyFloat.isna eyr)
  then PrimFloat.infinity
  else PrimFloat.nan.

Definition indices_notes : string :=
  nl +:+ "Interpretações Gerais (sujeitas ao contexto do sistema analisado):"
  +:+ nl +:+ "- EYR (Taxa de Rendimento Emergético): Valores altos (>2-5) geralmente indicam maior contribuição líquida à economia."
  +:+ nl +:+ "- ELR (Taxa de Carga Ambiental): Valores baixos (<2-3) geralmente indicam menor estresse ambiental relativo à emergia renovável utilizada."
  +:+ nl +:+ "- ESI (Índice de Sustentabilidade Emergética): Valores altos (>5-10) geralmente indicam maior potencial de sustentabilidade a longo prazo.".

(** [_calculate_emergy_indices_logic(parameters, calc_summary_msg)] *)
Definition _calculate_emergy_indices_logic (parameters : gmap string ParamValue)
    (results : Results) (calc_summary_msg : list string)
    : bool * Results * list string * list Dialog :=
  match indices_inputs parameters with
  | inr d => (false, results, calc_summary_msg, [d])
  | inl (R, N, F_, Y_, line) =>
      let eyr := eyr_value Y_ F_ in
      let elr := elr_value R N F_ in
      let esi := esi_value eyr elr in
      (true,
       mkResults (emergy_per_input_flow_for_each_process results)
                 (total_emergy_per_process results)
                 (sum_of_direct_inputs_per_process results)
                 (Some (fmt_2e eyr)) (Some (fmt_2e elr)) (Some (fmt_2e esi))
                 (calculation_summary results),
       calc_summary_msg
       ++ [line;
           "Valores de entrada para Índices: R=" +:+ fmt_2e R +:+ ", N=" +:+ fmt_2e N
           +:+ ", F=" +:+ fmt_2e F_ +:+ ", Y=" +:+ fmt_2e Y_;
           "EYR: " +:+ fmt_2e eyr;
           "ELR: " +:+ fmt_2e elr;
           "ESI: " +:+ fmt_2e esi;
           indices_notes],
       [])
  end.

(** [CalculationType.get_display_names_map()] *)
Definition display_name (c : CalculationType) : string :=
  match c with
  | TOTAL_EMERGY => "Emergia Total por Processo"
  | DIRECT_INPUTS_SUM => "Soma dos Inputs Diretos"
  | EMERGY_INDICES => "Índices Emergéticos (EYR, ELR, ESI)"
  end.

(** [calculate_emergy(parameters)]. The entry ["calculation_type_enum"] of
    the bag is the argument [calc_type_enum] ([None] when it is missing or
    not a [CalculationType]); [old_results] is [self.results] before the
    call. The result is the returned flag, [self.results] after the call
    and the dialogs shown. *)
Definition calculate_emergy (dm : DataManager) (old_results : option Results)
    (calc_type_enum : option CalculationType) (parameters : gmap string ParamValue)
    : bool * option Results * list Dialog :=
  match calc_type_enum with
  | None =>
      (false, old_results,
       [mkDialog ShowError "Erro Interno de Cálculo"
                 "Tipo de cálculo inválido ou não especificado."])
  | Some c =>
      let calc_summary_msg := ["Tipo de cálculo selecionado: " +:+ display_name c] in
      let '(calculation_successful, results, calc_summary_msg, dialogs) :=
        match c with
        | TOTAL_EMERGY =>
            _calculate_total_emergy_logic dm parameters no_results calc_summary_msg
        | DIRECT_INPUTS_SUM =>
            _calculate_direct_inputs_sum_logic dm parameters no_results calc_summary_msg
        | EMERGY_INDICES =>
            _calculate_emergy_indices_logic parameters no_results calc_summary_msg
        end in
      (calculation_successful,
       Some (mkResults (emergy_per_input_flow_for_each_process results)
                       (total_emergy_per_process results)
                       (sum_of_direct_inputs_per_process results)
                       (EYR results) (ELR results) (ESI results)
                       (Some (PyStr.join nl calc_summary_msg))),
       dialogs)
  end.

(** *** CalculationType *)

(** [CalculationType.get_display_names_map()], as its items in order. *)
Definition get_display_names_map : list (CalculationType * string) :=
  [(TOTAL_EMERGY, "Emergia Total por Processo");
   (DIRECT_INPUTS_SUM, "Soma dos Inputs Diretos");
   (EMERGY_INDICES, "Índices Emergéticos (EYR, ELR, ESI)")].

(** [CalculationType.from_display_name(display_name)]: the first member of
    the map whose name is [display_name], [None] when there is none. *)
Definition from_display_name (display_name : string) : option CalculationType :=
  (fix go (items : list (CalculationType * string)) : option CalculationType :=
     match items with
     | [] => None
     | (member, name_str) :: items' =>
         if String.eqb name_str display_name then Some member else go items'
     end) get_display_names_map.

(** [CalculationType.get_all_display_names()] *)
Definition get_all_display_names : list string :=
  List.map snd get_display_names_map.

(** *** SimulationFrame *)

(** [s.lower()] *)
Variable py_lower : string -> string.

(** What [_parse_general_parameters] stores for a value: the float when the
    text parses, the text otherwise. *)
Definition param_of_text (value_str : string) : ParamValue :=
  match py_float value_str with
  | Some x => PNum x
  | None => PStr value_str
  end.

(** The body of the loop of [_parse_general_parameters] over the pieces. *)
Definition parse_step (acc : gmap string ParamValue * list string)
    (pair_str : string) : gmap string ParamValue * list string :=
  let pair_str := PyStr.strip pair_str in
  if String.eqb pair_str EmptyString then acc
  else if negb (PyStrOps.contains "=" pair_str)
  then (acc.1,
        acc.2 ++ ["Parâmetro geral ignorado (formato 'chave=valor' esperado, '=' ausente): '"
                  +:+ pair_str +:+ "'"])
  else
    let '(key, value_str) := PyStrOps.split_first "=" pair_str in
    (<[PyStr.strip key := param_of_text (PyStr.strip value_str)]> acc.1, acc.2).

(** [_parse_general_parameters()], on the text [raw_string] of the entry
    for additional parameters: the dict of parameters and the list of
    parsing errors. *)
Definition _parse_general_parameters (raw_string : string)
    : gmap string ParamValue * list string :=
  if negb (String.eqb raw_string EmptyString)
     && negb (String.eqb (PyStr.strip (py_lower raw_string))
                         "ex: transformity_nomedofluxonalci=1.0e6")
  then List.fold_left parse_step (PyStrOps.split ";" raw_string) (∅, [])
  else (∅, []).

(** The loop of [run_simulation] over the entries of the indices, in the
    order [R], [N], [F], [Y] of [param_entries_indices]: on the left the bag,
    the flag [missing_required_fields] and the dialogs shown; on the right the
    dialogs shown when a value that is no number makes it return. *)
Fixpoint read_indices_entries (entries : list (string * string))
    (simulation_params : gmap string ParamValue) (missing_required_fields : bool)
    (dialogs : list Dialog)
    : (gmap string ParamValue * bool * list Dialog) + list Dialog :=
  match entries with
  | [] => inl (simulation_params, missing_required_fields, dialogs)
  | (key, text) :: entries' =>
      let value_s := PyStr.strip text in
      if negb (String.eqb value_s EmptyString)
      then match py_float value_s with
           | Some x =>
               read_indices_entries entries' (<[key := PNum x]> simulation_params)
                 missing_required_fields dialogs
           | None =>
               inr (dialogs
                    ++ [mkDialog ShowError "Erro de Parâmetro (Índices)"
                          ("O valor fornecido para o índice '" +:+ key +:+ "' ('"
                           +:+ value_s +:+ "') deve ser numérico.")])
           end
      else if negb (String.eqb key "Y")
      then read_indices_entries entries' simulation_params true
             (dialogs
              ++ [mkDialog ShowError "Parâmetro Obrigatório (Índices)"
                    ("O campo '" +:+ key
                     +:+ "' é obrigatório para o cálculo de Índices Emergéticos.")])
      else read_indices_entries entries' simulation_params missing_required_fields dialogs
  end.

(** [run_simulation()]. [selected_display_name] is the text of the
    combobox, [raw_string] the text of the entry for additional parameters,
    [R_text] to [Y_text] the texts of the four entries of the indices, and
    [old_results] the results of the calculator before the call. The result
    is the results of the calculator after the call and the dialogs shown;
    the refresh of the other tabs is left out. The bag handed to the
    calculator holds the calculation type under ["calculation_type_enum"]
    unless an additional parameter of that name took its place. *)
Definition run_simulation (dm : DataManager) (old_results : option Results)
    (selected_display_name raw_string R_text N_text F_text Y_text : string)
    : option Results * list Dialog :=
  match from_display_name selected_display_name with
  | None =>
      (old_results,
       [mkDialog ShowError "Erro Interno de Simulação"
                 "Tipo de cálculo selecionado é inválido."])
  | Some active_calc_type_enum =>
      if match active_calc_type_enum with EMERGY_INDICES => false | _ => true end
         && Pandas.empty (lci_df dm)
      then
        (old_results,
         [mkDialog ShowWarning "Dados LCI Ausentes"
            "A Matriz LCI está vazia. Insira dados na aba 'Gerenciamento de Dados' antes de prosseguir com este cálculo."])
      else
        let '(general_params, gp_errors) := _parse_general_parameters raw_string in
        let dialogs :=
          match gp_errors with
          | [] => []
          | _ =>
              [mkDialog ShowWarning "Aviso sobre Parâmetros Adicionais"
                 ("Alguns parâmetros adicionais foram ignorados devido a problemas de formato:"
                  +:+ nl +:+ PyStr.join nl gp_errors)]
          end in
        let calc_type_enum :=
          match general_params !! "calculation_type_enum" with
          | Some _ => None
          | None => Some active_calc_type_enum
          end in
        let collected :=
          match active_calc_type_enum with
          | EMERGY_INDICES =>
              read_indices_entries
                [("R", R_text); ("N", N_text); ("F", F_text); ("Y", Y_text)]
                general_params false dialogs
          | _ => inl (general_params, false, dialogs)
          end in
        match collected with
        | inr dialogs => (old_results, dialogs)
        | inl (simulation_params, missing_required_fields, dialogs) =>
            if missing_required_fields then (old_results, dialogs)
            else
              let '(ok, results, shown) :=
                calculate_emergy dm old_results calc_type_enum simulation_params in
              (results,
               dialogs ++ shown
               ++ (if ok
                   then [mkDialog ShowInfo "Cálculo Concluído"
                           ("Cálculo de '" +:+ selected_display_name
                            +:+ "' finalizado com sucesso!" +:+ nl
                            +:+ "Os resultados estão disponíveis na aba 'Resultados e Gráficos'.")]
                   else []))
        end
  end.

(** The list [ready_message_parts] of [update_status_display()]. *)
Definition ready_message_parts (dm : DataManager)
    (selected_display_name R_text N_text F_text : string) : list string :=
  let lci_ok := negb (Pandas.empty (lci_df dm)) in
  let transformities_ok :=
    match map_to_list (transformities dm) with [] => false | _ => true end in
  let no_flow := match index (lci_df dm) with [] => true | _ => false end in
  match from_display_name selected_display_name with
  | Some TOTAL_EMERGY =>
      (if negb lci_ok || no_flow
       then ["Requer dados LCI com fluxos de entrada."] else [])
      ++ (if negb transformities_ok && (lci_ok && negb no_flow)
          then ["AVISO: Nenhuma transformidade definida na tabela. Forneça-as manualmente ou na aba de Gerenciamento para resultados significativos."]
          else if lci_ok && negb no_flow
          then ["Pronto para calcular Emergia Total."]
          else [])
  | Some DIRECT_INPUTS_SUM =>
      if negb lci_ok || no_flow
      then ["Requer dados LCI com fluxos de entrada."]
      else ["Pronto para calcular Soma dos Inputs Diretos."]
  | Some EMERGY_INDICES =>
      let missing_required_indices :=
        List.map fst
          (List.filter (fun kt => String.eqb (PyStr.strip (snd kt)) EmptyString)
                       [("R", R_text); ("N", N_text); ("F", F_text)]) in
      match missing_required_indices with
      | [] => ["Pronto para calcular Índices Emergéticos."]
      | _ =>
          ["Preencha os campos obrigatórios (" +:+ PyStr.join ", " missing_required_indices
           +:+ ") para o cálculo de Índices Emergéticos."]
      end
  | None => ["Selecione um tipo de cálculo válido na lista."]
  end.

(** The text [update_status_display()] puts in the status label. *)
Definition update_status_display (dm : DataManager)
    (selected_display_name R_text N_text F_text : string) : string :=
  let status_lci :=
    if negb (Pandas.empty (lci_df dm))
    then "LCI: Dados presentes."
    else "LCI: Sem dados (acesse 'Gerenciamento de Dados')." in
  let status_trans :=
    match map_to_list (transformities dm) with
    | [] => "Transformidades: Sem dados (acesse 'Gerenciamento de Dados')."
    | _ => "Transformidades: Dados presentes."
    end in
  let final_ready_msg :=
    match ready_message_parts dm selected_display_name R_text N_text F_text with
    | [] => "Verifique a configuração."
    | parts => PyStr.join " " parts
    end in
  status_lci +:+ nl +:+ status_trans +:+ nl +:+ "Status do Cálculo: " +:+ final_ready_msg.

(** *** ResultsFrame *)

(** [not results_data]: no results, or the empty dict. *)
Definition no_data (results_data : option Results) : bool :=
  match results_data with
  | None => true
  | Some (mkResults None None None None None None None) => true
  | Some _ => false
  end.


(** What [update_pie_chart] puts in the chart frame: one of its three
    labels, or a pie with its slice labels, its slice sizes and whether the
    legend is drawn. *)
Inductive ChartView :=
| ChartNoResults
| ChartSelectProcess
| ChartNothingSignificant (process : string)
| ChartPie (labels : list string) (sizes : list float) (legend : bool).

(** The literal [1e-9], as the binary64 value nearest to it. *)
Definition chart_threshold : float := 0x1.12e0be826d695p-30%float.

(** [df[name]] for a label that names one column: its cells. *)
Definition column_of (df : DataFrame) (name : string) : list float :=
  (fix go (names : list string) (j : nat) : list float :=
     match names with
     | [] => []
     | n :: names' =>
         if String.eqb n name then Numpy.column j (data df) else go names' (S j)
     end) (columns df) 0.

(** [update_pie_chart(original_results_data)], for the process
    [selected_process_for_chart] of the combobox; with no argument the
    results are those of the calculator. The label of a column of the
    contribution table is taken to name one column only, as the process
    names of a store do. *)
Definition update_pie_chart (calculator_results original_results_data : option Results)
    (selected_process_for_chart : string) : ChartView :=
  let current_results :=
    match original_results_data with
    | None => calculator_results
    | Some _ => original_results_data
    end in
  if no_data current_results then ChartNoResults
  else
    match current_results ≫= emergy_per_input_flow_for_each_process with
    | None => ChartSelectProcess
    | Some df_contributions_all_processes =>
        if String.eqb selected_process_for_chart EmptyString
           || String.eqb selected_process_for_chart "Nenhum"
           || negb (Pandas.mem selected_process_for_chart
                               (columns df_contributions_all_processes))
        then ChartSelectProcess
        else
          let kept :=
            List.filter (fun slice => (chart_threshold <? snd slice)%float)
              (zip (index df_contributions_all_processes)
                   (column_of df_contributions_all_processes
                              selected_process_for_chart)) in
          match kept with
          | [] => ChartNothingSignificant selected_process_for_chart
          | _ =>
              ChartPie (List.map fst kept) (List.map snd kept)
                       (Nat.leb (List.length kept) 7)
          end
    end.


(** *** Notions the properties are stated with *)

(** The transformity to use for a flow, read off the inputs: the manual
    value when the bag holds the key of the flow ([None] when that value
    does not parse), the value of the table otherwise. *)
Definition resolved_tf (dm : DataManager) (parameters : gmap string ParamValue)
    (fn : string) : option float :=
  match parameters !! param_key fn with
  | Some v => param_float v
  | None => get_transformity_value dm fn
  end.

(** The error line of a flow whose manual value does not parse. *)
Definition malformed_line (parameters : gmap string ParamValue) (fn : string)
    : option string :=
  match parameters !! param_key fn with
  | Some v =>
      match param_float v with
      | Some _ => None
      | None =>
          Some ("Valor de transformidade manual para '" +:+ fn +:+ "' ('"
                +:+ param_str v +:+ "') é inválido. Requer valor numérico.")
      end
  | None => None
  end.

(** A flow with no manual value and no entry in the table. *)
Definition unresolved (dm : DataManager) (parameters : gmap string ParamValue)
    (fn : string) : bool :=
  match parameters !! param_key fn, get_transformity_value dm fn with
  | None, None => true
  | _, _ => false
  end.

(** A parameter of the indices mode is valid, with value [x]: the bag holds
    it, it is not blank, it parses to [x], and [x < 0] does not hold. *)
Definition valid_component (parameters : gmap string ParamValue)
    (key : string) (x : float) : Prop :=
  exists v : ParamValue,
    parameters !! key = Some v
    /\ param_blank v = false
    /\ param_float v = Some x
    /\ (x <? 0)%float = false.

(** The parameter [Y] is absent or blank. *)
Definition yield_omitted (parameters : gmap string ParamValue) : Prop :=
  parameters !! "Y" = None
  \/ exists v : ParamValue, parameters !! "Y" = Some v /\ param_blank v = true.

(** The yield of a run: [R + N + F] when [Y] is omitted, the valid [Y]
    otherwise. *)
Definition yield_is (parameters : gmap string ParamValue)
    (R N F_ Y_ : float) : Prop :=
  (yield_omitted parameters /\ Y_ = (R + N + F_)%float)
  \/ valid_component parameters "Y" Y_.

(** The dialog that rejects one parameter taken alone, if any. *)
Definition component_violation (parameters : gmap string ParamValue)
    (key display_name : string) : option Dialog :=
  match indices_component parameters key display_name with
  | inl _ => None
  | inr d => Some d
  end.

Definition yield_violation (parameters : gmap string ParamValue) : option Dialog :=
  match indices_yield parameters 0 0 0 with
  | inl _ => None
  | inr d => Some d
  end.

(** The violations of a bag, in the order [R], [N], [F], [Y]. *)
Definition indices_violations (parameters : gmap string ParamValue) : list Dialog :=
  omap id [component_violation parameters "R" "Renovável (R)";
           component_violation parameters "N" "Não Renovável (N)";
           component_violation parameters "F" "Comprada (F)";
           yield_violation parameters].

(** The stores the program can be in: the empty store of [__init__], and
    what the operations of the data manager make of a store, whether they
    succeed or not. *)
Inductive reachable : DataManager -> Prop :=
| reach_new : reachable new_data_manager
| reach_add_flow dm name unit :
    reachable dm -> reachable (add_lci_input_flow dm name unit).1.2
| reach_add_process dm name unit :
    reachable dm -> reachable (add_lci_process_column dm name unit).1.2
| reach_set_value dm flow process value :
    reachable dm -> reachable (set_lci_value dm flow process value).1.2
| reach_remove_flow dm name :
    reachable dm -> reachable (remove_lci_input_flow dm name).1.2
| reach_remove_process dm name :
    reachable dm -> reachable (remove_lci_process_column dm name).1.2
| reach_add_transformity dm flow value unit :
    reachable dm -> reachable (add_transformity dm flow value unit).1.2
| reach_remove_transformity dm flow :
    reachable dm -> reachable (remove_transformity dm flow).1.2
| reach_clear dm :
    reachable dm -> reachable (clear_all_data dm)
| reach_load dm loaded_data dm' :
    reachable dm -> load_data_from_json dm loaded_data = Some dm' -> reachable dm'.

(** What every reachable store satisfies: the frame is rectangular and no
    process name occurs twice. *)
Definition store_ok (dm : DataManager) : Prop :=
  Pandas.wf (lci_df dm) /\ distinct (columns (lci_df dm)) = true.


(** A binary64 value, in its specification, that is not below zero: a NaN,
    a zero of either sign, or a positive number or infinity. *)
Definition SFnonneg (f : spec_float) : Prop := SFltb f (S754_zero false) = false.

(** The stores reached from the empty store by the operations of the data
    manager other than loading a session. *)
Inductive edited : DataManager -> Prop :=
| edit_new : edited new_data_manager
| edit_add_flow dm name unit :
    edited dm -> edited (add_lci_input_flow dm name unit).1.2
| edit_add_process dm name unit :
    edited dm -> edited (add_lci_process_column dm name unit).1.2
| edit_set_value dm flow process value :
    edited dm -> edited (set_lci_value dm flow process value).1.2
| edit_remove_flow dm name :
    edited dm -> edited (remove_lci_input_flow dm name).1.2
| edit_remove_process dm name :
    edited dm -> edited (remove_lci_process_column dm name).1.2
| edit_add_transformity dm flow value unit :
    edited dm -> edited (add_transformity dm flow value unit).1.2
| edit_remove_transformity dm flow :
    edited dm -> edited (remove_transformity dm flow).1.2
| edit_clear dm :
    edited dm -> edited (clear_all_data dm).

(** The cell of a frame at row [i] and column [j]. *)
Definition cell {A} (rows : list (list A)) (i j : nat) : option A :=
  (rows !! i) ≫= (fun row => row !! j).

(** *** Stores and bags the properties are run on *)

(** The store after adding the process [Ore] with unit [kg] and then the
    flow [Sun] to the empty store. *)
Definition small_store : DataManager :=
  (add_lci_input_flow
     (add_lci_process_column new_data_manager "Ore" (Some "kg")).1.2
     "Sun" None).1.2.

(** The store with the single process [Ore], of unit [kg]. *)
Definition ore_store : DataManager :=
  (add_lci_process_column new_data_manager " Ore " (Some "kg")).1.2.

(** The bag of an indices run: R = 100, N = 50, F = 25, no Y. *)
Definition indices_bag : gmap string ParamValue :=
  <["R" := PNum 100%float]> (<["N" := PNum 50%float]> (<["F" := PNum 25%float]> ∅)).

(** A bag without [R] and [F], and with a text that is no number for [N]. *)
Definition broken_bag : gmap string ParamValue :=
  <["N" := PStr "abc"]> ∅.

(** A manual transformity of 2.0e3 for the flow Sun. *)
Definition manual_sun : gmap string ParamValue :=
  <["transformity_Sun" := PNum 2.0e3%float]> ∅.

(** *** Properties of the data manager *)

Lemma validate_name_ok (name context : string) :
  PyStr.strip name <> EmptyString ->
  _validate_name name context = inl (PyStr.strip name).
Proof.
  intros Hne. unfold _validate_name.
  destruct (String.eqb_spec (PyStr.strip name) EmptyString); congruence.
Qed.

Lemma mem_app_last (x : string) (l : list string) :
  Pandas.mem x (l ++ [x]) = true.
Proof.
  unfold Pandas.mem. rewrite List.existsb_app. simpl.
  rewrite String.eqb_refl. now rewrite orb_true_r.
Qed.

(** C9, as the code has it: [add_transformity] called without a unit, or
    with the empty unit, returns [True] and binds the stripped flow name to
    the parsed value with the unit ["sej/unidade_original"], whatever the table
    held for that name before; every other entry of the table is kept. *)
Theorem add_transformity_default_unit (dm : DataManager)
    (flow_name value_str : string) (unit_str : option string) (value : float) :
  PyStr.strip flow_name <> EmptyString ->
  py_float value_str = Some value ->
  unit_str = None \/ unit_str = Some EmptyString ->
  let '(ok, dm', dialogs) := add_transformity dm flow_name value_str unit_str in
  ok = true
  /\ dialogs = []
  /\ transformities dm' !! PyStr.strip flow_name
     = Some (mkTransformity value "sej/unidade_original")
  /\ (forall other : string,
        other <> PyStr.strip flow_name ->
        transformities dm' !! other = transformities dm !! other)
  /\ lci_df dm' = lci_df dm
  /\ lci_units dm' = lci_units dm.
Proof.
  intros Hname Hval Hunit. unfold add_transformity.
  rewrite (validate_name_ok _ _ Hname), Hval.
  assert (Hu : (if String.eqb (default "sej/unidade_original" unit_str) EmptyString
                then "sej/unidade_original"
                else PyStr.strip (default "sej/unidade_original" unit_str))
               = "sej/unidade_original").
  { destruct Hunit as [-> | ->]; vm_compute; reflexivity. }
  rewrite Hu. cbn.
  repeat split.
  - apply lookup_insert_eq.
  - intros other Hother. apply lookup_insert_ne. congruence.
Qed.

(** C10: the unit map is one namespace for flows and processes. Adding a
    flow whose name is that of an existing process (and of no flow) succeeds
    and replaces the unit stored for the name by the unit of the flow;
    removing the flow then succeeds, leaves the process column in place and
    deletes the entry, so that [get_lci_unit] of the name is the empty
    string. *)
Theorem shared_unit_namespace (dm : DataManager) (name : string)
    (unit : option string) :
  PyStr.strip name <> EmptyString ->
  Pandas.mem (PyStr.strip name) (columns (lci_df dm)) = true ->
  Pandas.mem (PyStr.strip name) (index (lci_df dm)) = false ->
  let '(ok1, dm1, _) := add_lci_input_flow dm name unit in
  let '(ok2, dm2, _) := remove_lci_input_flow dm1 name in
  ok1 = true
  /\ columns (lci_df dm1) = columns (lci_df dm)
  /\ lci_units dm1 !! PyStr.strip name = Some (PyStr.strip (default EmptyString unit))
  /\ get_lci_unit dm1 name = PyStr.strip (default EmptyString unit)
  /\ ok2 = true
  /\ columns (lci_df dm2) = columns (lci_df dm)
  /\ Pandas.mem (PyStr.strip name) (columns (lci_df dm2)) = true
  /\ lci_units dm2 !! PyStr.strip name = None
  /\ get_lci_unit dm2 name = EmptyString.
Proof.
  intros Hname Hcol Hrow.
  unfold add_lci_input_flow. rewrite (validate_name_ok _ _ Hname), Hrow.
  unfold remove_lci_input_flow. rewrite (validate_name_ok _ _ Hname).
  cbn -[Pandas.mem]. rewrite mem_app_last.
  unfold get_lci_unit. cbn -[Pandas.mem].
  rewrite lookup_insert_eq, lookup_delete_eq. cbn -[Pandas.mem].
  repeat split; auto.
Qed.

(** *** Sums over the rows of a matrix *)







(** *** Direct inputs *)


(** *** The transformity resolver *)

Lemma tf_fold_errors (dm : DataManager) (parameters : gmap string ParamValue)
    (l : list string) :
  forall acc,
    errors (List.fold_left (tf_step dm parameters) l acc)
    = errors acc ++ omap (malformed_line parameters) l.
Proof.
  induction l as [|fn l IH]; intros acc; cbn.
  - now rewrite List.app_nil_r.
  - rewrite IH. unfold tf_step, malformed_line.
    destruct (parameters !! param_key fn) as [v|].
    + destruct (param_float v); cbn; [reflexivity|].
      now rewrite <- List.app_assoc.
    + destruct (get_transformity_value dm fn); reflexivity.
Qed.

Lemma tf_fold_missing (dm : DataManager) (parameters : gmap string ParamValue)
    (l : list string) :
  forall acc,
    missing_tf_info (List.fold_left (tf_step dm parameters) l acc)
    = missing_tf_info acc ++ List.filter (unresolved dm parameters) l.
Proof.
  induction l as [|fn l IH]; intros acc; cbn.
  - now rewrite List.app_nil_r.
  - rewrite IH. unfold tf_step, unresolved.
    destruct (parameters !! param_key fn) as [v|].
    + destruct (param_float v); reflexivity.
    + destruct (get_transformity_value dm fn); cbn; [reflexivity|].
      now rewrite <- List.app_assoc.
Qed.

Lemma tf_step_final (dm : DataManager) (parameters : gmap string ParamValue)
    (acc : TfAcc) (a fn : string) :
  final_tf (tf_step dm parameters acc a) !! fn
  = if String.eqb fn a
    then match resolved_tf dm parameters fn with
         | Some x => Some x
         | None => final_tf acc !! fn
         end
    else final_tf acc !! fn.
Proof.
  unfold tf_step, resolved_tf.
  destruct (String.eqb_spec fn a) as [->|Hne].
  - destruct (parameters !! param_key a) as [v|].
    + destruct (param_float v); cbn; [apply lookup_insert_eq|reflexivity].
    + destruct (get_transformity_value dm a); cbn;
        [apply lookup_insert_eq|reflexivity].
  - destruct (parameters !! param_key a) as [v|].
    + destruct (param_float v); cbn; [|reflexivity].
      apply lookup_insert_ne. congruence.
    + destruct (get_transformity_value dm a); cbn; [|reflexivity].
      apply lookup_insert_ne. congruence.
Qed.

Lemma tf_fold_final (dm : DataManager) (parameters : gmap string ParamValue)
    (fn : string) (l : list string) :
  forall acc,
    final_tf (List.fold_left (tf_step dm parameters) l acc) !! fn
    = if Pandas.mem fn l
      then match resolved_tf dm parameters fn with
           | Some x => Some x
           | None => final_tf acc !! fn
           end
      else final_tf acc !! fn.
Proof.
  induction l as [|a l IH]; intros acc; cbn; [reflexivity|].
  rewrite IH, tf_step_final. fold (Pandas.mem fn l).
  destruct (String.eqb fn a), (Pandas.mem fn l),
    (resolved_tf dm parameters fn); reflexivity.
Qed.

Lemma mem_In (x : string) (l : list string) :
  Pandas.mem x l = true <-> In x l.
Proof.
  unfold Pandas.mem. rewrite List.existsb_exists. split.
  - intros [y [Hy Heq]]. apply String.eqb_eq in Heq. now subst.
  - intros Hx. exists x. split; [exact Hx|apply String.eqb_refl].
Qed.

(** What the loop leaves in [final_tf] for a required flow. *)
Lemma tf_loop_final (dm : DataManager) (parameters : gmap string ParamValue)
    (input_flow_names : list string) (fn : string) :
  In fn input_flow_names ->
  final_tf (tf_loop dm parameters input_flow_names) !! fn
  = resolved_tf dm parameters fn.
Proof.
  intros Hin. unfold tf_loop. rewrite tf_fold_final.
  apply mem_In in Hin. rewrite Hin. cbn.
  destruct (resolved_tf dm parameters fn); [reflexivity|apply lookup_empty].
Qed.

Lemma tf_loop_errors (dm : DataManager) (parameters : gmap string ParamValue)
    (input_flow_names : list string) :
  errors (tf_loop dm parameters input_flow_names)
  = omap (malformed_line parameters) input_flow_names.
Proof. unfold tf_loop. now rewrite tf_fold_errors. Qed.

Lemma tf_loop_missing (dm : DataManager) (parameters : gmap string ParamValue)
    (input_flow_names : list string) :
  missing_tf_info (tf_loop dm parameters input_flow_names)
  = List.filter (unresolved dm parameters) input_flow_names.
Proof. unfold tf_loop. now rewrite tf_fold_missing. Qed.

(** The three outcomes of the resolver, by its two lists. *)
Lemma resolver_cases (dm : DataManager) (input_flow_names : list string)
    (parameters : gmap string ParamValue) :
  let bad := omap (malformed_line parameters) input_flow_names in
  let lost := List.filter (unresolved dm parameters) input_flow_names in
  (bad <> [] /\
   _get_required_transformities dm input_flow_names parameters
   = (None, PyStr.join nl bad,
      [mkDialog ShowError "Erro nos Parâmetros de Transformidade" (PyStr.join nl bad)]))
  \/ (bad = [] /\ lost <> [] /\
      _get_required_transformities dm input_flow_names parameters
      = (None, missing_tf_msg lost,
         [mkDialog ShowError "Transformidades Faltando" (missing_tf_msg lost)]))
  \/ (bad = [] /\ lost = [] /\
      exists log : string,
        _get_required_transformities dm input_flow_names parameters
        = (Some (final_tf (tf_loop dm parameters input_flow_names)), log, [])).
Proof.
  cbn zeta. unfold _get_required_transformities.
  rewrite tf_loop_errors, tf_loop_missing.
  destruct (omap (malformed_line parameters) input_flow_names) as [|e es].
  - destruct (List.filter (unresolved dm parameters) input_flow_names) as [|m ms].
    + right. right. split; [reflexivity|]. split; [reflexivity|].
      eexists. reflexivity.
    + right. left. split; [reflexivity|]. split; [discriminate|reflexivity].
  - left. split; [discriminate|reflexivity].
Qed.

Lemma omap_nil_inv {A B} (f : A -> option B) (l : list A) (x : A) :
  omap f l = [] -> In x l -> f x = None.
Proof.
  induction l as [|a l IH]; cbn; [intros _ []|].
  destruct (f a) eqn:Hfa; [discriminate|].
  intros Hnil [->|Hin]; [exact Hfa|now apply IH].
Qed.

Lemma filter_nil_inv {A} (f : A -> bool) (l : list A) (x : A) :
  List.filter f l = [] -> In x l -> f x = false.
Proof.
  induction l as [|a l IH]; cbn; [intros _ []|].
  destruct (f a) eqn:Hfa; [discriminate|].
  intros Hnil [->|Hin]; [exact Hfa|now apply IH].
Qed.


Lemma filter_not_nil {A} (f : A -> bool) (l : list A) :
  List.filter f l <> [] <-> exists x, In x l /\ f x = true.
Proof.
  split.
  - induction l as [|a l IH]; cbn; [congruence|].
    destruct (f a) eqn:Hfa.
    + intros _. exists a. split; [now left|exact Hfa].
    + intros H. destruct (IH H) as [x [Hx Hfx]]. exists x. split; [now right|exact Hfx].
  - intros [x [Hx Hfx]] Hnil.
    rewrite (filter_nil_inv f l x Hnil Hx) in Hfx. discriminate.
Qed.

(** A resolver that succeeds has a value for every required flow. *)
Lemma resolver_success (dm : DataManager) (input_flow_names : list string)
    (parameters : gmap string ParamValue) (tfs : gmap string float) :
  (_get_required_transformities dm input_flow_names parameters).1.1 = Some tfs ->
  tfs = final_tf (tf_loop dm parameters input_flow_names)
  /\ forall fn, In fn input_flow_names ->
       exists x, resolved_tf dm parameters fn = Some x /\ tfs !! fn = Some x.
Proof.
  intros Hres.
  destruct (resolver_cases dm input_flow_names parameters)
    as [[_ H]|[[_ [_ H]]|[Hbad [Hlost [log H]]]]];
    rewrite H in Hres; cbn in Hres; try discriminate.
  injection Hres as <-. split; [reflexivity|].
  intros fn Hin. rewrite (tf_loop_final _ _ _ _ Hin).
  pose proof (omap_nil_inv _ _ fn Hbad Hin) as Hb.
  pose proof (filter_nil_inv _ _ fn Hlost Hin) as Hl.
  unfold malformed_line in Hb. unfold unresolved in Hl. unfold resolved_tf.
  destruct (parameters !! param_key fn) as [v|].
  - destruct (param_float v) as [x|]; [eauto|discriminate].
  - destruct (get_transformity_value dm fn) as [x|]; [eauto|discriminate].
Qed.



(** *** Total emergy *)





(** *** Signs of binary64 sums and quotients *)

Lemma round_aux_nonneg (m e : Z) (l : location) :
  SFnonneg (binary_round_aux prec emax false m e l).
Proof.
  unfold SFnonneg, binary_round_aux.
  destruct (shr_fexp prec emax m e l) as [mrs e'].
  destruct (shr_fexp prec emax _ e' loc_Exact) as [mrs' e''].
  destruct (shr_m mrs'); [reflexivity| |reflexivity].
  destruct (Z.leb e'' (emax - prec)); reflexivity.
Qed.

Lemma nonneg_spec (x : float) :
  (x <? 0)%float = false <-> SFnonneg (Prim2SF x).
Proof.
  unfold SFnonneg. rewrite FloatAxioms.ltb_spec.
  change (Prim2SF 0) with (S754_zero false). reflexivity.
Qed.

Lemma add_nonneg (a b : float) :
  (a <? 0)%float = false -> (b <? 0)%float = false -> (a + b <? 0)%float = false.
Proof.
  rewrite !nonneg_spec, FloatAxioms.add_spec. unfold SFnonneg, SF64add.
  destruct (Prim2SF a) as [[|]|[|]| |[|] ma ea]; try discriminate;
    destruct (Prim2SF b) as [[|]|[|]| |[|] mb eb]; try discriminate;
    intros _ _; try reflexivity.
  unfold SFadd, binary_normalize. cbn [cond_Zopp].
  set (p := fst (shl_align ma ea (Z.min ea eb))).
  set (q := fst (shl_align mb eb (Z.min ea eb))).
  change (Z.pos p + Z.pos q)%Z with (Z.pos (p + q)).
  unfold binary_round.
  destruct (shl_align (p + q) _ _) as [mz ez]. apply round_aux_nonneg.
Qed.

Lemma div_nonneg (a b : float) :
  (a <? 0)%float = false -> (b <? 0)%float = false -> (b =? 0)%float = false ->
  (a / b <? 0)%float = false.
Proof.
  rewrite !nonneg_spec, FloatAxioms.div_spec, FloatAxioms.eqb_spec.
  change (Prim2SF 0) with (S754_zero false). unfold SFnonneg, SF64div.
  destruct (Prim2SF a) as [[|]|[|]| |[|] ma ea]; try discriminate;
    destruct (Prim2SF b) as [[|]|[|]| |[|] mb eb]; try discriminate;
    intros _ _ _; try reflexivity.
  unfold SFdiv. cbn [xorb].
  destruct (SFdiv_core_binary _ _ _ _ _ _) as [[mz ez] lz]. apply round_aux_nonneg.
Qed.

Lemma is_infinity_nonneg (x : float) :
  (x <? 0)%float = false -> is_infinity x = (x =? infinity)%float.
Proof.
  rewrite nonneg_spec. unfold is_infinity, SFnonneg.
  rewrite !FloatAxioms.eqb_spec, FloatAxioms.abs_spec.
  change (Prim2SF infinity) with (S754_infinity false).
  destruct (Prim2SF x) as [[|]|[|]| |[|] m e]; try discriminate; reflexivity.
Qed.

Lemma eqb0_not_gt (x : float) :
  (x =? 0)%float = true -> (0 <? x)%float = false.
Proof.
  rewrite FloatAxioms.eqb_spec, FloatAxioms.ltb_spec.
  change (Prim2SF 0) with (S754_zero false).
  destruct (Prim2SF x) as [[|]|[|]| |[|] m e]; try discriminate; reflexivity.
Qed.

Lemma gt0_not_nan (x : float) :
  (0 <? x)%float = true -> is_nan x = false.
Proof.
  unfold is_nan. rewrite FloatAxioms.eqb_spec, FloatAxioms.ltb_spec.
  change (Prim2SF 0) with (S754_zero false).
  destruct (Prim2SF x) as [[|]|[|]| |[|] m e]; try discriminate; try reflexivity.
  intros _. unfold SFeqb, SFcompare.
  now rewrite Z.compare_refl, Pos.compare_cont_refl.
Qed.

(** *** Emergy indices *)

Lemma component_valid (parameters : gmap string ParamValue)
    (key display_name : string) (x : float) :
  indices_component parameters key display_name = inl x
  <-> valid_component parameters key x.
Proof.
  unfold indices_component, valid_component. split.
  - destruct (parameters !! key) as [v|]; [|discriminate].
    destruct (param_blank v) eqn:Hb; [discriminate|].
    destruct (param_float v) as [y|] eqn:Hf; [|discriminate].
    destruct (y <? 0)%float eqn:Hneg; [discriminate|].
    intros [= <-]. exists v. auto.
  - intros [v [-> [-> [-> ->]]]]. reflexivity.
Qed.

Lemma yield_valid (parameters : gmap string ParamValue) (R N F_ Y_ : float) :
  yield_is parameters R N F_ Y_ ->
  exists line : string, indices_yield parameters R N F_ = inl (Y_, line).
Proof.
  unfold yield_is, yield_omitted, valid_component, indices_yield.
  intros [[[Hy|[v [Hy Hb]]] ->]|[v [Hy [Hb [Hf Hneg]]]]]; rewrite Hy.
  - eexists. reflexivity.
  - rewrite Hb. eexists. reflexivity.
  - rewrite Hb, Hf, Hneg. eexists. reflexivity.
Qed.

(** A run on valid inputs: the three indices, formatted. *)
Lemma indices_run (dm : DataManager) (old_results : option Results)
    (parameters : gmap string ParamValue) (R N F_ Y_ : float) :
  valid_component parameters "R" R ->
  valid_component parameters "N" N ->
  valid_component parameters "F" F_ ->
  yield_is parameters R N F_ Y_ ->
  exists summary : string,
    calculate_emergy dm old_results (Some EMERGY_INDICES) parameters
    = (true,
       Some (mkResults None None None
               (Some (fmt_2e (eyr_value Y_ F_)))
               (Some (fmt_2e (elr_value R N F_)))
               (Some (fmt_2e (esi_value (eyr_value Y_ F_) (elr_value R N F_))))
               (Some summary)),
       []).
Proof.
  intros HR HN HF HY.
  apply (component_valid _ _ "Renovável (R)") in HR.
  apply (component_valid _ _ "Não Renovável (N)") in HN.
  apply (component_valid _ _ "Comprada (F)") in HF.
  destruct (yield_valid _ _ _ _ _ HY) as [line Hline].
  unfold calculate_emergy, _calculate_emergy_indices_logic, indices_inputs.
  rewrite HR. cbn [bind]. rewrite HN. cbn [bind]. rewrite HF. cbn [bind].
  rewrite Hline. cbn [bind fst snd]. eexists. reflexivity.
Qed.

(** C4: on valid [R], [N], [F], with [Y] the given valid yield or
    [R + N + F] when the parameter is absent or blank, the run succeeds and
    stores the formatted EYR and ELR, where EYR is [Y / F] when [F != 0],
    and otherwise infinity when [Y > 0] and NaN when [Y == 0]; ELR is
    [(N + F) / R] when [R != 0], and otherwise infinity when [N + F > 0]
    and [0.0] when [N + F == 0]. *)
Theorem indices_eyr_elr (dm : DataManager) (old_results : option Results)
    (parameters : gmap string ParamValue) (R N F_ Y_ : float) :
  valid_component parameters "R" R ->
  valid_component parameters "N" N ->
  valid_component parameters "F" F_ ->
  yield_is parameters R N F_ Y_ ->
  exists (eyr elr : float) (esi summary : string),
    calculate_emergy dm old_results (Some EMERGY_INDICES) parameters
    = (true,
       Some (mkResults None None None
               (Some (fmt_2e eyr)) (Some (fmt_2e elr)) (Some esi) (Some summary)),
       [])
    /\ eyr = eyr_value Y_ F_
    /\ elr = elr_value R N F_
    /\ ((F_ =? 0)%float = false -> eyr = (Y_ / F_)%float)
    /\ ((F_ =? 0)%float = true -> (0 <? Y_)%float = true -> eyr = infinity)
    /\ ((F_ =? 0)%float = true -> (Y_ =? 0)%float = true -> eyr = nan)
    /\ ((R =? 0)%float = false -> elr = ((N + F_) / R)%float)
    /\ ((R =? 0)%float = true -> (0 <? N + F_)%float = true -> elr = infinity)
    /\ ((R =? 0)%float = true -> (N + F_ =? 0)%float = true -> elr = 0%float).
Proof.
  intros HR HN HF HY.
  destruct (indices_run dm old_results _ _ _ _ _ HR HN HF HY) as [summary Hrun].
  eexists (eyr_value Y_ F_), (elr_value R N F_), _, summary.
  split; [exact Hrun|]. split; [reflexivity|]. split; [reflexivity|].
  unfold eyr_value, elr_value, PyFloat.neb, PyFloat.gtb.
  repeat split.
  - intros ->. reflexivity.
  - intros -> ->. reflexivity.
  - intros -> H0. now rewrite (eqb0_not_gt _ H0).
  - intros ->. reflexivity.
  - intros -> ->. reflexivity.
  - intros -> H0. now rewrite (eqb0_not_gt _ H0).
Qed.

Lemma component_nonneg (parameters : gmap string ParamValue) (key : string)
    (x : float) :
  valid_component parameters key x -> (x <? 0)%float = false.
Proof. intros [v [_ [_ [_ H]]]]. exact H. Qed.

(** On valid inputs ELR is never negative: it is not minus infinity. *)
Lemma elr_nonneg (R N F_ : float) :
  (R <? 0)%float = false -> (N <? 0)%float = false -> (F_ <? 0)%float = false ->
  (elr_value R N F_ <? 0)%float = false.
Proof.
  intros HR HN HF. unfold elr_value, PyFloat.neb, PyFloat.gtb.
  destruct (R =? 0)%float eqn:HR0; cbn [negb].
  - destruct (0 <? N + F_)%float; reflexivity.
  - apply div_nonneg; [apply add_nonneg| |]; assumption.
Qed.

(** The three cases of ESI, for an ELR that is not negative. *)
Lemma esi_cases (eyr elr : float) :
  (elr <? 0)%float = false ->
  (is_finite elr = true -> (elr =? 0)%float = false -> is_nan eyr = false ->
   esi_value eyr elr = (eyr / elr)%float)
  /\ ((elr =? 0)%float = true -> (0 <? eyr)%float = true ->
      esi_value eyr elr = infinity)
  /\ (~ (is_finite elr = true /\ (elr =? 0)%float = false /\ is_nan eyr = false) ->
      ~ ((elr =? 0)%float = true /\ (0 <? eyr)%float = true) ->
      esi_value eyr elr = nan)
  /\ (elr = infinity -> esi_value eyr elr = nan).
Proof.
  intros Hpos. pose proof (is_infinity_nonneg _ Hpos) as Hinf.
  unfold esi_value, PyFloat.neb, PyFloat.gtb, PyFloat.isna, is_finite.
  rewrite Hinf.
  split; [|split; [|split]].
  - intros Hfin -> ->. apply negb_true_iff, orb_false_iff in Hfin.
    destruct Hfin as [-> ->]. reflexivity.
  - intros -> Hgt. rewrite Hgt, (gt0_not_nan _ Hgt). reflexivity.
  - intros Hdiv Hzero.
    destruct (elr =? 0)%float eqn:H0; cbn [negb andb].
    + destruct (0 <? eyr)%float eqn:Hgt; cbn [andb]; [|reflexivity].
      exfalso. apply Hzero. split; reflexivity.
    + destruct (is_nan eyr) eqn:Hn1; cbn [orb negb]; [reflexivity|].
      destruct (is_nan elr) eqn:Hn2; cbn [orb negb]; [reflexivity|].
      destruct (elr =? infinity)%float eqn:Hi; cbn [negb]; [reflexivity|].
      exfalso. apply Hdiv. repeat split.
  - intros ->.
    change (infinity =? infinity)%float with true.
    change (infinity =? 0)%float with false.
    rewrite !orb_true_r. reflexivity.
Qed.

(** C5: on valid inputs the run stores the formatted ESI, where ESI is
    [EYR / ELR] when ELR is finite and not zero and EYR is not NaN, is
    infinity when ELR is zero and [EYR > 0], and is NaN in every other
    case, among them ELR infinite. With [R = 0], [N = 10], [F = 0] and no
    [Y], ELR and EYR are infinite and ESI is NaN. *)
Theorem indices_esi (dm : DataManager) (old_results : option Results)
    (parameters : gmap string ParamValue) (R N F_ Y_ : float) :
  valid_component parameters "R" R ->
  valid_component parameters "N" N ->
  valid_component parameters "F" F_ ->
  yield_is parameters R N F_ Y_ ->
  (exists (eyr elr esi : float) (summary : string),
     calculate_emergy dm old_results (Some EMERGY_INDICES) parameters
     = (true,
        Some (mkResults None None None
                (Some (fmt_2e eyr)) (Some (fmt_2e elr)) (Some (fmt_2e esi))
                (Some summary)),
        [])
     /\ eyr = eyr_value Y_ F_
     /\ elr = elr_value R N F_
     /\ esi = esi_value eyr elr
     /\ (is_finite elr = true -> (elr =? 0)%float = false -> is_nan eyr = false ->
         esi = (eyr / elr)%float)
     /\ ((elr =? 0)%float = true -> (0 <? eyr)%float = true -> esi = infinity)
     /\ (~ (is_finite elr = true /\ (elr =? 0)%float = false /\ is_nan eyr = false) ->
         ~ ((elr =? 0)%float = true /\ (0 <? eyr)%float = true) ->
         esi = nan)
     /\ (elr = infinity -> esi = nan))
  /\ (let parameters0 : gmap string ParamValue :=
        <["R" := PNum 0%float]> (<["N" := PNum 10%float]> (<["F" := PNum 0%float]> ∅)) in
      indices_inputs parameters0
      = inl (0%float, 10%float, 0%float, 10%float,
             "Yield (Y) calculado (R+N+F): " +:+ fmt_2e 10%float)
      /\ elr_value 0 10 0 = infinity
      /\ eyr_value 10 0 = infinity
      /\ esi_value (eyr_value 10 0) (elr_value 0 10 0) = nan
      /\ (calculate_emergy dm old_results (Some EMERGY_INDICES) parameters0).1.2
           ≫= ESI
         = Some (fmt_2e nan)).
Proof.
  intros HR HN HF HY. split; [|repeat split; vm_compute; reflexivity].
  destruct (indices_run dm old_results _ _ _ _ _ HR HN HF HY) as [summary Hrun].
  pose proof (elr_nonneg R N F_ (component_nonneg _ _ _ HR)
                (component_nonneg _ _ _ HN) (component_nonneg _ _ _ HF)) as Hpos.
  exists (eyr_value Y_ F_), (elr_value R N F_),
    (esi_value (eyr_value Y_ F_) (elr_value R N F_)), summary.
  split; [exact Hrun|]. do 3 (split; [reflexivity|]).
  apply esi_cases. exact Hpos.
Qed.

Lemma component_violation_none (parameters : gmap string ParamValue)
    (key display_name : string) :
  component_violation parameters key display_name = None
  <-> exists x : float, valid_component parameters key x.
Proof.
  unfold component_violation. split.
  - destruct (indices_component parameters key display_name) as [x|d] eqn:Hc;
      [|discriminate].
    intros _. exists x. now apply (component_valid _ _ display_name).
  - intros [x Hx]. apply (component_valid _ _ display_name) in Hx. now rewrite Hx.
Qed.

(** Whether [Y] is rejected does not depend on [R], [N] and [F]. *)
Lemma yield_violation_spec (parameters : gmap string ParamValue) (R N F_ : float) :
  match indices_yield parameters R N F_ with
  | inl _ => yield_violation parameters = None
  | inr d => yield_violation parameters = Some d
  end.
Proof.
  unfold yield_violation, indices_yield.
  destruct (parameters !! "Y") as [v|]; [|reflexivity].
  destruct (param_blank v); [reflexivity|].
  destruct (param_float v) as [y|]; [|reflexivity].
  destruct (y <? 0)%float; reflexivity.
Qed.

Lemma yield_violation_none (parameters : gmap string ParamValue) :
  yield_violation parameters = None
  <-> yield_omitted parameters \/ exists y : float, valid_component parameters "Y" y.
Proof.
  unfold yield_violation, indices_yield, yield_omitted, valid_component. split.
  - destruct (parameters !! "Y") as [v|]; [|intros _; left; now left].
    destruct (param_blank v) eqn:Hb; [intros _; left; right; eauto|].
    destruct (param_float v) as [y|] eqn:Hf; [|discriminate].
    destruct (y <? 0)%float eqn:Hneg; [discriminate|].
    intros _. right. exists y, v. auto.
  - intros [[->|[v [-> ->]]]|[y [v [-> [-> [-> ->]]]]]]; reflexivity.
Qed.

(** C6, as the code has it: a parameter is rejected exactly when it is
    absent or blank (for [R], [N], [F]), does not parse, or is negative;
    when some parameter is rejected the run returns [False], stores no
    index, and shows one dialog, that of the first rejected parameter in the
    order [R], [N], [F], [Y]; when none is rejected the run returns
    [True]. *)
Theorem indices_fail_fast (dm : DataManager) (old_results : option Results)
    (parameters : gmap string ParamValue) :
  (forall key display_name : string,
      component_violation parameters key display_name = None
      <-> exists x : float, valid_component parameters key x)
  /\ (yield_violation parameters = None
      <-> yield_omitted parameters
          \/ exists y : float, valid_component parameters "Y" y)
  /\ (forall (d : Dialog) (rest : list Dialog),
        indices_violations parameters = d :: rest ->
        exists summary : string,
          calculate_emergy dm old_results (Some EMERGY_INDICES) parameters
          = (false,
             Some (mkResults None None None None None None (Some summary)),
             [d]))
  /\ (indices_violations parameters = [] ->
      (calculate_emergy dm old_results (Some EMERGY_INDICES) parameters).1.1 = true).
Proof.
  split; [intros; apply component_violation_none|].
  split; [apply yield_violation_none|].
  unfold indices_violations, component_violation, calculate_emergy,
    _calculate_emergy_indices_logic, indices_inputs.
  destruct (indices_component parameters "R" _) as [R|dR]; cbn [bind omap id];
    [|split; [intros d rest [= <- _]; eexists; reflexivity|discriminate]].
  destruct (indices_component parameters "N" _) as [N|dN]; cbn [bind omap id];
    [|split; [intros d rest [= <- _]; eexists; reflexivity|discriminate]].
  destruct (indices_component parameters "F" _) as [F_|dF]; cbn [bind omap id];
    [|split; [intros d rest [= <- _]; eexists; reflexivity|discriminate]].
  pose proof (yield_violation_spec parameters R N F_) as HY.
  destruct (indices_yield parameters R N F_) as [[Y_ line]|dY]; rewrite HY;
    cbn [bind omap id fst snd].
  - split; [discriminate|reflexivity].
  - split; [intros d rest [= <- _]; eexists; reflexivity|discriminate].
Qed.

(** *** The invariant of the store *)

Lemma drop_label_length {A B} (name : string) (names : list string)
    (l1 : list A) (l2 : list B) :
  List.length l1 = List.length names ->
  List.length l2 = List.length names ->
  List.length (Pandas.drop_label name names l1)
  = List.length (Pandas.drop_label name names l2).
Proof.
  revert l1 l2. induction names as [|n names IH]; intros [|x l1] [|y l2];
    cbn; try discriminate; try reflexivity.
  intros [= H1] [= H2]. destruct (String.eqb n name); cbn; auto.
Qed.

Lemma drop_label_Forall {A} (P : A -> Prop) (name : string)
    (names : list string) (l : list A) :
  Forall P l -> Forall P (Pandas.drop_label name names l).
Proof.
  intros Hl. revert names. induction Hl as [|x l Hx _ IH]; intros [|n names];
    cbn; try constructor.
  destruct (String.eqb n name); [apply IH|constructor; [exact Hx|apply IH]].
Qed.

Lemma drop_label_mem (name x : string) (l : list string) :
  Pandas.mem x (Pandas.drop_label name l l) = true -> Pandas.mem x l = true.
Proof.
  unfold Pandas.mem. induction l as [|n l IH]; cbn; [discriminate|].
  destruct (String.eqb n name); cbn.
  - intros H. rewrite (IH H). apply orb_true_r.
  - destruct (String.eqb x n); [reflexivity|]. exact IH.
Qed.

Lemma drop_label_distinct (name : string) (l : list string) :
  distinct l = true -> distinct (Pandas.drop_label name l l) = true.
Proof.
  induction l as [|n l IH]; cbn -[Pandas.mem]; [reflexivity|].
  intros H. apply andb_true_iff in H. destruct H as [Hn Hl].
  destruct (String.eqb n name); cbn -[Pandas.mem]; [now apply IH|].
  rewrite (IH Hl), andb_true_r.
  destruct (Pandas.mem n (Pandas.drop_label name l l)) eqn:Hm; [|reflexivity].
  apply drop_label_mem in Hm. now rewrite Hm in Hn.
Qed.

Lemma distinct_app_last (l : list string) (x : string) :
  distinct l = true -> Pandas.mem x l = false -> distinct (l ++ [x]) = true.
Proof.
  induction l as [|n l IH]; cbn -[Pandas.mem]; [reflexivity|].
  intros H Hx. apply andb_true_iff in H. destruct H as [Hn Hl].
  change (Pandas.mem x (n :: l)) with (String.eqb x n || Pandas.mem x l) in Hx.
  apply orb_false_iff in Hx. destruct Hx as [Hxn Hxl].
  rewrite (IH Hl Hxl), andb_true_r.
  unfold Pandas.mem in *. rewrite List.existsb_app. cbn.
  apply negb_true_iff in Hn. rewrite Hn. cbn.
  rewrite String.eqb_sym, Hxn. reflexivity.
Qed.

Lemma wf_empty_frame : Pandas.wf Pandas.empty_frame.
Proof. split; [reflexivity|constructor]. Qed.

Lemma wf_append_row (df : DataFrame) (name : string) (row : list float) :
  Pandas.wf df -> List.length row = List.length (columns df) ->
  Pandas.wf (Pandas.append_row df name row).
Proof.
  intros [Hrows Hcells] Hrow. split; cbn.
  - rewrite !List.length_app. cbn. lia.
  - apply Forall_app. split; [exact Hcells|]. constructor; [exact Hrow|constructor].
Qed.

Lemma wf_append_column (df : DataFrame) (name : string) :
  Pandas.wf df -> Pandas.wf (Pandas.append_column df name).
Proof.
  intros [Hrows Hcells]. split; cbn.
  - now rewrite List.length_map.
  - apply Forall_map. eapply Forall_impl; [exact Hcells|].
    intros row Hrow. cbn. rewrite !List.length_app, Hrow. reflexivity.
Qed.

Lemma wf_set_at (df : DataFrame) (r c : string) (v : float) :
  Pandas.wf df -> Pandas.wf (Pandas.set_at df r c v).
Proof.
  intros [Hrows Hcells]. split; cbn.
  - rewrite length_zip_with. lia.
  - clear Hrows. revert Hcells. generalize (index df).
    induction (data df) as [|row rows IH]; intros [|n names] Hcells; cbn;
      try constructor.
    + inversion Hcells as [|? ? Hrow _]; subst.
      destruct (String.eqb n r); [|exact Hrow].
      rewrite length_zip_with. lia.
    + apply IH. now inversion Hcells.
Qed.

Lemma wf_drop_row (df : DataFrame) (name : string) :
  Pandas.wf df -> Pandas.wf (Pandas.drop_row df name).
Proof.
  intros [Hrows Hcells]. split; cbn.
  - apply drop_label_length; [exact Hrows|reflexivity].
  - now apply drop_label_Forall.
Qed.

Lemma wf_drop_column (df : DataFrame) (name : string) :
  Pandas.wf df -> Pandas.wf (Pandas.drop_column df name).
Proof.
  intros [Hrows Hcells]. split; cbn.
  - now rewrite List.length_map.
  - apply Forall_map. eapply Forall_impl; [exact Hcells|].
    intros row Hrow. cbn. apply drop_label_length; [exact Hrow|reflexivity].
Qed.








(** *** More on the data manager *)

Lemma mem_app (x : string) (l1 l2 : list string) :
  Pandas.mem x (l1 ++ l2) = Pandas.mem x l1 || Pandas.mem x l2.
Proof. unfold Pandas.mem. apply List.existsb_app. Qed.

Lemma mem_singleton (x y : string) : Pandas.mem x [y] = String.eqb x y.
Proof. unfold Pandas.mem. cbn. apply orb_false_r. Qed.

Lemma drop_label_mem_other (name x : string) (l : list string) :
  x <> name -> Pandas.mem x l = true ->
  Pandas.mem x (Pandas.drop_label name l l) = true.
Proof.
  intros Hne. unfold Pandas.mem. induction l as [|n l IH]; cbn; [discriminate|].
  destruct (String.eqb_spec x n) as [->|Hxn]; cbn.
  - intros _. destruct (String.eqb_spec n name) as [->|_]; [congruence|].
    cbn. now rewrite String.eqb_refl.
  - intros Hin. destruct (String.eqb n name); cbn; [now apply IH|].
    rewrite (IH Hin). apply orb_true_r.
Qed.

Lemma drop_label_app_last {A} (name : string) (names : list string)
    (l : list A) (x : A) :
  Pandas.mem name names = false ->
  List.length l = List.length names ->
  Pandas.drop_label name (names ++ [name]) (l ++ [x]) = l.
Proof.
  unfold Pandas.mem. revert l. induction names as [|n names IH]; intros [|y l];
    cbn; try discriminate.
  - intros _ _. now rewrite String.eqb_refl.
  - intros Hmem [= Hlen]. apply orb_false_iff in Hmem. destruct Hmem as [Hn Hmem].
    rewrite String.eqb_sym, Hn. f_equal. now apply IH.
Qed.

Lemma edited_reachable (dm : DataManager) : edited dm -> reachable dm.
Proof. induction 1; now constructor. Qed.

Lemma edited_store_ok (dm : DataManager) : edited dm -> store_ok dm.
Proof.
  induction 1 as [|dm name unit _ [Hwf Hcols]|dm name unit _ [Hwf Hcols]
                  |dm flow process value _ [Hwf Hcols]|dm name _ [Hwf Hcols]
                  |dm name _ [Hwf Hcols]|dm flow value unit _ [Hwf Hcols]
                  |dm flow _ [Hwf Hcols]|dm _ _].
  - split; [apply wf_empty_frame|reflexivity].
  - unfold add_lci_input_flow.
    destruct (_validate_name name _) as [n|d]; [|now split].
    destruct (Pandas.mem n (index (lci_df dm))); [now split|].
    split; cbn; [|exact Hcols]. apply wf_append_row; [exact Hwf|].
    destruct (columns (lci_df dm)); [reflexivity|apply List.repeat_length].
  - unfold add_lci_process_column.
    destruct (_validate_name name _) as [n|d]; [|now split].
    destruct (Pandas.mem n (columns (lci_df dm))) eqn:Hmem; [now split|].
    split; cbn; [now apply wf_append_column|now apply distinct_app_last].
  - unfold set_lci_value.
    destruct (_validate_name flow _) as [f|d], (_validate_name process _) as [p|d'];
      try now split.
    destruct (negb (Pandas.mem f (index (lci_df dm)))); [now split|].
    destruct (negb (Pandas.mem p (columns (lci_df dm)))); [now split|].
    destruct (py_float value); [|now split].
    split; cbn; [now apply wf_set_at|exact Hcols].
  - unfold remove_lci_input_flow.
    destruct (_validate_name name _) as [n|d]; [|now split].
    destruct (Pandas.mem n (index (lci_df dm))); [|now split].
    split; cbn; [now apply wf_drop_row|exact Hcols].
  - unfold remove_lci_process_column.
    destruct (_validate_name name _) as [n|d]; [|now split].
    destruct (Pandas.mem n (columns (lci_df dm))); [|now split].
    split; cbn; [now apply wf_drop_column|now apply drop_label_distinct].
  - unfold add_transformity.
    destruct (_validate_name flow _) as [f|d]; [|now split].
    destruct (py_float value); now split.
  - unfold remove_transformity.
    destruct (_validate_name flow _) as [f|d]; [|now split].
    destruct (transformities dm !! f); now split.
  - split; [apply wf_empty_frame|reflexivity].
Qed.

(** X1: every store reached from the empty store without loading a session
    has a rectangular frame, flow names that are pairwise different, process
    names that are pairwise different, and a unit entry only under names
    that are a flow or a process of the frame. *)
Theorem edited_store_invariant (dm : DataManager) :
  edited dm ->
  Pandas.wf (lci_df dm)
  /\ distinct (index (lci_df dm)) = true
  /\ distinct (columns (lci_df dm)) = true
  /\ forall name : string,
       lci_units dm !! name <> None ->
       Pandas.mem name (index (lci_df dm)) || Pandas.mem name (columns (lci_df dm))
       = true.
Proof.
  intros Hed.
  destruct (edited_store_ok dm Hed) as [Hwf Hcols].
  split; [exact Hwf|]. split; [|split; [exact Hcols|]]; clear Hwf Hcols.
  - induction Hed as [|dm name unit _ IH|dm name unit _ IH|dm flow process value _ IH
                      |dm name _ IH|dm name _ IH|dm flow value unit _ IH
                      |dm flow _ IH|dm _ _]; try reflexivity.
    + unfold add_lci_input_flow.
      destruct (_validate_name name _) as [n|d]; [|exact IH].
      destruct (Pandas.mem n (index (lci_df dm))) eqn:Hmem; [exact IH|].
      cbn. now apply distinct_app_last.
    + unfold add_lci_process_column.
      destruct (_validate_name name _) as [n|d]; [|exact IH].
      destruct (Pandas.mem n (columns (lci_df dm))); exact IH.
    + unfold set_lci_value.
      destruct (_validate_name flow _) as [f|d], (_validate_name process _) as [p|d'];
        try exact IH.
      destruct (negb (Pandas.mem f (index (lci_df dm)))); [exact IH|].
      destruct (negb (Pandas.mem p (columns (lci_df dm)))); [exact IH|].
      destruct (py_float value); exact IH.
    + unfold remove_lci_input_flow.
      destruct (_validate_name name _) as [n|d]; [|exact IH].
      destruct (Pandas.mem n (index (lci_df dm))); [|exact IH].
      cbn. now apply drop_label_distinct.
    + unfold remove_lci_process_column.
      destruct (_validate_name name _) as [n|d]; [|exact IH].
      destruct (Pandas.mem n (columns (lci_df dm))); exact IH.
    + unfold add_transformity.
      destruct (_validate_name flow _) as [f|d]; [|exact IH].
      destruct (py_float value); exact IH.
    + unfold remove_transformity.
      destruct (_validate_name flow _) as [f|d]; [|exact IH].
      destruct (transformities dm !! f); exact IH.
  - induction Hed as [|dm name unit _ IH|dm name unit _ IH|dm flow process value _ IH
                      |dm name _ IH|dm name _ IH|dm flow value unit _ IH
                      |dm flow _ IH|dm _ _]; intros k Hk;
      try (cbn in Hk; rewrite lookup_empty in Hk; congruence).
    + unfold add_lci_input_flow in *.
      destruct (_validate_name name _) as [n|d]; [|now apply IH].
      destruct (Pandas.mem n (index (lci_df dm))); [now apply IH|].
      cbn -[Pandas.mem] in *. rewrite mem_app, mem_singleton.
      destruct (String.eqb_spec k n) as [->|Hne]; [now rewrite orb_true_r|].
      rewrite lookup_insert_ne in Hk by congruence.
      rewrite orb_false_r. now apply IH.
    + unfold add_lci_process_column in *.
      destruct (_validate_name name _) as [n|d]; [|now apply IH].
      destruct (Pandas.mem n (columns (lci_df dm))); [now apply IH|].
      cbn -[Pandas.mem] in *. rewrite mem_app, mem_singleton.
      destruct (String.eqb_spec k n) as [->|Hne]; [now rewrite !orb_true_r|].
      rewrite lookup_insert_ne in Hk by congruence.
      rewrite orb_false_r. now apply IH.
    + unfold set_lci_value in *.
      destruct (_validate_name flow _) as [f|d], (_validate_name process _) as [p|d'];
        try now apply IH.
      destruct (negb (Pandas.mem f (index (lci_df dm)))); [now apply IH|].
      destruct (negb (Pandas.mem p (columns (lci_df dm)))); [now apply IH|].
      destruct (py_float value); now apply IH.
    + unfold remove_lci_input_flow in *.
      destruct (_validate_name name _) as [n|d]; [|now apply IH].
      destruct (Pandas.mem n (index (lci_df dm))); [|now apply IH].
      cbn -[Pandas.mem] in *.
      destruct (String.eqb_spec k n) as [->|Hne];
        [rewrite lookup_delete_eq in Hk; congruence|].
      rewrite lookup_delete_ne in Hk by congruence.
      specialize (IH k Hk). apply orb_true_iff in IH. apply orb_true_iff.
      destruct IH as [Hi|Hc]; [left; now apply drop_label_mem_other|now right].
    + unfold remove_lci_process_column in *.
      destruct (_validate_name name _) as [n|d]; [|now apply IH].
      destruct (Pandas.mem n (columns (lci_df dm))); [|now apply IH].
      cbn -[Pandas.mem] in *.
      destruct (String.eqb_spec k n) as [->|Hne];
        [rewrite lookup_delete_eq in Hk; congruence|].
      rewrite lookup_delete_ne in Hk by congruence.
      specialize (IH k Hk). apply orb_true_iff in IH. apply orb_true_iff.
      destruct IH as [Hi|Hc]; [now left|right; now apply drop_label_mem_other].
    + unfold add_transformity in *.
      destruct (_validate_name flow _) as [f|d]; [|now apply IH].
      destruct (py_float value); now apply IH.
    + unfold remove_transformity in *.
      destruct (_validate_name flow _) as [f|d]; [|now apply IH].
      destruct (transformities dm !! f); now apply IH.
Qed.


Lemma drop_label_row_app_last (name : string) (names : list string)
    (row : list float) (x : float) :
  Pandas.mem name names = false ->
  List.length row = List.length names ->
  Pandas.drop_label name (names ++ [name]) (row ++ [x]) = row.
Proof. apply drop_label_app_last. Qed.

(** X3: adding a flow whose name is new and then removing it gives the
    frame back: both calls return [True], the row labels, the column labels
    and the cells are those before the two calls, and so is the table of
    transformities; of the units only the entry under the name is gone. *)
Theorem add_remove_flow_round_trip (dm : DataManager) (name : string)
    (unit : option string) :
  Pandas.wf (lci_df dm) ->
  PyStr.strip name <> EmptyString ->
  Pandas.mem (PyStr.strip name) (index (lci_df dm)) = false ->
  let '(ok1, dm1, _) := add_lci_input_flow dm name unit in
  let '(ok2, dm2, _) := remove_lci_input_flow dm1 name in
  ok1 = true /\ ok2 = true
  /\ lci_df dm2 = lci_df dm
  /\ transformities dm2 = transformities dm
  /\ lci_units dm2 = delete (PyStr.strip name) (lci_units dm).
Proof.
  intros [Hrows Hcells] Hname Hnew.
  unfold add_lci_input_flow. rewrite (validate_name_ok _ _ Hname), Hnew.
  unfold remove_lci_input_flow. rewrite (validate_name_ok _ _ Hname).
  cbn -[Pandas.mem Pandas.drop_label]. rewrite mem_app_last.
  cbn -[Pandas.mem Pandas.drop_label].
  split; [reflexivity|]. split; [reflexivity|]. split; [|split; [reflexivity|]].
  - unfold Pandas.drop_row. cbn -[Pandas.drop_label].
    rewrite (drop_label_app_last _ _ (index (lci_df dm))) by (exact Hnew || reflexivity).
    rewrite (drop_label_app_last _ _ (data (lci_df dm))) by (exact Hnew || exact Hrows).
    now destruct (lci_df dm).
  - apply delete_insert_eq.
Qed.

(** X4: adding a process whose name is new and then removing it gives the
    frame back: both calls return [True], the labels and the cells are those
    before the two calls, and so is the table of transformities; of the units
    only the entry under the name is gone. *)
Theorem add_remove_process_round_trip (dm : DataManager) (name : string)
    (unit : option string) :
  Pandas.wf (lci_df dm) ->
  PyStr.strip name <> EmptyString ->
  Pandas.mem (PyStr.strip name) (columns (lci_df dm)) = false ->
  let '(ok1, dm1, _) := add_lci_process_column dm name unit in
  let '(ok2, dm2, _) := remove_lci_process_column dm1 name in
  ok1 = true /\ ok2 = true
  /\ lci_df dm2 = lci_df dm
  /\ transformities dm2 = transformities dm
  /\ lci_units dm2 = delete (PyStr.strip name) (lci_units dm).
Proof.
  intros [Hrows Hcells] Hname Hnew.
  unfold add_lci_process_column. rewrite (validate_name_ok _ _ Hname), Hnew.
  unfold remove_lci_process_column. rewrite (validate_name_ok _ _ Hname).
  cbn -[Pandas.mem Pandas.drop_label]. rewrite mem_app_last.
  cbn -[Pandas.mem Pandas.drop_label].
  split; [reflexivity|]. split; [reflexivity|]. split; [|split; [reflexivity|]].
  - unfold Pandas.drop_column. cbn -[Pandas.drop_label].
    rewrite (drop_label_app_last _ _ (columns (lci_df dm))) by (exact Hnew || reflexivity).
    rewrite List.map_map.
    assert (Hdata : List.map
                      (fun row => Pandas.drop_label (PyStr.strip name)
                                    (columns (lci_df dm) ++ [PyStr.strip name])
                                    (row ++ [PrimFloat.nan]))
                      (data (lci_df dm))
                    = data (lci_df dm)).
    { rewrite <- (List.map_id (data (lci_df dm))) at 2. apply List.map_ext_in.
      intros row Hrow. apply drop_label_app_last; [exact Hnew|].
      rewrite Forall_forall in Hcells. apply Hcells. now apply list_elem_of_In. }
    rewrite Hdata. now destruct (lci_df dm).
  - apply delete_insert_eq.
Qed.

Lemma zip_with_lookup_row (f : string -> float -> float) (names : list string)
    (row : list float) (j : nat) (pn : string) (x : float) :
  names !! j = Some pn -> row !! j = Some x ->
  zip_with f names row !! j = Some (f pn x).
Proof. intros Hn Hr. now rewrite lookup_zip_with, Hn, Hr. Qed.

(** X5: [set_lci_value] changes the store only when it returns [True], and
    then only the addressed cells: the labels, the units and the
    transformities are kept, and the cell under flow label [fn] and process
    label [pn] holds the parsed value when [fn] and [pn] are the stripped
    names given, and what it held before otherwise. The call returns [True]
    exactly when both names are not blank, are known after stripping, and the
    value parses. *)
Theorem set_lci_value_cells (dm : DataManager)
    (flow_name process_name value_str : string) :
  let '(ok, dm', _) := set_lci_value dm flow_name process_name value_str in
  (ok = false -> dm' = dm)
  /\ (ok = true <->
      PyStr.strip flow_name <> EmptyString
      /\ PyStr.strip process_name <> EmptyString
      /\ Pandas.mem (PyStr.strip flow_name) (index (lci_df dm)) = true
      /\ Pandas.mem (PyStr.strip process_name) (columns (lci_df dm)) = true
      /\ py_float value_str <> None)
  /\ index (lci_df dm') = index (lci_df dm)
  /\ columns (lci_df dm') = columns (lci_df dm)
  /\ transformities dm' = transformities dm
  /\ lci_units dm' = lci_units dm
  /\ (ok = true ->
      forall (i j : nat) (fn pn : string) (x val : float),
        py_float value_str = Some val ->
        index (lci_df dm) !! i = Some fn ->
        columns (lci_df dm) !! j = Some pn ->
        cell (data (lci_df dm)) i j = Some x ->
        cell (data (lci_df dm')) i j
        = Some (if String.eqb fn (PyStr.strip flow_name)
                   && String.eqb pn (PyStr.strip process_name)
                then val else x)).
Proof.
  unfold set_lci_value, _validate_name.
  destruct (String.eqb_spec (PyStr.strip flow_name) EmptyString) as [Hf|Hf];
    destruct (String.eqb_spec (PyStr.strip process_name) EmptyString) as [Hp|Hp];
    try (repeat split; try discriminate; try reflexivity; intros (? & ? & _); congruence).
  destruct (Pandas.mem (PyStr.strip flow_name) (index (lci_df dm))) eqn:Hmf; cbn [negb];
    [|repeat split; try discriminate; try reflexivity; intros (_ & _ & ? & _); congruence].
  destruct (Pandas.mem (PyStr.strip process_name) (columns (lci_df dm))) eqn:Hmp;
    cbn [negb];
    [|repeat split; try discriminate; try reflexivity; intros (_ & _ & _ & ? & _); congruence].
  destruct (py_float value_str) as [v|] eqn:Hv;
    [|repeat split; try discriminate; try reflexivity;
      intros (_ & _ & _ & _ & ?); congruence].
  split; [discriminate|]. split; [split; [intros _; repeat split; congruence|reflexivity]|].
  do 4 (split; [reflexivity|]).
  intros _ i j fn pn x val [= <-] Hi Hj Hcell.
  unfold cell in *. cbn -[String.eqb].
  destruct (data (lci_df dm) !! i) as [row|] eqn:Hrow; [|discriminate].
  cbn in Hcell. rewrite lookup_zip_with, Hi, Hrow. cbn -[String.eqb].
  destruct (String.eqb fn (PyStr.strip flow_name)); cbn [andb]; [|exact Hcell].
  now rewrite lookup_zip_with, Hj, Hcell.
Qed.





(** X9: after [add_transformity] with a name that is not blank and a value
    that parses, the value is read back under every spelling of the name
    that strips to the same text, with the unit stored beside it, and the
    entries of the other names are kept. With a blank name, or a value that
    does not parse, the call returns [False] and the store is unchanged. *)
Theorem transformity_add_then_get (dm : DataManager)
    (flow_name value_str : string) (unit_str : option string) :
  let '(ok, dm', _) := add_transformity dm flow_name value_str unit_str in
  (ok = true <-> PyStr.strip flow_name <> EmptyString /\ py_float value_str <> None)
  /\ (ok = false -> dm' = dm)
  /\ (ok = true ->
      forall (x : float) (asked : string),
        py_float value_str = Some x ->
        (PyStr.strip asked = PyStr.strip flow_name ->
         get_transformity_value dm' asked = Some x
         /\ exists u : string,
              get_transformity_with_unit dm' asked = Some (mkTransformity x u))
        /\ (PyStr.strip asked <> PyStr.strip flow_name ->
            get_transformity_with_unit dm' asked = get_transformity_with_unit dm asked)).
Proof.
  unfold add_transformity, _validate_name.
  destruct (String.eqb_spec (PyStr.strip flow_name) EmptyString) as [Hf|Hf].
  { split; [split; [discriminate|intros [? _]; congruence]|].
    split; [reflexivity|discriminate]. }
  destruct (py_float value_str) as [v|] eqn:Hv.
  - split; [split; [intros _; split; congruence|reflexivity]|].
    split; [discriminate|]. intros _ x asked [= <-].
    unfold get_transformity_value, get_transformity_with_unit. cbn. split.
    + intros ->. rewrite lookup_insert_eq. split; [reflexivity|eexists; reflexivity].
    + intros Hne. now rewrite lookup_insert_ne by congruence.
  - split; [split; [discriminate|intros [_ ?]; congruence]|].
    split; [reflexivity|discriminate].
Qed.

(** X10: [remove_transformity] returns [True] exactly when the stripped
    name has an entry; it then deletes that entry and keeps the others, and
    otherwise leaves the store unchanged. Adding a transformity under a name
    without entry and removing it again gives the table back. *)
Theorem transformity_remove (dm : DataManager) (flow_name : string) :
  (let '(ok, dm', _) := remove_transformity dm flow_name in
   (ok = true <->
    PyStr.strip flow_name <> EmptyString
    /\ transformities dm !! PyStr.strip flow_name <> None)
   /\ (ok = false -> dm' = dm)
   /\ (ok = true ->
       transformities dm' = delete (PyStr.strip flow_name) (transformities dm)
       /\ lci_df dm' = lci_df dm /\ lci_units dm' = lci_units dm))
  /\ forall (value_str : string) (unit_str : option string),
       PyStr.strip flow_name <> EmptyString ->
       py_float value_str <> None ->
       transformities dm !! PyStr.strip flow_name = None ->
       (remove_transformity
          (add_transformity dm flow_name value_str unit_str).1.2 flow_name).1
       = (true, dm).
Proof.
  split.
  - unfold remove_transformity, _validate_name.
    destruct (String.eqb_spec (PyStr.strip flow_name) EmptyString) as [Hf|Hf].
    { split; [split; [discriminate|intros [? _]; congruence]|].
      split; [reflexivity|discriminate]. }
    destruct (transformities dm !! PyStr.strip flow_name) as [t|] eqn:Ht.
    + split; [split; [intros _; split; congruence|reflexivity]|].
      split; [discriminate|]. intros _. cbn. auto.
    + split; [split; [discriminate|intros [_ ?]; congruence]|].
      split; [reflexivity|discriminate].
  - intros value_str unit_str Hf Hv Hnone.
    unfold add_transformity, remove_transformity.
    rewrite (validate_name_ok _ _ Hf).
    destruct (py_float value_str) as [v|]; [|congruence]. cbn.
    rewrite lookup_insert_eq. cbn. f_equal.
    rewrite delete_insert_eq, (delete_id _ _ Hnone). now destruct dm.
Qed.

(** X11: a total-emergy run on a frame without flows does not consult the
    transformities. With no process either it returns [False], shows the
    dialog on insufficient data and stores the summary only; with processes
    it returns [True], shows a warning, and stores an empty contribution table
    over the processes and a total of [0.0] for every process. *)
Theorem total_emergy_without_flows (dm : DataManager)
    (parameters : gmap string ParamValue) (old_results : option Results) :
  index (lci_df dm) = [] ->
  (columns (lci_df dm) = [] ->
   exists (summary : string) (d : Dialog),
     calculate_emergy dm old_results (Some TOTAL_EMERGY) parameters
     = (false, Some (mkResults None None None None None None (Some summary)), [d])
     /\ d_kind d = ShowError
     /\ d_title d = "Dados Insuficientes para Cálculo")
  /\ (columns (lci_df dm) <> [] ->
      exists (summary : string) (d : Dialog),
        calculate_emergy dm old_results (Some TOTAL_EMERGY) parameters
        = (true,
           Some (mkResults
                   (Some (mkDataFrame [] (columns (lci_df dm)) []))
                   (Some (mkSeries (columns (lci_df dm))
                            (List.map (fun _ => 0%float) (columns (lci_df dm)))))
                   None None None None (Some summary)),
           [d])
        /\ d_kind d = ShowWarning).
Proof.
  intros Hidx.
  unfold calculate_emergy, _calculate_total_emergy_logic, get_lci_names_for_calc.
  rewrite Hidx. destruct (columns (lci_df dm)) as [|c cols]; split; try congruence.
  - intros _. eexists _, _. split; [reflexivity|]. split; reflexivity.
  - intros _. eexists _, _. split; [reflexivity|]. reflexivity.
Qed.

Lemma mem_not_In (x : string) (l : list string) :
  Pandas.mem x l = false <-> ~ In x l.
Proof.
  rewrite <- mem_In. destruct (Pandas.mem x l); split; congruence.
Qed.

(** X12: a resolver that succeeds returns a dict whose keys are exactly the
    required flows: it holds a value for each of them and nothing under any
    other name, whatever else the bag and the table contain. With no required
    flow it succeeds with the empty dict, an empty log and no dialog. *)
Theorem resolver_keys_are_the_flows (dm : DataManager)
    (input_flow_names : list string) (parameters : gmap string ParamValue) :
  (forall tfs : gmap string float,
      (_get_required_transformities dm input_flow_names parameters).1.1 = Some tfs ->
      forall name : string, tfs !! name <> None <-> In name input_flow_names)
  /\ _get_required_transformities dm [] parameters = (Some ∅, EmptyString, []).
Proof.
  split; [|reflexivity].
  intros tfs Hres name. destruct (resolver_success _ _ _ _ Hres) as [-> Hall]. split.
  - intros Hsome. apply mem_In.
    destruct (Pandas.mem name input_flow_names) eqn:Hmem; [reflexivity|].
    exfalso. apply Hsome. unfold tf_loop. rewrite tf_fold_final, Hmem. cbn.
    apply lookup_empty.
  - intros Hin. destruct (Hall name Hin) as [x [_ Hx]]. rewrite Hx. discriminate.
Qed.

Lemma tf_loop_table_irrelevant (df : DataFrame)
    (tfs1 tfs2 : gmap string Transformity) (units1 units2 : gmap string string)
    (parameters : gmap string ParamValue) (l : list string) :
  (forall fn, In fn l -> parameters !! param_key fn <> None) ->
  forall acc,
    List.fold_left (tf_step (mkDataManager df tfs1 units1) parameters) l acc
    = List.fold_left (tf_step (mkDataManager df tfs2 units2) parameters) l acc.
Proof.
  induction l as [|fn l IH]; intros Hall acc; cbn; [reflexivity|].
  assert (Hstep : tf_step (mkDataManager df tfs1 units1) parameters acc fn
                  = tf_step (mkDataManager df tfs2 units2) parameters acc fn).
  { unfold tf_step. specialize (Hall fn (or_introl eq_refl)).
    destruct (parameters !! param_key fn); [reflexivity|congruence]. }
  rewrite Hstep. apply IH. intros fn' Hin. apply Hall. now right.
Qed.

(** X13: when the bag holds a manual value for every flow of the frame, a
    total-emergy run does not read the table of transformities: two stores
    with the same frame give the same flag, the same results and the same
    dialogs, whatever their tables and units are. *)
Theorem overrides_make_table_irrelevant (df : DataFrame)
    (tfs1 tfs2 : gmap string Transformity) (units1 units2 : gmap string string)
    (parameters : gmap string ParamValue) (old_results : option Results) :
  (forall fn : string, In fn (index df) -> parameters !! param_key fn <> None) ->
  calculate_emergy (mkDataManager df tfs1 units1) old_results (Some TOTAL_EMERGY)
    parameters
  = calculate_emergy (mkDataManager df tfs2 units2) old_results (Some TOTAL_EMERGY)
      parameters.
Proof.
  intros Hall.
  unfold calculate_emergy, _calculate_total_emergy_logic, get_lci_names_for_calc,
    get_lci_matrix_for_calc, _get_required_transformities, tf_loop.
  cbn [lci_df].
  now rewrite (tf_loop_table_irrelevant df tfs1 tfs2 units1 units2 parameters
                 (index df) Hall).
Qed.

(** What a mode may leave in the results besides the summary. *)
Lemma total_logic_keys (dm : DataManager) (parameters : gmap string ParamValue)
    (calc_summary_msg : list string) :
  let '(ok, results, _, _) :=
    _calculate_total_emergy_logic dm parameters no_results calc_summary_msg in
  sum_of_direct_inputs_per_process results = None
  /\ EYR results = None /\ ELR results = None /\ ESI results = None
  /\ calculation_summary results = None
  /\ (ok = false ->
      emergy_per_input_flow_for_each_process results = None
      /\ total_emergy_per_process results = None)
  /\ (ok = true ->
      exists (table : DataFrame) (totals : Series),
        emergy_per_input_flow_for_each_process results = Some table
        /\ total_emergy_per_process results = Some totals
        /\ index table = index (lci_df dm)
        /\ columns table = columns (lci_df dm)
        /\ s_index totals = columns (lci_df dm)).
Proof.
  unfold _calculate_total_emergy_logic, get_lci_names_for_calc.
  destruct (index (lci_df dm)) as [|r rows].
  - destruct (columns (lci_df dm)) as [|c cols]; cbn.
    + repeat split; try reflexivity; discriminate.
    + repeat split; try reflexivity; try discriminate.
      intros _. eexists _, _. repeat split.
  - destruct (_get_required_transformities dm (r :: rows) parameters)
      as [[[tfs|] log] ds]; [|cbn; repeat split; try reflexivity; discriminate].
    destruct (negb _); [cbn; repeat split; try reflexivity; discriminate|].
    destruct (_ && _); cbn -[Numpy.scale_rows Numpy.sum_axis0];
      (repeat split; try reflexivity; try discriminate);
      intros _; eexists _, _; repeat split.
Qed.

(** X14: a run with a valid calculation type starts from empty results, so
    that nothing of an earlier run is left: the results after the run do not
    depend on the results before it, they always hold the summary, and they
    hold the outputs of the selected mode only (the table and the totals for
    total emergy, the sums for direct inputs, the three indices for the
    indices mode), all of them together on success and none on failure. *)
Theorem results_hold_one_run (dm : DataManager) (old_results : option Results)
    (c : CalculationType) (parameters : gmap string ParamValue) :
  calculate_emergy dm old_results (Some c) parameters
  = calculate_emergy dm None (Some c) parameters
  /\ exists (ok : bool) (r : Results) (dialogs : list Dialog),
       calculate_emergy dm old_results (Some c) parameters = (ok, Some r, dialogs)
       /\ calculation_summary r <> None
       /\ (let table := emergy_per_input_flow_for_each_process r in
           let totals := total_emergy_per_process r in
           let sums := sum_of_direct_inputs_per_process r in
           match c with
           | TOTAL_EMERGY =>
               sums = None /\ EYR r = None /\ ELR r = None /\ ESI r = None
               /\ (if ok then table <> None /\ totals <> None
                   else table = None /\ totals = None)
           | DIRECT_INPUTS_SUM =>
               table = None /\ totals = None
               /\ EYR r = None /\ ELR r = None /\ ESI r = None
               /\ ok = true /\ sums <> None
           | EMERGY_INDICES =>
               table = None /\ totals = None /\ sums = None
               /\ (if ok then EYR r <> None /\ ELR r <> None /\ ESI r <> None
                   else EYR r = None /\ ELR r = None /\ ESI r = None)
           end).
Proof.
  split; [reflexivity|]. unfold calculate_emergy. destruct c.
  - pose proof (total_logic_keys dm parameters
                  ["Tipo de cálculo selecionado: " +:+ display_name TOTAL_EMERGY]) as H.
    destruct (_calculate_total_emergy_logic dm parameters no_results _)
      as [[[ok r] msgs] ds].
    destruct H as (Hs & He & Hl & Hi & _ & Hfail & Hok).
    exists ok, (mkResults (emergy_per_input_flow_for_each_process r)
                  (total_emergy_per_process r) (sum_of_direct_inputs_per_process r)
                  (EYR r) (ELR r) (ESI r) (Some (PyStr.join nl msgs))), ds.
    split; [reflexivity|]. split; [discriminate|]. cbn.
    do 4 (split; [assumption|]).
    destruct ok.
    + destruct (Hok eq_refl) as (table & totals & -> & -> & _). split; discriminate.
    + now apply Hfail.
  - unfold _calculate_direct_inputs_sum_logic.
    destruct (_ || _); eexists _, _, _; (split; [reflexivity|]);
      cbn -[Numpy.sum_axis0]; repeat split; discriminate.
  - unfold _calculate_emergy_indices_logic.
    destruct (indices_inputs parameters) as [[[[[R N] F_] Y_] line]|d];
      eexists _, _, _; (split; [reflexivity|]); cbn; repeat split; discriminate.
Qed.

Lemma yield_nonneg (parameters : gmap string ParamValue) (R N F_ Y_ : float) :
  (R <? 0)%float = false -> (N <? 0)%float = false -> (F_ <? 0)%float = false ->
  yield_is parameters R N F_ Y_ -> (Y_ <? 0)%float = false.
Proof.
  intros HR HN HF [[_ ->]|HY].
  - apply add_nonneg; [apply add_nonneg|]; assumption.
  - exact (component_nonneg _ _ _ HY).
Qed.

Lemma eyr_nonneg (Y_ F_ : float) :
  (Y_ <? 0)%float = false -> (F_ <? 0)%float = false ->
  (eyr_value Y_ F_ <? 0)%float = false.
Proof.
  intros HY HF. unfold eyr_value, PyFloat.neb, PyFloat.gtb.
  destruct (F_ =? 0)%float eqn:HF0; cbn [negb].
  - destruct (0 <? Y_)%float; reflexivity.
  - now apply div_nonneg.
Qed.

Lemma esi_nonneg (eyr elr : float) :
  (eyr <? 0)%float = false -> (elr <? 0)%float = false ->
  (esi_value eyr elr <? 0)%float = false.
Proof.
  intros He Hl. unfold esi_value, PyFloat.neb.
  destruct (elr =? 0)%float eqn:H0; cbn [negb andb].
  - destruct (_ && _); reflexivity.
  - destruct (negb _); [now apply div_nonneg|reflexivity].
Qed.

(** X15: on valid inputs none of the three indices is negative: for each of
    EYR, ELR and ESI the comparison [x < 0] is false (the value is NaN, a
    zero, a positive number or plus infinity), and the run stores their
    formatted values. *)
Theorem indices_never_negative (dm : DataManager) (old_results : option Results)
    (parameters : gmap string ParamValue) (R N F_ Y_ : float) :
  valid_component parameters "R" R ->
  valid_component parameters "N" N ->
  valid_component parameters "F" F_ ->
  yield_is parameters R N F_ Y_ ->
  exists (eyr elr esi : float) (summary : string),
    calculate_emergy dm old_results (Some EMERGY_INDICES) parameters
    = (true,
       Some (mkResults None None None
               (Some (fmt_2e eyr)) (Some (fmt_2e elr)) (Some (fmt_2e esi))
               (Some summary)),
       [])
    /\ (eyr <? 0)%float = false
    /\ (elr <? 0)%float = false
    /\ (esi <? 0)%float = false
    /\ (eyr =? neg_infinity)%float = false
    /\ (elr =? neg_infinity)%float = false
    /\ (esi =? neg_infinity)%float = false.
Proof.
  intros HR HN HF HY.
  destruct (indices_run dm old_results _ _ _ _ _ HR HN HF HY) as [summary Hrun].
  pose proof (component_nonneg _ _ _ HR) as HR0.
  pose proof (component_nonneg _ _ _ HN) as HN0.
  pose proof (component_nonneg _ _ _ HF) as HF0.
  pose proof (yield_nonneg _ _ _ _ _ HR0 HN0 HF0 HY) as HY0.
  pose proof (eyr_nonneg _ _ HY0 HF0) as He.
  pose proof (elr_nonneg _ _ _ HR0 HN0 HF0) as Hl.
  pose proof (esi_nonneg _ _ He Hl) as Hs.
  assert (Hinf : forall x : float,
             (x <? 0)%float = false -> (x =? neg_infinity)%float = false).
  { intros x. rewrite nonneg_spec, FloatAxioms.eqb_spec. unfold SFnonneg.
    change (Prim2SF neg_infinity) with (S754_infinity true).
    destruct (Prim2SF x) as [[|]|[|]| |[|] m e]; try discriminate; reflexivity. }
  eexists _, _, _, summary. split; [exact Hrun|]. auto 10.
Qed.

(** X16: the display names identify the calculation types: the name of a
    type is read back as that type, a text is read as a type only when it is
    the name of that type, and every other text is read as no type. *)
Theorem display_name_round_trip (c : CalculationType) (text : string) :
  from_display_name (display_name c) = Some c
  /\ (from_display_name text = Some c <-> text = display_name c)
  /\ (from_display_name text = None <->
      forall c' : CalculationType, text <> display_name c')
  /\ get_all_display_names
     = List.map display_name [TOTAL_EMERGY; DIRECT_INPUTS_SUM; EMERGY_INDICES].
Proof.
  assert (Hrt : forall c', from_display_name (display_name c') = Some c')
    by (intros []; reflexivity).
  assert (Hinv : forall c', from_display_name text = Some c' -> text = display_name c').
  { unfold from_display_name, get_display_names_map. intros c'.
    destruct (String.eqb_spec "Emergia Total por Processo" text) as [<-|_];
      [now intros [= <-]|].
    destruct (String.eqb_spec "Soma dos Inputs Diretos" text) as [<-|_];
      [now intros [= <-]|].
    destruct (String.eqb_spec "Índices Emergéticos (EYR, ELR, ESI)" text) as [<-|_];
      [now intros [= <-]|discriminate]. }
  split; [apply Hrt|]. split; [split; [apply Hinv|intros ->; apply Hrt]|].
  split; [|reflexivity]. split.
  - intros Hnone c' ->. rewrite Hrt in Hnone. discriminate.
  - intros Hall. destruct (from_display_name text) as [c'|] eqn:Hc; [|reflexivity].
    exfalso. exact (Hall c' (Hinv c' eq_refl)).
Qed.

(** *** The additional parameters of a simulation *)

Lemma contains_In (c : ascii) (s : string) :
  PyStrOps.contains c s = true <-> In c (list_ascii_of_string s).
Proof.
  induction s as [|a s IH]; cbn; [split; [discriminate|intros []]|].
  rewrite orb_true_iff, IH. split.
  - intros [H|H]; [left; now apply Ascii.eqb_eq|now right].
  - intros [H|H]; [left; now apply Ascii.eqb_eq|now right].
Qed.

Lemma contains_app (c : ascii) (a b : string) :
  PyStrOps.contains c (a +:+ b) = PyStrOps.contains c a || PyStrOps.contains c b.
Proof.
  induction a as [|x a IH]; [reflexivity|].
  change (String x a +:+ b) with (String x (a +:+ b)). cbn. now rewrite IH, orb_assoc.
Qed.

Lemma contains_replace (c old new : ascii) (s : string) :
  c <> old -> c <> new ->
  PyStrOps.contains c (PyStr.replace old new s) = PyStrOps.contains c s.
Proof.
  intros Ho Hn. induction s as [|a s IH]; cbn; [reflexivity|]. rewrite IH. f_equal.
  destruct (Ascii.eqb_spec a old) as [->|Hne]; [|reflexivity].
  destruct (Ascii.eqb_spec new c) as [->|_]; [congruence|].
  destruct (Ascii.eqb_spec old c) as [->|_]; [congruence|reflexivity].
Qed.

Lemma lstrip_codes_In (fwd : bool) (n : nat) :
  forall l : list N, List.length l <= n ->
    forall x : N, In x (PyStr.lstrip_codes fwd l) -> In x l.
Proof.
  induction n as [|n IH]; intros l Hlen x.
  - destruct l; [intros []|cbn in Hlen; lia].
  - destruct l as [|a [|b [|c t3]]]; cbn -[PyStr.is_space1 PyStr.is_space2 PyStr.is_space3].
    + intros [].
    + destruct (PyStr.is_space1 a); [intros []|auto].
    + destruct (PyStr.is_space1 a).
      * intros H. right. apply (IH [b]); [cbn; cbn in Hlen; lia|exact H].
      * destruct (if fwd then _ else _); [intros []|auto].
    + cbn in Hlen. destruct (PyStr.is_space1 a).
      * intros H. right. apply (IH (b :: c :: t3)); [cbn; lia|exact H].
      * destruct (if fwd then PyStr.is_space2 a b else PyStr.is_space2 b a).
        -- intros H. right. right. apply (IH (c :: t3)); [cbn; lia|exact H].
        -- destruct (if fwd then PyStr.is_space3 a b c else PyStr.is_space3 c b a).
           ++ intros H. right. right. right. apply (IH t3); [lia|exact H].
           ++ auto.
Qed.

(** [strip] keeps characters of the string only. *)
Lemma strip_chars (c : ascii) (s : string) :
  PyStrOps.contains c (PyStr.strip s) = true -> PyStrOps.contains c s = true.
Proof.
  rewrite !contains_In. unfold PyStr.strip, PyStr.of_codes, PyStr.codes.
  rewrite list_ascii_of_string_of_list_ascii, in_map_iff.
  intros [x [<- Hx]]. apply in_rev in Hx.
  apply (lstrip_codes_In false _ _ (le_n _)) in Hx. apply in_rev in Hx.
  apply (lstrip_codes_In true _ _ (le_n _)) in Hx.
  apply in_map_iff in Hx. destruct Hx as [a [<- Ha]].
  now rewrite ascii_N_embedding.
Qed.

Lemma split_no_sep (sep : ascii) (s p : string) :
  In p (PyStrOps.split sep s) -> PyStrOps.contains sep p = false.
Proof.
  revert p. induction s as [|a s IH]; cbn; intros p.
  - intros [<-|[]]. reflexivity.
  - destruct (Ascii.eqb a sep) eqn:Ha.
    + intros [<-|H]; [reflexivity|now apply IH].
    + destruct (PyStrOps.split sep s) as [|q qs].
      * intros [<-|[]]. cbn. now rewrite Ha.
      * intros [<-|H]; [|apply IH; now right].
        cbn. rewrite Ha. apply IH. now left.
Qed.


Lemma split_first_key (sep : ascii) (s : string) :
  PyStrOps.contains sep (PyStrOps.split_first sep s).1 = false.
Proof.
  induction s as [|a s IH]; cbn; [reflexivity|].
  destruct (Ascii.eqb a sep) eqn:Ha; [reflexivity|].
  destruct (PyStrOps.split_first sep s) as [before after]. cbn in *.
  now rewrite Ha, IH.
Qed.

Lemma split_first_chars (c sep : ascii) (s : string) :
  PyStrOps.contains c (PyStrOps.split_first sep s).1 = true ->
  PyStrOps.contains c s = true.
Proof.
  induction s as [|a s IH]; cbn; [discriminate|].
  destruct (Ascii.eqb a sep); [discriminate|].
  destruct (PyStrOps.split_first sep s) as [before after]. cbn in *.
  intros H. apply orb_true_iff in H. apply orb_true_iff.
  destruct H as [H|H]; [now left|right; now apply IH].
Qed.


(** The keys of the parsed parameters have none of the two separators. *)
Definition clean_keys (params : gmap string ParamValue) : Prop :=
  forall (key : string) (v : ParamValue),
    params !! key = Some v ->
    PyStrOps.contains ";" key = false /\ PyStrOps.contains "=" key = false.

Lemma parse_step_clean (acc : gmap string ParamValue * list string) (piece : string) :
  PyStrOps.contains ";" piece = false ->
  clean_keys acc.1 -> clean_keys (parse_step acc piece).1.
Proof.
  intros Hpiece Hacc. unfold parse_step.
  destruct (String.eqb (PyStr.strip piece) EmptyString); [exact Hacc|].
  destruct (negb _); [exact Hacc|].
  pose proof (split_first_key "=" (PyStr.strip piece)) as Heq.
  pose proof (split_first_chars ";" "=" (PyStr.strip piece)) as Hsemi.
  destruct (PyStrOps.split_first "=" (PyStr.strip piece)) as [key value_str].
  cbn [fst snd] in *. intros k v.
  destruct (decide (k = PyStr.strip key)) as [->|Hne].
  - intros _. split.
    + destruct (PyStrOps.contains ";" (PyStr.strip key)) eqn:H; [|reflexivity].
      apply strip_chars, Hsemi, strip_chars in H. congruence.
    + destruct (PyStrOps.contains "=" (PyStr.strip key)) eqn:H; [|reflexivity].
      apply strip_chars in H. congruence.
  - rewrite lookup_insert_ne by congruence. apply Hacc.
Qed.

Lemma parse_fold_clean (pieces : list string)
    (acc : gmap string ParamValue * list string) :
  (forall p, In p pieces -> PyStrOps.contains ";" p = false) ->
  clean_keys acc.1 -> clean_keys (List.fold_left parse_step pieces acc).1.
Proof.
  revert acc. induction pieces as [|p pieces IH]; intros acc Hp Hacc; [exact Hacc|].
  cbn. apply IH; [intros q Hq; apply Hp; now right|].
  apply parse_step_clean; [apply Hp; now left|exact Hacc].
Qed.

Lemma parse_clean (raw_string : string) :
  clean_keys (_parse_general_parameters raw_string).1.
Proof.
  unfold _parse_general_parameters.
  destruct (_ && _); [|intros k v; cbn; now rewrite lookup_empty].
  apply parse_fold_clean; [apply split_no_sep|].
  intros k v. cbn. now rewrite lookup_empty.
Qed.

Lemma param_key_contains (c : ascii) (fn : string) :
  c <> " "%char -> c <> "."%char -> c <> "_"%char ->
  PyStrOps.contains c "transformity_" = false ->
  PyStrOps.contains c (param_key fn) = PyStrOps.contains c fn.
Proof.
  intros Hs Hd Hu Hpre. unfold param_key.
  rewrite contains_app, Hpre, !contains_replace by assumption. reflexivity.
Qed.

(** X17: the keys of the additional parameters never hold [;] or [=], so
    that the transformity of a flow whose name holds one of the two cannot be
    given in the field of the additional parameters, whatever is typed
    there. When such a flow of the LCI has no transformity in the table, no
    run of the total emergy from the simulation tab succeeds: the completion
    dialog is never shown and the results hold neither the table of
    contributions nor the totals, or are left as they were. *)
Theorem separator_in_flow_name_blocks_override (dm : DataManager) (fn : string) :
  In fn (index (lci_df dm)) ->
  PyStrOps.contains "=" fn || PyStrOps.contains ";" fn = true ->
  (forall (raw_string key : string) (v : ParamValue),
      (_parse_general_parameters raw_string).1 !! key = Some v ->
      PyStrOps.contains ";" key = false /\ PyStrOps.contains "=" key = false)
  /\ (forall raw_string : string,
         (_parse_general_parameters raw_string).1 !! param_key fn = None)
  /\ (get_transformity_value dm fn = None ->
      forall (old_results : option Results)
             (raw_string R_text N_text F_text Y_text : string),
        let run :=
          run_simulation dm old_results (display_name TOTAL_EMERGY)
                         raw_string R_text N_text F_text Y_text in
        (run.1 = old_results
         \/ exists r : Results,
              run.1 = Some r
              /\ emergy_per_input_flow_for_each_process r = None
              /\ total_emergy_per_process r = None)
        /\ forall d : Dialog, In d run.2 -> d_kind d <> ShowInfo).
Proof.
  intros Hin Hsep.
  assert (Hkey : forall raw_string,
             (_parse_general_parameters raw_string).1 !! param_key fn = None).
  { intros raw_string.
    destruct ((_parse_general_parameters raw_string).1 !! param_key fn) as [v|] eqn:Hv;
      [|reflexivity].
    destruct (parse_clean raw_string _ _ Hv) as [Hsemi Heq].
    rewrite param_key_contains in Hsemi by (try discriminate; reflexivity).
    rewrite param_key_contains in Heq by (try discriminate; reflexivity).
    rewrite Hsemi, Heq in Hsep. discriminate. }
  split; [exact parse_clean|]. split; [exact Hkey|].
  intros Htable old_results raw_string R_text N_text F_text Y_text.
  specialize (Hkey raw_string).
  unfold run_simulation.
  change (from_display_name (display_name TOTAL_EMERGY)) with (Some TOTAL_EMERGY).
  cbn match. cbn [andb].
  destruct (Pandas.empty (lci_df dm));
    [cbn; split; [now left|intros d [<-|[]]; discriminate]|].
  destruct (_parse_general_parameters raw_string) as [general_params gp_errors].
  cbn [fst] in Hkey.
  set (warnings := match gp_errors with [] => [] | _ => _ end).
  assert (Hwarn : forall d : Dialog, In d warnings -> d_kind d <> ShowInfo).
  { subst warnings. destruct gp_errors; intros d; [intros []|intros [<-|[]]; discriminate]. }
  destruct (general_params !! "calculation_type_enum").
  - cbn. split; [now left|]. intros d Hd.
    apply in_app_or in Hd. destruct Hd as [Hd|[<-|[]]]; [now apply Hwarn|discriminate].
  - unfold calculate_emergy, _calculate_total_emergy_logic, get_lci_names_for_calc.
    destruct (index (lci_df dm)) as [|r rows] eqn:Hindex; [destruct Hin|].
    assert (Hlost : List.filter (unresolved dm general_params) (r :: rows) <> []).
    { apply filter_not_nil. exists fn. split; [exact Hin|].
      unfold unresolved. now rewrite Hkey, Htable. }
    destruct (resolver_cases dm (r :: rows) general_params)
      as [[_ H]|[[_ [_ H]]|[_ [Hnil _]]]]; [| |contradiction];
      rewrite H; cbn; (split; [right; eexists; repeat split|]);
      intros d Hd; try rewrite app_nil_r in Hd; apply in_app_or in Hd;
      (destruct Hd as [Hd|[<-|[]]]; [now apply Hwarn|discriminate]).
Qed.

(** X18: two flows whose names differ only in spaces, dots and underscores
    have the same key, so one manual value serves both: when the bag holds
    that key and the resolver succeeds, both flows get the same
    transformity, whatever the table says for each. *)
Theorem flows_with_one_key_share_the_override (dm : DataManager)
    (input_flow_names : list string) (parameters : gmap string ParamValue)
    (tfs : gmap string float) (f1 f2 : string) (v : ParamValue) :
  In f1 input_flow_names -> In f2 input_flow_names ->
  PyStr.replace "." "_" (PyStr.replace " " "_" f1)
  = PyStr.replace "." "_" (PyStr.replace " " "_" f2) ->
  parameters !! param_key f1 = Some v ->
  (_get_required_transformities dm input_flow_names parameters).1.1 = Some tfs ->
  exists x : float,
    param_float v = Some x /\ tfs !! f1 = Some x /\ tfs !! f2 = Some x.
Proof.
  intros H1 H2 Hsame Hv Hres.
  destruct (resolver_success _ _ _ _ Hres) as [_ Hall].
  destruct (Hall f1 H1) as [x1 [Hr1 Ht1]]. destruct (Hall f2 H2) as [x2 [Hr2 Ht2]].
  assert (Hk : param_key f2 = param_key f1) by (unfold param_key; now rewrite Hsame).
  unfold resolved_tf in Hr1, Hr2. rewrite Hk in Hr2. rewrite Hv in Hr1, Hr2.
  exists x1. repeat split; [exact Hr1|exact Ht1|]. rewrite Ht2. congruence.
Qed.


(** *** The run of a simulation *)

(** The dialogs of the loop over the entries of the indices are errors of
    the loop, or were shown before it. *)
Lemma read_entries_dialogs (entries : list (string * string)) :
  forall (simulation_params : gmap string ParamValue) (missing : bool)
         (dialogs : list Dialog) (d : Dialog),
    In d match read_indices_entries entries simulation_params missing dialogs with
         | inl (_, _, shown) => shown
         | inr shown => shown
         end ->
    In d dialogs
    \/ (d_kind d = ShowError
        /\ (d_title d = "Erro de Parâmetro (Índices)"
            \/ d_title d = "Parâmetro Obrigatório (Índices)")).
Proof.
  induction entries as [|[key text] entries IH]; intros params missing dialogs d;
    cbn [read_indices_entries]; [now left|].
  destruct (negb (String.eqb (PyStr.strip text) EmptyString)).
  - destruct (py_float (PyStr.strip text)); [apply IH|].
    intros H. apply in_app_or in H. destruct H as [H|[<-|[]]]; [now left|].
    right. cbn. auto.
  - destruct (negb (String.eqb key "Y")); [|apply IH].
    intros H. apply IH in H. destruct H as [H|H]; [|now right].
    apply in_app_or in H. destruct H as [H|[<-|[]]]; [now left|].
    right. cbn. auto.
Qed.

(** The dialogs of the indices mode of the calculator. *)
Lemma indices_dialog_titles (parameters : gmap string ParamValue) (d : Dialog) :
  indices_inputs parameters = inr d ->
  d_kind d = ShowError
  /\ (d_title d = "Parâmetro Ausente para Índices"
      \/ d_title d = "Valor Inválido para Índices"
      \/ d_title d = "Valor Inválido para Yield (Y)").
Proof.
  assert (Hc : forall key name x,
             indices_component parameters key name = inr x ->
             d_kind x = ShowError
             /\ (d_title x = "Parâmetro Ausente para Índices"
                 \/ d_title x = "Valor Inválido para Índices"
                 \/ d_title x = "Valor Inválido para Yield (Y)")).
  { intros key name x. unfold indices_component.
    destruct (parameters !! key) as [v|]; [|intros [= <-]; cbn; auto].
    destruct (param_blank v); [intros [= <-]; cbn; auto|].
    destruct (param_float v) as [y|]; [|intros [= <-]; cbn; auto].
    destruct (y <? 0)%float; [intros [= <-]; cbn; auto|discriminate]. }
  unfold indices_inputs.
  destruct (indices_component parameters "R" _) as [R|x] eqn:HR;
    [|intros [= <-]; exact (Hc _ _ _ HR)].
  destruct (indices_component parameters "N" _) as [N|x] eqn:HN;
    [|intros [= <-]; exact (Hc _ _ _ HN)].
  destruct (indices_component parameters "F" _) as [F_|x] eqn:HF;
    [|intros [= <-]; exact (Hc _ _ _ HF)].
  cbn [bind]. unfold indices_yield.
  destruct (parameters !! "Y") as [v|]; [|discriminate].
  destruct (param_blank v); [discriminate|].
  destruct (param_float v) as [y|]; [|intros [= <-]; cbn; auto].
  destruct (y <? 0)%float; [intros [= <-]; cbn; auto|discriminate].
Qed.

(** On a rectangular frame with flows and processes the total emergy shows
    the dialogs of the resolver only. *)
Lemma total_dialog_titles (dm : DataManager) (parameters : gmap string ParamValue)
    (results : Results) (calc_summary_msg : list string) (d : Dialog) :
  Pandas.wf (lci_df dm) ->
  Pandas.empty (lci_df dm) = false ->
  In d (_calculate_total_emergy_logic dm parameters results calc_summary_msg).2 ->
  d_kind d = ShowError
  /\ (d_title d = "Erro nos Parâmetros de Transformidade"
      \/ d_title d = "Transformidades Faltando").
Proof.
  intros [Hrows _] Hempty.
  unfold _calculate_total_emergy_logic, get_lci_names_for_calc, get_lci_matrix_for_calc,
    Numpy.shape0.
  unfold Pandas.empty in Hempty. cbv beta iota zeta.
  destruct (index (lci_df dm)) as [|r rows]; [discriminate|].
  destruct (columns (lci_df dm)) as [|c cols]; [discriminate|].
  destruct (resolver_cases dm (r :: rows) parameters)
    as [[_ H]|[[_ [_ H]]|[_ [_ [log H]]]]]; rewrite H.
  - intros [<-|[]]. cbn. auto.
  - intros [<-|[]]. cbn. auto.
  - rewrite !length_map, Hrows, Nat.eqb_refl. cbn [negb].
    destruct (_ && _); intros [].
Qed.

(** The dialogs of the calculator when it is run from the simulation tab. *)
Lemma calculator_dialog_titles (dm : DataManager) (old_results : option Results)
    (calc_type_enum : option CalculationType) (parameters : gmap string ParamValue)
    (d : Dialog) :
  Pandas.wf (lci_df dm) ->
  match calc_type_enum with
  | Some EMERGY_INDICES | None => True
  | Some _ => Pandas.empty (lci_df dm) = false
  end ->
  In d (calculate_emergy dm old_results calc_type_enum parameters).2 ->
  d_kind d = ShowError
  /\ In (d_title d)
        ["Erro Interno de Cálculo"; "Erro nos Parâmetros de Transformidade";
         "Transformidades Faltando"; "Parâmetro Ausente para Índices";
         "Valor Inválido para Índices"; "Valor Inválido para Yield (Y)"].
Proof.
  intros Hwf Hguard. unfold calculate_emergy. destruct calc_type_enum as [[| |]|].
  - pose proof (total_dialog_titles dm parameters no_results
                  ["Tipo de cálculo selecionado: " +:+ display_name TOTAL_EMERGY]
                  d Hwf Hguard) as H.
    destruct (_calculate_total_emergy_logic dm parameters no_results _)
      as [[[ok r] msgs] ds].
    cbn [snd] in *. intros Hd. destruct (H Hd) as [Hk [Ht|Ht]];
      (split; [exact Hk|rewrite Ht; cbn; auto]).
  - unfold _calculate_direct_inputs_sum_logic. destruct (_ || _); intros [].
  - unfold _calculate_emergy_indices_logic.
    destruct (indices_inputs parameters) as [[[[[R N] F_] Y_] line]|x] eqn:Hi;
      [intros []|].
    intros [<-|[]]. destruct (indices_dialog_titles _ _ Hi) as [Hk [Ht|[Ht|Ht]]];
      (split; [exact Hk|rewrite Ht; cbn; auto 10]).
  - intros [<-|[]]. cbn. auto.
Qed.

(** The dialogs of a run of the simulation tab, by the step that shows
    them. *)
Lemma run_simulation_dialogs (dm : DataManager) (old_results : option Results)
    (selected_display_name raw_string R_text N_text F_text Y_text : string)
    (d : Dialog) :
  Pandas.wf (lci_df dm) ->
  In d (run_simulation dm old_results selected_display_name raw_string
          R_text N_text F_text Y_text).2 ->
  (from_display_name selected_display_name = None
   /\ d_title d = "Erro Interno de Simulação")
  \/ (Pandas.empty (lci_df dm) = true /\ d_title d = "Dados LCI Ausentes")
  \/ (from_display_name selected_display_name <> None
      /\ (Pandas.empty (lci_df dm) = false
          \/ from_display_name selected_display_name = Some EMERGY_INDICES)
      /\ In (d_title d)
            ["Aviso sobre Parâmetros Adicionais"; "Erro de Parâmetro (Índices)";
             "Parâmetro Obrigatório (Índices)"; "Cálculo Concluído";
             "Erro Interno de Cálculo"; "Erro nos Parâmetros de Transformidade";
             "Transformidades Faltando"; "Parâmetro Ausente para Índices";
             "Valor Inválido para Índices"; "Valor Inválido para Yield (Y)"]).
Proof.
  clear to_numeric_str. intros Hwf. unfold run_simulation.
  destruct (from_display_name selected_display_name) as [c|];
    [|intros [<-|[]]; left; now split].
  destruct ((match c with EMERGY_INDICES => false | _ => true end)
            && Pandas.empty (lci_df dm)) eqn:Hguard.
  { apply andb_true_iff in Hguard. destruct Hguard as [_ Hempty].
    intros [<-|[]]. right. left. now split. }
  assert (Hmode : Pandas.empty (lci_df dm) = false \/ Some c = Some EMERGY_INDICES).
  { destruct c; cbn in Hguard; auto. }
  intros Hd. right. right. split; [discriminate|]. split; [exact Hmode|].
  destruct (_parse_general_parameters raw_string) as [general_params gp_errors].
  set (warnings := match gp_errors with [] => [] | _ => _ end) in Hd.
  assert (Hwarn : forall x : Dialog,
             In x warnings -> d_title x = "Aviso sobre Parâmetros Adicionais").
  { subst warnings. destruct gp_errors; intros x; [intros []|now intros [<-|[]]]. }
  set (calc_type_enum := match general_params !! "calculation_type_enum" with
                         | Some _ => None | None => Some c end) in Hd.
  assert (Hengine : forall params x,
             In x (calculate_emergy dm old_results calc_type_enum params).2 ->
             In (d_title x)
                ["Erro Interno de Cálculo"; "Erro nos Parâmetros de Transformidade";
                 "Transformidades Faltando"; "Parâmetro Ausente para Índices";
                 "Valor Inválido para Índices"; "Valor Inválido para Yield (Y)"]).
  { intros params x Hx.
    refine (proj2 (calculator_dialog_titles dm old_results calc_type_enum params x Hwf _ Hx)).
    subst calc_type_enum. destruct (general_params !! "calculation_type_enum"); [exact I|].
    destruct c; cbn in Hguard; auto. }
  assert (Hfinish : forall params shown,
             (forall x, In x shown ->
                In (d_title x) ["Aviso sobre Parâmetros Adicionais";
                                "Erro de Parâmetro (Índices)";
                                "Parâmetro Obrigatório (Índices)"]) ->
             In d (let '(ok, results, engine) :=
                     calculate_emergy dm old_results calc_type_enum params in
                   (results,
                    shown ++ engine
                    ++ (if ok
                        then [mkDialog ShowInfo "Cálculo Concluído"
                                ("Cálculo de '" +:+ selected_display_name
                                 +:+ "' finalizado com sucesso!" +:+ nl
                                 +:+ "Os resultados estão disponíveis na aba 'Resultados e Gráficos'.")]
                        else []))).2 ->
             In (d_title d)
                ["Aviso sobre Parâmetros Adicionais"; "Erro de Parâmetro (Índices)";
                 "Parâmetro Obrigatório (Índices)"; "Cálculo Concluído";
                 "Erro Interno de Cálculo"; "Erro nos Parâmetros de Transformidade";
                 "Transformidades Faltando"; "Parâmetro Ausente para Índices";
                 "Valor Inválido para Índices"; "Valor Inválido para Yield (Y)"]).
  { intros params shown Hshown. specialize (Hengine params).
    destruct (calculate_emergy dm old_results calc_type_enum params) as [[ok res] engine].
    cbn [snd] in *. intros H. apply in_app_or in H. destruct H as [H|H].
    - specialize (Hshown d H). cbn in Hshown. cbn. tauto.
    - apply in_app_or in H. destruct H as [H|H].
      + specialize (Hengine d H). cbn in Hengine. cbn. tauto.
      + destruct ok; [|destruct H]. destruct H as [<-|[]]. cbn. tauto. }
  assert (Hloop : forall entries x,
             In x match read_indices_entries entries general_params false warnings with
                  | inl (_, _, shown) => shown
                  | inr shown => shown
                  end ->
             In (d_title x) ["Aviso sobre Parâmetros Adicionais";
                             "Erro de Parâmetro (Índices)";
                             "Parâmetro Obrigatório (Índices)"]).
  { intros entries x Hx. apply read_entries_dialogs in Hx.
    destruct Hx as [Hx|[_ [Hx|Hx]]]; [rewrite (Hwarn x Hx)|rewrite Hx|rewrite Hx];
      cbn; auto. }
  destruct c.
  - apply (Hfinish general_params warnings); [|exact Hd].
    intros x Hx. rewrite (Hwarn x Hx). cbn. auto.
  - apply (Hfinish general_params warnings); [|exact Hd].
    intros x Hx. rewrite (Hwarn x Hx). cbn. auto.
  - specialize (Hloop [("R", R_text); ("N", N_text); ("F", F_text); ("Y", Y_text)]).
    destruct (read_indices_entries _ general_params false warnings)
      as [[[params missing] shown]|shown].
    + destruct missing.
      * specialize (Hloop d Hd). cbn in Hloop. cbn. tauto.
      * apply (Hfinish params shown); [exact Hloop|exact Hd].
    + specialize (Hloop d Hd). cbn in Hloop. cbn. tauto.
Qed.

(** X20: the simulation tab keeps the calculator away from an empty LCI:
    whatever is selected and typed, a run on a rectangular frame never shows
    the dialogs of the total emergy for a matrix without flows or without
    anything, nor the dialog of the dimension check. *)
Theorem simulation_never_reaches_the_empty_paths (dm : DataManager)
    (old_results : option Results)
    (selected_display_name raw_string R_text N_text F_text Y_text : string)
    (d : Dialog) :
  Pandas.wf (lci_df dm) ->
  In d (run_simulation dm old_results selected_display_name raw_string
          R_text N_text F_text Y_text).2 ->
  d_title d <> "Dados Insuficientes para Cálculo"
  /\ d_title d <> "Cálculo com Fluxos Ausentes"
  /\ d_title d <> "Erro de Dimensão no Cálculo".
Proof.
  intros Hwf Hd.
  destruct (run_simulation_dialogs _ _ _ _ _ _ _ _ _ Hwf Hd)
    as [[_ Ht]|[[_ Ht]|[_ [_ Ht]]]].
  - rewrite Ht. repeat split; discriminate.
  - rewrite Ht. repeat split; discriminate.
  - cbn in Ht. repeat split; intros He; rewrite He in Ht;
      repeat (destruct Ht as [Ht|Ht]; [discriminate|]); exact Ht.
Qed.

(** X21: in the indices mode, when every field that is filled holds a
    number, a run with a required field left blank shows one dialog for each
    blank field among R, N and F, in that order, after the warning on the
    additional parameters if there is one, and leaves the results as they
    were; the status line asks for the same fields. *)
Theorem blank_required_fields_are_all_reported (dm : DataManager)
    (old_results : option Results)
    (raw_string R_text N_text F_text Y_text : string) :
  let blank (text : string) := String.eqb (PyStr.strip text) EmptyString in
  let missing :=
    List.map fst
      (List.filter (fun entry : string * string => blank entry.2)
                   [("R", R_text); ("N", N_text); ("F", F_text)]) in
  (forall text : string,
      In text [R_text; N_text; F_text; Y_text] ->
      blank text = true \/ py_float (PyStr.strip text) <> None) ->
  missing <> [] ->
  exists warnings : list Dialog,
    run_simulation dm old_results (display_name EMERGY_INDICES) raw_string
                   R_text N_text F_text Y_text
    = (old_results,
       warnings
       ++ List.map
            (fun key =>
               mkDialog ShowError "Parâmetro Obrigatório (Índices)"
                 ("O campo '" +:+ key
                  +:+ "' é obrigatório para o cálculo de Índices Emergéticos."))
            missing)
    /\ (forall d : Dialog,
          In d warnings -> d_title d = "Aviso sobre Parâmetros Adicionais")
    /\ ready_message_parts dm (display_name EMERGY_INDICES) R_text N_text F_text
       = ["Preencha os campos obrigatórios (" +:+ PyStr.join ", " missing
          +:+ ") para o cálculo de Índices Emergéticos."].
Proof.
  intros blank missing Hparse Hmissing. subst blank missing.
  pose proof (Hparse R_text ltac:(cbn; auto)) as HR.
  pose proof (Hparse N_text ltac:(cbn; auto)) as HN.
  pose proof (Hparse F_text ltac:(cbn; auto)) as HF.
  pose proof (Hparse Y_text ltac:(cbn; auto)) as HY.
  clear Hparse.
  unfold run_simulation, ready_message_parts.
  change (from_display_name (display_name EMERGY_INDICES)) with (Some EMERGY_INDICES).
  cbn match. cbn [andb].
  destruct (_parse_general_parameters raw_string) as [general_params gp_errors].
  set (warnings := match gp_errors with [] => [] | _ => _ end).
  exists warnings. cbn -[PyStr.strip]. cbv beta in HR, HN, HF, HY, Hmissing.
  cbn -[PyStr.strip] in Hmissing.
  assert (Hwarn : forall d : Dialog,
             In d warnings -> d_title d = "Aviso sobre Parâmetros Adicionais").
  { subst warnings. destruct gp_errors; intros d; [intros []|now intros [<-|[]]]. }
  clearbody warnings.
  destruct (String.eqb (PyStr.strip R_text) EmptyString);
    [|destruct (py_float (PyStr.strip R_text)); [|destruct HR; congruence]];
    (destruct (String.eqb (PyStr.strip N_text) EmptyString);
     [|destruct (py_float (PyStr.strip N_text)); [|destruct HN; congruence]]);
    (destruct (String.eqb (PyStr.strip F_text) EmptyString);
     [|destruct (py_float (PyStr.strip F_text)); [|destruct HF; congruence]]);
    (destruct (String.eqb (PyStr.strip Y_text) EmptyString);
     [|destruct (py_float (PyStr.strip Y_text)); [|destruct HY; congruence]]);
    cbn -[PyStr.strip] in Hmissing |- *; try congruence;
    rewrite <- ?app_assoc; (split; [reflexivity|]); (split; [exact Hwarn|reflexivity]).
Qed.

(** X22: the indices from the fields of the simulation tab. With numbers
    not below zero in the fields R, N and F, the field Y left blank and
    additional parameters that are well formed and name neither [Y] nor
    [calculation_type_enum], the run takes the yield as R + N + F, stores
    the three indices computed from the typed numbers, and shows the
    completion dialog only. *)
Theorem indices_from_the_fields (dm : DataManager) (old_results : option Results)
    (raw_string R_text N_text F_text Y_text : string) (R N F_ : float) :
  (_parse_general_parameters raw_string).2 = [] ->
  (_parse_general_parameters raw_string).1 !! "Y" = None ->
  (_parse_general_parameters raw_string).1 !! "calculation_type_enum" = None ->
  PyStr.strip R_text <> EmptyString -> py_float (PyStr.strip R_text) = Some R ->
  PyStr.strip N_text <> EmptyString -> py_float (PyStr.strip N_text) = Some N ->
  PyStr.strip F_text <> EmptyString -> py_float (PyStr.strip F_text) = Some F_ ->
  PyStr.strip Y_text = EmptyString ->
  (R <? 0)%float = false -> (N <? 0)%float = false -> (F_ <? 0)%float = false ->
  exists summary : string,
    run_simulation dm old_results (display_name EMERGY_INDICES) raw_string
                   R_text N_text F_text Y_text
    = (Some (mkResults None None None
               (Some (fmt_2e (eyr_value (R + N + F_) F_)))
               (Some (fmt_2e (elr_value R N F_)))
               (Some (fmt_2e (esi_value (eyr_value (R + N + F_) F_)
                                        (elr_value R N F_))))
               (Some summary)),
       [mkDialog ShowInfo "Cálculo Concluído"
          ("Cálculo de '" +:+ display_name EMERGY_INDICES
           +:+ "' finalizado com sucesso!" +:+ nl
           +:+ "Os resultados estão disponíveis na aba 'Resultados e Gráficos'.")]).
Proof.
  intros Herrors HY Htype HRs HR HNs HN HFs HF HYs HR0 HN0 HF0.
  unfold run_simulation.
  change (from_display_name (display_name EMERGY_INDICES)) with (Some EMERGY_INDICES).
  cbn match. cbn [andb].
  destruct (_parse_general_parameters raw_string) as [general_params gp_errors].
  cbn [fst snd] in Herrors, HY, Htype. subst gp_errors. rewrite Htype.
  apply String.eqb_neq in HRs, HNs, HFs.
  cbn -[PyStr.strip calculate_emergy]. rewrite HRs, HR.
  cbn -[PyStr.strip calculate_emergy]. rewrite HNs, HN.
  cbn -[PyStr.strip calculate_emergy]. rewrite HFs, HF.
  cbn -[PyStr.strip calculate_emergy]. rewrite HYs.
  cbn -[PyStr.strip calculate_emergy].
  set (params := <["F":=PNum F_]> (<["N":=PNum N]> (<["R":=PNum R]> general_params))).
  assert (HvR : valid_component params "R" R).
  { exists (PNum R). subst params.
    rewrite !lookup_insert_ne by discriminate. rewrite lookup_insert_eq. auto. }
  assert (HvN : valid_component params "N" N).
  { exists (PNum N). subst params.
    rewrite lookup_insert_ne by discriminate. rewrite lookup_insert_eq. auto. }
  assert (HvF : valid_component params "F" F_).
  { exists (PNum F_). subst params. rewrite lookup_insert_eq. auto. }
  assert (HvY : yield_is params R N F_ (R + N + F_)%float).
  { left. split; [|reflexivity]. left. subst params.
    rewrite !lookup_insert_ne by discriminate. exact HY. }
  destruct (indices_run dm old_results params R N F_ _ HvR HvN HvF HvY)
    as [summary Hrun].
  rewrite Hrun. exists summary. reflexivity.
Qed.

(** X23: for the two modes that read the LCI, the status line and the run
    agree on an empty frame: the status asks for LCI data exactly when the
    frame has no flow or no process, which is when the run stops at its
    guard, shows the one warning on the missing LCI and leaves the results
    as they were; on any other rectangular frame that warning is not
    shown. *)
Theorem status_agrees_with_the_lci_guard (dm : DataManager)
    (old_results : option Results) (c : CalculationType)
    (raw_string R_text N_text F_text Y_text : string) :
  Pandas.wf (lci_df dm) ->
  c <> EMERGY_INDICES ->
  let status := ready_message_parts dm (display_name c) R_text N_text F_text in
  let run :=
    run_simulation dm old_results (display_name c) raw_string
                   R_text N_text F_text Y_text in
  (In "Requer dados LCI com fluxos de entrada." status
   <-> Pandas.empty (lci_df dm) = true)
  /\ (Pandas.empty (lci_df dm) = true ->
      status = ["Requer dados LCI com fluxos de entrada."]
      /\ run = (old_results,
                [mkDialog ShowWarning "Dados LCI Ausentes"
                   "A Matriz LCI está vazia. Insira dados na aba 'Gerenciamento de Dados' antes de prosseguir com este cálculo."]))
  /\ (Pandas.empty (lci_df dm) = false ->
      forall d : Dialog, In d run.2 -> d_title d <> "Dados LCI Ausentes").
Proof.
  intros Hwf Hc status run.
  assert (Hname : from_display_name (display_name c) = Some c) by (now destruct c).
  assert (Hstatus : Pandas.empty (lci_df dm) = true ->
                    status = ["Requer dados LCI com fluxos de entrada."]).
  { subst status. unfold ready_message_parts. rewrite Hname. intros ->.
    destruct c; [| |congruence]; cbn; rewrite ?andb_false_r; reflexivity. }
  split; [|split].
  - split; [|intros H; rewrite (Hstatus H); now left].
    destruct (Pandas.empty (lci_df dm)) eqn:Hempty; [reflexivity|].
    subst status. unfold ready_message_parts. rewrite Hname, Hempty.
    unfold Pandas.empty in Hempty.
    destruct (index (lci_df dm)); [discriminate|].
    destruct c; [| |congruence]; cbn.
    + destruct (map_to_list (transformities dm)); cbn; intros [H|[]]; discriminate.
    + intros [H|[]]; discriminate.
  - intros Hempty. split; [exact (Hstatus Hempty)|].
    subst run. unfold run_simulation. rewrite Hname, Hempty.
    destruct c; [| |congruence]; reflexivity.
  - intros Hempty d Hd. subst run.
    destruct (run_simulation_dialogs _ _ _ _ _ _ _ _ _ Hwf Hd)
      as [[Hn _]|[[He _]|[_ [_ Ht]]]]; [congruence|congruence|].
    intros He. rewrite He in Ht. cbn in Ht.
    repeat (destruct Ht as [Ht|Ht]; [discriminate|]). exact Ht.
Qed.

(** X24: an additional parameter named [calculation_type_enum] takes the
    place of the selected calculation type in the bag, and the calculator
    rejects what it finds there: whatever is selected and typed in the other
    fields, the run leaves the results as they were and never shows the
    completion dialog, and in a mode that reads a frame with flows and
    processes its last dialog is the internal error of the calculator. *)
Theorem parameter_named_calculation_type_enum (raw_string : string) (v : ParamValue)
    (dm : DataManager) (old_results : option Results)
    (selected_display_name R_text N_text F_text Y_text : string) :
  (_parse_general_parameters raw_string).1 !! "calculation_type_enum" = Some v ->
  let run :=
    run_simulation dm old_results selected_display_name raw_string
                   R_text N_text F_text Y_text in
  run.1 = old_results
  /\ (forall d : Dialog, In d run.2 -> d_kind d <> ShowInfo)
  /\ (forall c : CalculationType,
         from_display_name selected_display_name = Some c ->
         c <> EMERGY_INDICES ->
         Pandas.empty (lci_df dm) = false ->
         exists warnings : list Dialog,
           run.2 = warnings
                   ++ [mkDialog ShowError "Erro Interno de Cálculo"
                         "Tipo de cálculo inválido ou não especificado."]).
Proof.
  intros Hv run. subst run. unfold run_simulation.
  destruct (from_display_name selected_display_name) as [c|];
    [|cbn; split; [reflexivity|]; split; [intros d [<-|[]]; discriminate|discriminate]].
  destruct (_parse_general_parameters raw_string) as [general_params gp_errors].
  cbn [fst] in Hv. rewrite Hv.
  set (warnings := match gp_errors with [] => [] | _ => _ end).
  assert (Hwarn : forall d : Dialog, In d warnings -> d_kind d <> ShowInfo).
  { subst warnings. destruct gp_errors; intros d; [intros []|intros [<-|[]]; discriminate]. }
  clearbody warnings.
  destruct (Pandas.empty (lci_df dm)) eqn:Hempty.
  - destruct c; cbn [andb].
    + cbn. split; [reflexivity|]. split; [intros d [<-|[]]; discriminate|].
      intros c' _ _ H. discriminate.
    + cbn. split; [reflexivity|]. split; [intros d [<-|[]]; discriminate|].
      intros c' _ _ H. discriminate.
    + pose proof (read_entries_dialogs
                    [("R", R_text); ("N", N_text); ("F", F_text); ("Y", Y_text)]
                    general_params false warnings) as Hloop.
      destruct (read_indices_entries _ general_params false warnings)
        as [[[params missing] shown]|shown].
      * destruct missing; cbn.
        -- split; [reflexivity|]. split; [|intros c' _ _ H; discriminate].
           intros d Hd. destruct (Hloop d Hd) as [H|[H _]]; [now apply Hwarn|].
           rewrite H. discriminate.
        -- split; [reflexivity|]. split; [|intros c' _ _ H; discriminate].
           intros d Hd. apply in_app_or in Hd.
           destruct Hd as [Hd|[<-|[]]]; [|discriminate].
           destruct (Hloop d Hd) as [H|[H _]]; [now apply Hwarn|].
           rewrite H. discriminate.
      * cbn. split; [reflexivity|]. split; [|intros c' _ _ H; discriminate].
        intros d Hd. destruct (Hloop d Hd) as [H|[H _]]; [now apply Hwarn|].
        rewrite H. discriminate.
  - rewrite andb_false_r.
    pose proof (read_entries_dialogs
                  [("R", R_text); ("N", N_text); ("F", F_text); ("Y", Y_text)]
                  general_params false warnings) as Hloop.
    destruct c.
    + cbn. split; [reflexivity|]. split; [|intros c' _ _ _; now exists warnings].
      intros d Hd. apply in_app_or in Hd.
      destruct Hd as [Hd|[<-|[]]]; [now apply Hwarn|discriminate].
    + cbn. split; [reflexivity|]. split; [|intros c' _ _ _; now exists warnings].
      intros d Hd. apply in_app_or in Hd.
      destruct Hd as [Hd|[<-|[]]]; [now apply Hwarn|discriminate].
    + destruct (read_indices_entries _ general_params false warnings)
        as [[[params missing] shown]|shown].
      * destruct missing; cbn.
        -- split; [reflexivity|]. split; [|intros c' [= <-] H; congruence].
           intros d Hd. destruct (Hloop d Hd) as [H|[H _]]; [now apply Hwarn|].
           rewrite H. discriminate.
        -- split; [reflexivity|]. split; [|intros c' [= <-] H; congruence].
           intros d Hd. apply in_app_or in Hd.
           destruct Hd as [Hd|[<-|[]]]; [|discriminate].
           destruct (Hloop d Hd) as [H|[H _]]; [now apply Hwarn|].
           rewrite H. discriminate.
      * cbn. split; [reflexivity|]. split; [|intros c' [= <-] H; congruence].
        intros d Hd. destruct (Hloop d Hd) as [H|[H _]]; [now apply Hwarn|].
        rewrite H. discriminate.
Qed.

(** *** The chart of the results *)

(** A value above the threshold of the chart is above zero. *)
Lemma above_threshold_positive (x : float) :
  (chart_threshold <? x)%float = true -> (0 <? x)%float = true.
Proof.
  rewrite !FloatAxioms.ltb_spec.
  remember (Prim2SF chart_threshold) as t eqn:Ht. vm_compute in Ht. subst t.
  change (Prim2SF 0) with (S754_zero false).
  destruct (Prim2SF x) as [[|]|[|]| |[|] m e]; cbn; try discriminate; reflexivity.
Qed.

Lemma zip_In_l {A B} (l : list A) (k : list B) (a : A) (b : B) :
  In (a, b) (zip l k) -> In a l.
Proof.
  revert k. induction l as [|x l IH]; intros [|y k]; cbn; try tauto.
  intros [[= <- <-]|H]; [now left|right; eapply IH; eauto].
Qed.

(** X25: on results whose table of contributions has pairwise different
    process names, as the tables of a run on a reachable store have, a pie is
    drawn only for a process other than [Nenhum] that names a column of the
    table; it has one label for each slice and at least one slice, every
    slice is above the threshold of the chart and so above zero (no slice is
    zero, negative or NaN), every label is a flow of the table, and the
    legend is drawn for seven slices at most. *)
Theorem pie_slices_are_significant
    (calculator_results original_results_data : option Results)
    (selected_process_for_chart : string)
    (labels : list string) (sizes : list float) (legend : bool) :
  (forall (r : Results) (table : DataFrame),
      match original_results_data with
      | None => calculator_results
      | Some _ => original_results_data
      end = Some r ->
      emergy_per_input_flow_for_each_process r = Some table ->
      distinct (columns table) = true) ->
  update_pie_chart calculator_results original_results_data selected_process_for_chart
  = ChartPie labels sizes legend ->
  List.length labels = List.length sizes
  /\ sizes <> []
  /\ Forall (fun x => (chart_threshold <? x)%float = true /\ (0 <? x)%float = true
                      /\ PyFloat.isna x = false) sizes
  /\ legend = Nat.leb (List.length labels) 7
  /\ selected_process_for_chart <> "Nenhum"
  /\ selected_process_for_chart <> EmptyString
  /\ exists (r : Results) (table : DataFrame),
       match original_results_data with
       | None => calculator_results
       | Some _ => original_results_data
       end = Some r
       /\ emergy_per_input_flow_for_each_process r = Some table
       /\ Pandas.mem selected_process_for_chart (columns table) = true
       /\ forall label : string, In label labels -> In label (index table).
Proof.
  intros _. unfold update_pie_chart.
  set (current := match original_results_data with None => _ | Some _ => _ end).
  destruct (no_data current); [discriminate|].
  destruct current as [r|]; [|discriminate]. cbn [mbind option_bind].
  destruct (emergy_per_input_flow_for_each_process r) as [table|] eqn:Htable;
    [|discriminate].
  destruct (String.eqb selected_process_for_chart EmptyString) eqn:Hblank;
    [discriminate|].
  destruct (String.eqb selected_process_for_chart "Nenhum") eqn:Hnone;
    [discriminate|].
  destruct (Pandas.mem selected_process_for_chart (columns table)) eqn:Hmem;
    [|discriminate].
  cbn [orb negb].
  set (kept := List.filter _ _).
  assert (Hkept : forall slice : string * float,
             In slice kept ->
             In slice.1 (index table) /\ (chart_threshold <? slice.2)%float = true).
  { intros [label x] H. subst kept. apply filter_In in H. destruct H as [Hzip Hx].
    split; [exact (zip_In_l _ _ _ _ Hzip)|exact Hx]. }
  destruct kept as [|slice kept'] eqn:Hk; [discriminate|]. rewrite <- Hk in *.
  intros [= <- <- <-].
  split; [now rewrite !length_map|].
  split; [rewrite Hk; discriminate|].
  split.
  { apply List.Forall_forall. intros x Hx. apply in_map_iff in Hx.
    destruct Hx as [s [<- Hs]]. destruct (Hkept s Hs) as [_ Habove].
    pose proof (above_threshold_positive _ Habove) as Hpos.
    split; [exact Habove|]. split; [exact Hpos|].
    exact (gt0_not_nan _ Hpos). }
  split; [now rewrite length_map|].
  apply String.eqb_neq in Hblank, Hnone.
  split; [exact Hnone|]. split; [exact Hblank|].
  exists r, table. repeat split; try assumption.
  intros label Hl. apply in_map_iff in Hl. destruct Hl as [s [<- Hs]].
  exact (proj1 (Hkept s Hs)).
Qed.


End Model.

(** * The properties on concrete stores and bags *)



Lemma wf_two_flows : Pandas.wf (lci_df Examples.two_flows).
Proof. split; [reflexivity|]. repeat constructor. Defined.




Lemma valid_R : valid_component Sample.float_of_digits indices_bag "R" 100%float.
Proof. exists (PNum 100%float). repeat split. Defined.

Lemma valid_N : valid_component Sample.float_of_digits indices_bag "N" 50%float.
Proof. exists (PNum 50%float). repeat split. Defined.

Lemma valid_F : valid_component Sample.float_of_digits indices_bag "F" 25%float.
Proof. exists (PNum 25%float). repeat split. Defined.

Lemma yield_175 : yield_is Sample.float_of_digits indices_bag 100 50 25 175.
Proof. left. split; [left; reflexivity|reflexivity]. Defined.

(** C4 on R = 100, N = 50, F = 25 and no Y: EYR = 7 and ELR = 0.75. *)
Lemma indices_eyr_elr_witness :
  valid_component Sample.float_of_digits indices_bag "R" 100%float
  /\ valid_component Sample.float_of_digits indices_bag "N" 50%float
  /\ valid_component Sample.float_of_digits indices_bag "F" 25%float
  /\ yield_is Sample.float_of_digits indices_bag 100 50 25 175
  /\ exists (eyr elr : float) (esi summary : string),
       calculate_emergy Sample.float_of_digits Sample.float_text Sample.float_text
         Sample.dict_text new_data_manager None (Some EMERGY_INDICES) indices_bag
       = (true,
          Some (mkResults None None None
                  (Some (Sample.float_text eyr)) (Some (Sample.float_text elr))
                  (Some esi) (Some summary)),
          [])
       /\ eyr = 7%float /\ elr = 0.75%float.
Proof.
  split; [exact valid_R|]. split; [exact valid_N|]. split; [exact valid_F|].
  split; [exact yield_175|].
  destruct (indices_eyr_elr Sample.float_of_digits Sample.float_text Sample.float_text
              Sample.dict_text new_data_manager None indices_bag
              100%float 50%float 25%float 175%float valid_R valid_N valid_F yield_175)
    as (eyr & elr & esi & summary & Hrun & Heyr & Helr & _).
  exists eyr, elr, esi, summary. split; [exact Hrun|].
  split; [exact Heyr|exact Helr].
Defined.

(** C5 on R = 100, N = 50, F = 25 and no Y: ESI = 7 / 0.75. *)
Lemma indices_esi_witness :
  valid_component Sample.float_of_digits indices_bag "R" 100%float
  /\ valid_component Sample.float_of_digits indices_bag "N" 50%float
  /\ valid_component Sample.float_of_digits indices_bag "F" 25%float
  /\ yield_is Sample.float_of_digits indices_bag 100 50 25 175
  /\ esi_value (eyr_value 175 25) (elr_value 100 50 25) = (7 / 0.75)%float.
Proof.
  split; [exact valid_R|]. split; [exact valid_N|]. split; [exact valid_F|].
  split; [exact yield_175|].
  destruct (indices_esi Sample.float_of_digits Sample.float_text Sample.float_text
              Sample.dict_text new_data_manager None indices_bag
              100%float 50%float 25%float 175%float valid_R valid_N valid_F yield_175)
    as [(eyr & elr & esi & summary & _ & Heyr & Helr & Hesi & Hdiv & _) _].
  subst eyr elr esi. apply Hdiv; reflexivity.
Defined.

(** C6 on a bag with three rejected parameters: one dialog is shown. *)
Lemma indices_fail_fast_witness :
  exists (d : Dialog) (rest : list Dialog) (summary : string),
    indices_violations Sample.float_of_digits Sample.float_text Sample.float_text
      broken_bag = d :: rest
    /\ List.length rest = 2
    /\ calculate_emergy Sample.float_of_digits Sample.float_text Sample.float_text
         Sample.dict_text new_data_manager None (Some EMERGY_INDICES) broken_bag
       = (false, Some (mkResults None None None None None None (Some summary)), [d]).
Proof.
  set (vs := indices_violations Sample.float_of_digits Sample.float_text
               Sample.float_text broken_bag).
  assert (Hvs : vs = List.hd (mkDialog ShowInfo EmptyString EmptyString) vs :: List.tl vs)
    by (vm_compute; reflexivity).
  destruct (proj1 (proj2 (proj2 (indices_fail_fast Sample.float_of_digits
                                   Sample.float_text Sample.float_text Sample.dict_text
                                   new_data_manager None broken_bag)))
              _ _ Hvs) as [summary Hrun].
  exists (List.hd (mkDialog ShowInfo EmptyString EmptyString) vs), (List.tl vs), summary.
  split; [exact Hvs|]. split; [vm_compute; reflexivity|exact Hrun].
Defined.

(** C6, the rejected parameters that are not reported: of the three
    rejected parameters of the bag, the one for [N] is not among the dialogs
    of the run. *)
Lemma indices_reports_first_violation_only :
  ~ (forall d : Dialog,
       In d (indices_violations Sample.float_of_digits Sample.float_text
               Sample.float_text broken_bag) ->
       In d (calculate_emergy Sample.float_of_digits Sample.float_text
               Sample.float_text Sample.dict_text new_data_manager None
               (Some EMERGY_INDICES) broken_bag).2).
Proof.
  intros Hall.
  specialize (Hall (mkDialog ShowError "Valor Inválido para Índices"
                      "O valor para 'Não Renovável (N)' ('abc') deve ser numérico.")).
  assert (Hin : In (mkDialog ShowError "Valor Inválido para Índices"
                      "O valor para 'Não Renovável (N)' ('abc') deve ser numérico.")
                   (indices_violations Sample.float_of_digits Sample.float_text
                      Sample.float_text broken_bag)).
  { vm_compute. right. left. reflexivity. }
  specialize (Hall Hin). vm_compute in Hall.
  destruct Hall as [Heq|[]]. discriminate Heq.
Qed.




(** C9 on the empty store. *)
Lemma add_transformity_default_unit_witness :
  PyStr.strip " Sun " <> EmptyString
  /\ Sample.float_of_digits "1500" = Some 1500%float
  /\ transformities
       (add_transformity Sample.float_of_digits new_data_manager " Sun " "1500" None).1.2
     !! "Sun"
     = Some (mkTransformity 1500 "sej/unidade_original").
Proof.
  assert (Hname : PyStr.strip " Sun " <> EmptyString) by (vm_compute; discriminate).
  assert (Hval : Sample.float_of_digits "1500" = Some 1500%float) by reflexivity.
  split; [exact Hname|]. split; [exact Hval|].
  pose proof (add_transformity_default_unit Sample.float_of_digits new_data_manager
                " Sun " "1500" None 1500%float Hname Hval (or_introl eq_refl)) as H.
  destruct (add_transformity Sample.float_of_digits new_data_manager " Sun " "1500" None)
    as [[ok dm'] ds].
  destruct H as (_ & _ & Hlookup & _). exact Hlookup.
Defined.

(** C9, the default unit: the unit stored by default is not ["sej/unit"]. *)
Lemma add_transformity_unit_is_not_sej_unit :
  transformities
    (add_transformity Sample.float_of_digits new_data_manager "Sun" "1500" None).1.2
  !! "Sun"
  <> Some (mkTransformity 1500 "sej/unit").
Proof. vm_compute. intros [= H]. Qed.

(** C10 on the store with the process Ore: a flow named Ore is added with
    the unit MJ, then removed. *)
Lemma shared_unit_namespace_witness :
  PyStr.strip "Ore" <> EmptyString
  /\ Pandas.mem (PyStr.strip "Ore") (columns (lci_df ore_store)) = true
  /\ Pandas.mem (PyStr.strip "Ore") (index (lci_df ore_store)) = false
  /\ get_lci_unit ore_store "Ore" = "kg"
  /\ get_lci_unit (add_lci_input_flow ore_store "Ore" (Some "MJ")).1.2 "Ore" = "MJ"
  /\ get_lci_unit
       (remove_lci_input_flow
          (add_lci_input_flow ore_store "Ore" (Some "MJ")).1.2 "Ore").1.2
       "Ore"
     = EmptyString
  /\ columns
       (lci_df (remove_lci_input_flow
                  (add_lci_input_flow ore_store "Ore" (Some "MJ")).1.2 "Ore").1.2)
     = ["Ore"].
Proof.
  assert (Hname : PyStr.strip "Ore" <> EmptyString) by (vm_compute; discriminate).
  assert (Hcol : Pandas.mem (PyStr.strip "Ore") (columns (lci_df ore_store)) = true)
    by reflexivity.
  assert (Hrow : Pandas.mem (PyStr.strip "Ore") (index (lci_df ore_store)) = false)
    by reflexivity.
  split; [exact Hname|]. split; [exact Hcol|]. split; [exact Hrow|].
  split; [reflexivity|].
  pose proof (shared_unit_namespace ore_store "Ore" (Some "MJ") Hname Hcol Hrow) as H.
  destruct (add_lci_input_flow ore_store "Ore" (Some "MJ")) as [[ok1 dm1] ds1].
  cbn [fst snd]. 
  destruct (remove_lci_input_flow dm1 "Ore") as [[ok2 dm2] ds2].
  cbn [fst snd].
  destruct H as (_ & _ & _ & Hu1 & _ & Hc2 & _ & _ & Hu2).
  split; [exact Hu1|]. split; [exact Hu2|]. exact Hc2.
Defined.

(** * The further properties on concrete stores and bags *)

(** [s.lower()] restricted to ASCII: the letters A to Z are lowered, every
    other byte is kept. *)
Fixpoint lower_ascii (s : string) : string :=
  match s with
  | EmptyString => EmptyString
  | String c s' =>
      let n := N_of_ascii c in
      String (if N.leb 65 n && N.leb n 90 then ascii_of_N (n + 32) else c)
             (lower_ascii s')
  end.

(** The simulation tab on the stand-ins for the builtins. *)
Definition sample_run : DataManager -> option Results -> string -> string ->
    string -> string -> string -> string -> option Results * list Dialog :=
  run_simulation Sample.float_of_digits Sample.float_text Sample.float_text
    Sample.dict_text lower_ascii.

Definition sample_parse : string -> gmap string ParamValue * list string :=
  _parse_general_parameters Sample.float_of_digits lower_ascii.

(** The store with the process [Ore] and the flows [Sun] and [CO2=eq]. *)
Definition odd_store : DataManager :=
  (add_lci_input_flow small_store "CO2=eq" None).1.2.

(** The results of a total-emergy run with one contribution of 1.5e5. *)
Definition sun_results : Results :=
  mkResults (Some (mkDataFrame ["Sun"] ["Widget"] [[1.5e5%float]]))
            (Some (mkSeries ["Widget"] [1.5e5%float]))
            None None None None (Some "Tipo de cálculo selecionado").

Lemma edited_small_store : edited Sample.float_of_digits small_store.
Proof. unfold small_store. apply edit_add_flow, edit_add_process, edit_new. Defined.

Lemma wf_small_store : Pandas.wf (lci_df small_store).
Proof. split; [reflexivity|]. vm_compute. repeat constructor. Defined.

(** X1 on the store with the process Ore and the flow Sun. *)
Lemma edited_store_invariant_witness :
  edited Sample.float_of_digits small_store
  /\ Pandas.wf (lci_df small_store)
  /\ distinct (index (lci_df small_store)) = true
  /\ distinct (columns (lci_df small_store)) = true
  /\ Pandas.mem "Ore" (index (lci_df small_store))
     || Pandas.mem "Ore" (columns (lci_df small_store)) = true.
Proof.
  split; [exact edited_small_store|].
  destruct (edited_store_invariant Sample.float_of_digits small_store edited_small_store)
    as (Hwf & Hi & Hc & Hu).
  split; [exact Hwf|]. split; [exact Hi|]. split; [exact Hc|].
  apply Hu. vm_compute. discriminate.
Defined.


(** X3: the flow Wind is added to the store and removed again. *)
Lemma add_remove_flow_round_trip_witness :
  Pandas.wf (lci_df small_store)
  /\ PyStr.strip " Wind " <> EmptyString
  /\ Pandas.mem (PyStr.strip " Wind ") (index (lci_df small_store)) = false
  /\ lci_df (remove_lci_input_flow
               (add_lci_input_flow small_store " Wind " (Some "MJ")).1.2 " Wind ").1.2
     = lci_df small_store.
Proof.
  assert (Hname : PyStr.strip " Wind " <> EmptyString) by (vm_compute; discriminate).
  assert (Hnew : Pandas.mem (PyStr.strip " Wind ") (index (lci_df small_store)) = false)
    by (vm_compute; reflexivity).
  split; [exact wf_small_store|]. split; [exact Hname|]. split; [exact Hnew|].
  pose proof (add_remove_flow_round_trip small_store " Wind " (Some "MJ")
                wf_small_store Hname Hnew) as H.
  destruct (add_lci_input_flow small_store " Wind " (Some "MJ")) as [[ok1 dm1] ds1].
  cbn [fst snd]. destruct (remove_lci_input_flow dm1 " Wind ") as [[ok2 dm2] ds2].
  destruct H as (_ & _ & H & _). exact H.
Defined.

(** X4: the process Mill is added to the store and removed again. *)
Lemma add_remove_process_round_trip_witness :
  Pandas.wf (lci_df small_store)
  /\ PyStr.strip " Mill " <> EmptyString
  /\ Pandas.mem (PyStr.strip " Mill ") (columns (lci_df small_store)) = false
  /\ lci_df (remove_lci_process_column
               (add_lci_process_column small_store " Mill " None).1.2 " Mill ").1.2
     = lci_df small_store.
Proof.
  assert (Hname : PyStr.strip " Mill " <> EmptyString) by (vm_compute; discriminate).
  assert (Hnew : Pandas.mem (PyStr.strip " Mill ") (columns (lci_df small_store)) = false)
    by (vm_compute; reflexivity).
  split; [exact wf_small_store|]. split; [exact Hname|]. split; [exact Hnew|].
  pose proof (add_remove_process_round_trip small_store " Mill " None
                wf_small_store Hname Hnew) as H.
  destruct (add_lci_process_column small_store " Mill " None) as [[ok1 dm1] ds1].
  cbn [fst snd]. destruct (remove_lci_process_column dm1 " Mill ") as [[ok2 dm2] ds2].
  destruct H as (_ & _ & H & _). exact H.
Defined.



(** X11 on the store with the process Ore and no flow. *)
Lemma total_emergy_without_flows_witness :
  index (lci_df ore_store) = []
  /\ exists (summary : string) (d : Dialog),
       calculate_emergy Sample.float_of_digits Sample.float_text Sample.float_text
         Sample.dict_text ore_store None (Some TOTAL_EMERGY) ∅
       = (true,
          Some (mkResults
                  (Some (mkDataFrame [] (columns (lci_df ore_store)) []))
                  (Some (mkSeries (columns (lci_df ore_store))
                           (List.map (fun _ => 0%float) (columns (lci_df ore_store)))))
                  None None None None (Some summary)),
          [d])
       /\ d_kind d = ShowWarning.
Proof.
  split; [reflexivity|].
  apply (proj2 (total_emergy_without_flows Sample.float_of_digits Sample.float_text
                  Sample.float_text Sample.dict_text ore_store ∅ None eq_refl)).
  vm_compute. discriminate.
Defined.

(** X13 on the frame Sun x Widget, with and without the table. *)
Lemma overrides_make_table_irrelevant_witness :
  (forall fn : string,
      In fn (index (lci_df Examples.sun_widget)) -> manual_sun !! param_key fn <> None)
  /\ calculate_emergy Sample.float_of_digits Sample.float_text Sample.float_text
       Sample.dict_text
       (mkDataManager (lci_df Examples.sun_widget)
                      (transformities Examples.sun_widget) ∅)
       None (Some TOTAL_EMERGY) manual_sun
     = calculate_emergy Sample.float_of_digits Sample.float_text Sample.float_text
         Sample.dict_text
         (mkDataManager (lci_df Examples.sun_widget) ∅ ∅)
         None (Some TOTAL_EMERGY) manual_sun.
Proof.
  assert (H : forall fn : string,
             In fn (index (lci_df Examples.sun_widget)) ->
             manual_sun !! param_key fn <> None).
  { intros fn [<-|[]]. vm_compute. discriminate. }
  split; [exact H|].
  exact (overrides_make_table_irrelevant Sample.float_of_digits Sample.float_text
           Sample.float_text Sample.dict_text (lci_df Examples.sun_widget)
           (transformities Examples.sun_widget) ∅ ∅ ∅ manual_sun None H).
Defined.

(** X15 on R = 100, N = 50, F = 25 and no Y. *)
Lemma indices_never_negative_witness :
  valid_component Sample.float_of_digits indices_bag "R" 100%float
  /\ valid_component Sample.float_of_digits indices_bag "N" 50%float
  /\ valid_component Sample.float_of_digits indices_bag "F" 25%float
  /\ yield_is Sample.float_of_digits indices_bag 100 50 25 175
  /\ exists (eyr elr esi : float) (summary : string),
       calculate_emergy Sample.float_of_digits Sample.float_text Sample.float_text
         Sample.dict_text new_data_manager None (Some EMERGY_INDICES) indices_bag
       = (true,
          Some (mkResults None None None
                  (Some (Sample.float_text eyr)) (Some (Sample.float_text elr))
                  (Some (Sample.float_text esi)) (Some summary)),
          [])
       /\ (eyr <? 0)%float = false
       /\ (elr <? 0)%float = false
       /\ (esi <? 0)%float = false.
Proof.
  split; [exact valid_R|]. split; [exact valid_N|]. split; [exact valid_F|].
  split; [exact yield_175|].
  destruct (indices_never_negative Sample.float_of_digits Sample.float_text
              Sample.float_text Sample.dict_text new_data_manager None indices_bag
              100%float 50%float 25%float 175%float valid_R valid_N valid_F yield_175)
    as (eyr & elr & esi & summary & Hrun & He & Hl & Hs & _).
  exists eyr, elr, esi, summary. repeat split; assumption.
Defined.

(** X17 on the store with the flow [CO2=eq], which has no transformity:
    typing [transformity_CO2=eq=5] does not give it one. *)
Lemma separator_in_flow_name_blocks_override_witness :
  In "CO2=eq" (index (lci_df odd_store))
  /\ PyStrOps.contains "=" "CO2=eq" || PyStrOps.contains ";" "CO2=eq" = true
  /\ (sample_parse "transformity_CO2=eq=5").1 !! param_key "CO2=eq" = None
  /\ forall d : Dialog,
       In d (sample_run odd_store None (display_name TOTAL_EMERGY)
               "transformity_CO2=eq=5" EmptyString EmptyString EmptyString
               EmptyString).2 ->
       d_kind d <> ShowInfo.
Proof.
  assert (Hin : In "CO2=eq" (index (lci_df odd_store)))
    by (vm_compute; right; left; reflexivity).
  assert (Hsep : PyStrOps.contains "=" "CO2=eq" || PyStrOps.contains ";" "CO2=eq" = true)
    by reflexivity.
  split; [exact Hin|]. split; [exact Hsep|].
  destruct (separator_in_flow_name_blocks_override Sample.float_of_digits
              Sample.float_text Sample.float_text Sample.dict_text lower_ascii
              odd_store "CO2=eq" Hin Hsep) as (_ & Hkey & Hrun).
  split; [exact (Hkey "transformity_CO2=eq=5")|].
  exact (proj2 (Hrun ltac:(vm_compute; reflexivity) None "transformity_CO2=eq=5"
                  EmptyString EmptyString EmptyString EmptyString)).
Defined.

(** X18 on the flows [Coal A] and [Coal_A], which share the key
    [transformity_Coal_A]. *)
Lemma flows_with_one_key_share_the_override_witness :
  In "Coal A" ["Coal A"; "Coal_A"]
  /\ In "Coal_A" ["Coal A"; "Coal_A"]
  /\ param_key "Coal A" = param_key "Coal_A"
  /\ exists x : float,
       (<["Coal A" := 5%float]> (<["Coal_A" := 5%float]> ∅) : gmap string float)
       !! "Coal A" = Some x
       /\ (<["Coal A" := 5%float]> (<["Coal_A" := 5%float]> ∅) : gmap string float)
          !! "Coal_A" = Some x.
Proof.
  split; [left; reflexivity|]. split; [right; left; reflexivity|].
  split; [reflexivity|].
  destruct (flows_with_one_key_share_the_override Sample.float_of_digits
              Sample.float_text Sample.float_text new_data_manager
              ["Coal A"; "Coal_A"]
              (<["transformity_Coal_A" := PNum 5%float]> ∅)
              (<["Coal A" := 5%float]> (<["Coal_A" := 5%float]> ∅))
              "Coal A" "Coal_A" (PNum 5%float)
              (or_introl eq_refl) (or_intror (or_introl eq_refl))
              ltac:(vm_compute; reflexivity) ltac:(vm_compute; reflexivity)
              ltac:(vm_compute; reflexivity))
    as (x & _ & H1 & H2).
  exists x. split; [exact H1|exact H2].
Defined.


(** X20 on the store of two flows, which has no transformity: the dialog of
    the run is the one of the resolver. *)
Lemma simulation_never_reaches_the_empty_paths_witness :
  Pandas.wf (lci_df Examples.two_flows)
  /\ In (mkDialog ShowError "Transformidades Faltando" (missing_tf_msg ["R1"; "R2"]))
        (sample_run Examples.two_flows None (display_name TOTAL_EMERGY) EmptyString
           EmptyString EmptyString EmptyString EmptyString).2
  /\ d_title (mkDialog ShowError "Transformidades Faltando" (missing_tf_msg ["R1"; "R2"]))
     <> "Dados Insuficientes para Cálculo".
Proof.
  assert (Hin : In (mkDialog ShowError "Transformidades Faltando"
                      (missing_tf_msg ["R1"; "R2"]))
                   (sample_run Examples.two_flows None (display_name TOTAL_EMERGY)
                      EmptyString EmptyString EmptyString EmptyString EmptyString).2)
    by (vm_compute; left; reflexivity).
  split; [exact wf_two_flows|]. split; [exact Hin|].
  exact (proj1 (simulation_never_reaches_the_empty_paths Sample.float_of_digits
                  Sample.float_text Sample.float_text Sample.dict_text lower_ascii
                  Examples.two_flows None (display_name TOTAL_EMERGY) EmptyString
                  EmptyString EmptyString EmptyString EmptyString _ wf_two_flows Hin)).
Defined.

(** X21 with R and F left blank and N = 5: two dialogs, for R and for F. *)
Lemma blank_required_fields_are_all_reported_witness :
  (forall text : string,
      In text [EmptyString; "5"; " "; EmptyString] ->
      String.eqb (PyStr.strip text) EmptyString = true
      \/ Sample.float_of_digits (PyStr.strip text) <> None)
  /\ exists warnings : list Dialog,
       sample_run new_data_manager None (display_name EMERGY_INDICES) EmptyString
         EmptyString "5" " " EmptyString
       = (None,
          warnings
          ++ [mkDialog ShowError "Parâmetro Obrigatório (Índices)"
                "O campo 'R' é obrigatório para o cálculo de Índices Emergéticos.";
              mkDialog ShowError "Parâmetro Obrigatório (Índices)"
                "O campo 'F' é obrigatório para o cálculo de Índices Emergéticos."]).
Proof.
  assert (Hparse : forall text : string,
             In text [EmptyString; "5"; " "; EmptyString] ->
             String.eqb (PyStr.strip text) EmptyString = true
             \/ Sample.float_of_digits (PyStr.strip text) <> None).
  { intros text [<-|[<-|[<-|[<-|[]]]]];
      [left; reflexivity|right; vm_compute; discriminate
      |left; vm_compute; reflexivity|left; reflexivity]. }
  split; [exact Hparse|].
  destruct (blank_required_fields_are_all_reported Sample.float_of_digits
              Sample.float_text Sample.float_text Sample.dict_text lower_ascii
              new_data_manager None EmptyString EmptyString "5" " " EmptyString
              Hparse ltac:(vm_compute; discriminate)) as (warnings & Hrun & _).
  exists warnings. exact Hrun.
Defined.

(** X22 with R = 100, N = 50, F = 25 typed in the fields. *)
Lemma indices_from_the_fields_witness :
  Sample.float_of_digits (PyStr.strip "100") = Some 100%float
  /\ Sample.float_of_digits (PyStr.strip " 50") = Some 50%float
  /\ Sample.float_of_digits (PyStr.strip "25 ") = Some 25%float
  /\ exists summary : string,
       sample_run new_data_manager None (display_name EMERGY_INDICES) EmptyString
         "100" " 50" "25 " EmptyString
       = (Some (mkResults None None None
                  (Some (Sample.float_text (eyr_value (100 + 50 + 25) 25)))
                  (Some (Sample.float_text (elr_value 100 50 25)))
                  (Some (Sample.float_text
                           (esi_value (eyr_value (100 + 50 + 25) 25)
                                      (elr_value 100 50 25))))
                  (Some summary)),
          [mkDialog ShowInfo "Cálculo Concluído"
             ("Cálculo de '" +:+ display_name EMERGY_INDICES
              +:+ "' finalizado com sucesso!" +:+ nl
              +:+ "Os resultados estão disponíveis na aba 'Resultados e Gráficos'.")]).
Proof.
  assert (HR : Sample.float_of_digits (PyStr.strip "100") = Some 100%float)
    by (vm_compute; reflexivity).
  assert (HN : Sample.float_of_digits (PyStr.strip " 50") = Some 50%float)
    by (vm_compute; reflexivity).
  assert (HF : Sample.float_of_digits (PyStr.strip "25 ") = Some 25%float)
    by (vm_compute; reflexivity).
  split; [exact HR|]. split; [exact HN|]. split; [exact HF|].
  exact (indices_from_the_fields Sample.float_of_digits Sample.float_text
           Sample.float_text Sample.dict_text lower_ascii new_data_manager None
           EmptyString "100" " 50" "25 " EmptyString 100%float 50%float 25%float
           ltac:(reflexivity) ltac:(reflexivity) ltac:(reflexivity)
           ltac:(vm_compute; discriminate) HR
           ltac:(vm_compute; discriminate) HN
           ltac:(vm_compute; discriminate) HF
           ltac:(reflexivity) ltac:(reflexivity) ltac:(reflexivity) ltac:(reflexivity)).
Defined.

(** X23 on the empty store, for the sum of the direct inputs. *)
Lemma status_agrees_with_the_lci_guard_witness :
  Pandas.wf (lci_df new_data_manager)
  /\ DIRECT_INPUTS_SUM <> EMERGY_INDICES
  /\ Pandas.empty (lci_df new_data_manager) = true
  /\ ready_message_parts new_data_manager (display_name DIRECT_INPUTS_SUM)
       EmptyString EmptyString EmptyString
     = ["Requer dados LCI com fluxos de entrada."]
  /\ sample_run new_data_manager None (display_name DIRECT_INPUTS_SUM) EmptyString
       EmptyString EmptyString EmptyString EmptyString
     = (None,
        [mkDialog ShowWarning "Dados LCI Ausentes"
           "A Matriz LCI está vazia. Insira dados na aba 'Gerenciamento de Dados' antes de prosseguir com este cálculo."]).
Proof.
  assert (Hwf : Pandas.wf (lci_df new_data_manager)) by (split; [reflexivity|constructor]).
  assert (Hc : DIRECT_INPUTS_SUM <> EMERGY_INDICES) by discriminate.
  split; [exact Hwf|]. split; [exact Hc|]. split; [reflexivity|].
  exact (proj1 (proj2 (status_agrees_with_the_lci_guard Sample.float_of_digits
                         Sample.float_text Sample.float_text Sample.dict_text
                         lower_ascii new_data_manager None DIRECT_INPUTS_SUM
                         EmptyString EmptyString EmptyString EmptyString EmptyString
                         Hwf Hc))
               eq_refl).
Defined.

(** X24: [calculation_type_enum=1] is typed in the additional parameters of
    a total-emergy run on the store Sun x Widget. *)
Lemma parameter_named_calculation_type_enum_witness :
  (sample_parse "calculation_type_enum=1").1 !! "calculation_type_enum"
  = Some (PNum 1%float)
  /\ (sample_run Examples.sun_widget None (display_name TOTAL_EMERGY)
        "calculation_type_enum=1" EmptyString EmptyString EmptyString EmptyString).1
     = None
  /\ exists warnings : list Dialog,
       (sample_run Examples.sun_widget None (display_name TOTAL_EMERGY)
          "calculation_type_enum=1" EmptyString EmptyString EmptyString EmptyString).2
       = warnings
         ++ [mkDialog ShowError "Erro Interno de Cálculo"
               "Tipo de cálculo inválido ou não especificado."].
Proof.
  assert (Hv : (sample_parse "calculation_type_enum=1").1 !! "calculation_type_enum"
               = Some (PNum 1%float)) by (vm_compute; reflexivity).
  split; [exact Hv|].
  destruct (parameter_named_calculation_type_enum Sample.float_of_digits
              Sample.float_text Sample.float_text Sample.dict_text lower_ascii
              "calculation_type_enum=1" (PNum 1%float) Examples.sun_widget None
              (display_name TOTAL_EMERGY) EmptyString EmptyString EmptyString
              EmptyString Hv) as (Hres & _ & Hlast).
  split; [exact Hres|].
  exact (Hlast TOTAL_EMERGY eq_refl ltac:(discriminate) eq_refl).
Defined.

(** X25 on results with one contribution of 1.5e5 of Sun to Widget. *)
Lemma pie_slices_are_significant_witness :
  update_pie_chart None (Some sun_results) "Widget"
  = ChartPie ["Sun"] [1.5e5%float] true
  /\ distinct ["Widget"] = true
  /\ Forall (fun x => (chart_threshold <? x)%float = true /\ (0 <? x)%float = true
                      /\ PyFloat.isna x = false) [1.5e5%float]
  /\ "Widget" <> "Nenhum".
Proof.
  assert (Hpie : update_pie_chart None (Some sun_results) "Widget"
                 = ChartPie ["Sun"] [1.5e5%float] true) by (vm_compute; reflexivity).
  split; [exact Hpie|]. split; [reflexivity|].
  assert (Hcols : forall (r : Results) (table : DataFrame),
             Some sun_results = Some r ->
             emergy_per_input_flow_for_each_process r = Some table ->
             distinct (columns table) = true).
  { intros r table [= <-] [= <-]. reflexivity. }
  destruct (pie_slices_are_significant None (Some sun_results) "Widget" ["Sun"]
              [1.5e5%float] true Hcols Hpie) as (_ & _ & Hall & _ & Hnone & _).
  split; [exact Hall|exact Hnone].
Defined.

